(** * Verification of the Bigdata.com cookbook scripts and search agent

    A shallow embedding of the parts of the repository that its
    specification talks about:

    - [graph.py]: [_clean_tool_parameters], [initiate_parallel_searches];
    - [utils.py]: the client singleton ([get_bigdata_client],
      [reset_bigdata_client]), [_parse_date_range],
      [_format_search_results] and the five asynchronous search functions;
    - [batch_file_upload.py]: [upload_file], [bulk_upload_files];
    - [batch_file_analytics_download.py]: [download_analytics_file].

    Python values, strings, floats and exceptions are modelled in [Py];
    stateful code runs in a state-and-exception monad whose state survives
    a raise, as it does in Python. *)

From Stdlib Require Import ZArith List String Ascii Bool Lia Permutation.
From Stdlib Require Import Floats.SpecFloat DecimalString.
Import ListNotations.

Open Scope string_scope.
Open Scope Z_scope.

(* ===================================================================== *)
(** * Python values and builtins *)
(* ===================================================================== *)

Module Py.

(** ** Exceptions

    Only instances of [Exception] are modelled: these are what the
    [except Exception] clauses of the repository range over.  [str(e)]
    is the message the exception carries. *)

Inductive exc_class :=
| ValueError
| OverflowError
| AttributeError
| BigdataClientRateLimitError
| OtherException (name : string).

Record exn := Exn { exn_class : exc_class; exn_str : string }.

Definition is_ValueError (e : exn) : bool :=
  match exn_class e with ValueError => true | _ => false end.

Definition is_BigdataClientRateLimitError (e : exn) : bool :=
  match exn_class e with BigdataClientRateLimitError => true | _ => false end.

(** The result of running a piece of Python: a value or a raised
    exception. *)
Inductive outcome (A : Type) :=
| Returns (a : A)
| Raises (e : exn).
Arguments Returns {A} a.
Arguments Raises {A} e.

Definition returned {A} (o : outcome A) : bool :=
  match o with Returns _ => true | Raises _ => false end.

(** ** State-and-exception monad: [S] is the mutable world. *)

Definition M (S A : Type) := S -> outcome A * S.

Definition ret {S A} (a : A) : M S A := fun s => (Returns a, s).

Definition raise {S A} (e : exn) : M S A := fun s => (Raises e, s).

Definition bind {S A B} (c : M S A) (k : A -> M S B) : M S B :=
  fun s => match c s with
           | (Returns a, s') => k a s'
           | (Raises e, s') => (Raises e, s')
           end.

(** [try: c  except Exception as e: h e] *)
Definition try_except {S A} (c : M S A) (h : exn -> M S A) : M S A :=
  fun s => match c s with
           | (Returns a, s') => (Returns a, s')
           | (Raises e, s') => h e s'
           end.

(** [try: c  except <class>: h e]: exceptions outside the class propagate. *)
Definition try_except_class {S A} (cls : exn -> bool)
           (c : M S A) (h : exn -> M S A) : M S A :=
  fun s => match c s with
           | (Returns a, s') => (Returns a, s')
           | (Raises e, s') => if cls e then h e s' else (Raises e, s')
           end.

Definition modify {S} (f : S -> S) : M S unit := fun s => (Returns tt, f s).

Definition gets {S A} (f : S -> A) : M S A := fun s => (Returns (f s), s).

(** Pure code that may raise, lifted into the monad. *)
Definition lift {S A} (o : outcome A) : M S A := fun s => (o, s).

(** ** Strings

    A [str] is a [string] whose characters are read as the code points
    U+0000 to U+00FF.  The character classes below are those of
    [str.isdigit], [str.isspace] and [str.lower] on that range. *)

Definition code (c : ascii) : N := N_of_ascii c.

Definition between (lo hi n : N) : bool := ((lo <=? n) && (n <=? hi))%N.

(** [c.isdigit()]: the decimal digits and the superscripts U+00B2,
    U+00B3, U+00B9. *)
Definition char_isdigit (c : ascii) : bool :=
  let n := code c in
  (between 48 57 n || (n =? 178) || (n =? 179) || (n =? 185))%N.

(** The characters [int()] accepts as base-10 digits. *)
Definition char_isdecimal (c : ascii) : bool := between 48 57 (code c).

Definition char_isspace (c : ascii) : bool :=
  let n := code c in
  (between 9 13 n || between 28 32 n || (n =? 133) || (n =? 160))%N.

Definition char_lower (c : ascii) : ascii :=
  let n := code c in
  if (between 65 90 n || (between 192 222 n && negb (n =? 215)))%N
  then ascii_of_N (n + 32) else c.

Fixpoint str_forallb (p : ascii -> bool) (s : string) : bool :=
  match s with
  | EmptyString => true
  | String c s' => p c && str_forallb p s'
  end.

(** [s.isdigit()]: non-empty and every character is a digit. *)
Definition isdigit (s : string) : bool :=
  match s with
  | EmptyString => false
  | _ => str_forallb char_isdigit s
  end.

Fixpoint lower (s : string) : string :=
  match s with
  | EmptyString => EmptyString
  | String c s' => String (char_lower c) (lower s')
  end.

(** [needle in hay] *)
Fixpoint str_in (needle hay : string) : bool :=
  if prefix needle hay then true
  else match hay with
       | EmptyString => false
       | String _ hay' => str_in needle hay'
       end.

Fixpoint lstrip (s : string) : string :=
  match s with
  | String c s' => if char_isspace c then lstrip s' else s
  | EmptyString => EmptyString
  end.

Fixpoint rstrip (s : string) : string :=
  match s with
  | EmptyString => EmptyString
  | String c s' =>
      match rstrip s' with
      | EmptyString => if char_isspace c then EmptyString else String c EmptyString
      | t => String c t
      end
  end.

(** [s.strip()] *)
Definition strip (s : string) : string := rstrip (lstrip s).

(** [s.split(sep)] for a one-character separator: never empty. *)
Fixpoint split (sep : ascii) (s : string) : list string :=
  match s with
  | EmptyString => [EmptyString]
  | String c s' =>
      if Ascii.eqb c sep then EmptyString :: split sep s'
      else match split sep s' with
           | p :: ps => String c p :: ps
           | [] => [String c EmptyString]
           end
  end.

(** ** Integers from strings

    [int(s)] for the strings the repository passes to it, those with
    [s.isdigit()]: the literal is read in base 10 when every character
    is a decimal digit, and [ValueError] is raised otherwise. *)

Fixpoint digits_value (acc : Z) (s : string) : Z :=
  match s with
  | EmptyString => acc
  | String c s' => digits_value (10 * acc + (Z.of_N (code c) - 48)) s'
  end.

Definition int_of_str (s : string) : outcome Z :=
  match s with
  | EmptyString =>
      Raises (Exn ValueError "invalid literal for int() with base 10")
  | _ =>
      if str_forallb char_isdecimal s then Returns (digits_value 0 s)
      else Raises (Exn ValueError "invalid literal for int() with base 10")
  end.

(** ** Floats: IEEE 754 binary64 values *)

Definition float := spec_float.

Definition prec : Z := 53.
Definition emax : Z := 1024.

(** [int(f)]: truncation toward zero; NaN and the infinities raise. *)
Definition int_of_float (f : float) : outcome Z :=
  match f with
  | S754_zero _ => Returns 0
  | S754_nan => Raises (Exn ValueError "cannot convert float NaN to integer")
  | S754_infinity _ =>
      Raises (Exn OverflowError "cannot convert float infinity to integer")
  | S754_finite s m e =>
      let mag := Z.shiftl (Zpos m) e in
      Returns (if s then - mag else mag)
  end.

(** [float(z)]: the nearest binary64 value (ties to even); an integer
    that rounds beyond the largest finite float raises. *)
Definition float_of_int (z : Z) : outcome float :=
  match binary_normalize prec emax z 0 false with
  | S754_infinity _ => Raises (Exn OverflowError "int too large to convert to float")
  | f => Returns f
  end.

(** ** Dynamically typed values *)

#[warnings="-register-all"]
Inductive value :=
| VNone
| VBool (b : bool)
| VInt (z : Z)
| VFloat (f : float)
| VStr (s : string)
| VList (l : list value)
| VDict (d : list (string * value))
| VObject (repr : string).   (* an instance of any other class *)

(** A [dict] with [str] keys, in insertion order. *)
Definition dict := list (string * value).

Fixpoint dict_get (d : dict) (k : string) : option value :=
  match d with
  | [] => None
  | (k', v) :: d' => if String.eqb k' k then Some v else dict_get d' k
  end.

(** [d[k] = v]: replaces the value of an existing key in place, appends
    a new key. *)
Fixpoint dict_set (d : dict) (k : string) (v : value) : dict :=
  match d with
  | [] => [(k, v)]
  | (k', v') :: d' =>
      if String.eqb k' k then (k', v) :: d' else (k', v') :: dict_set d' k v
  end.

Definition keys (d : dict) : list string := map fst d.

Definition str_in_list (k : string) (l : list string) : bool :=
  existsb (String.eqb k) l.

End Py.

Module PyNotations.
Notation "x <- c ;; k" := (Py.bind c (fun x => k))
  (at level 61, c at next level, right associativity).
Notation "c ;;; k" := (Py.bind c (fun _ => k))
  (at level 61, right associativity).
End PyNotations.

(* ===================================================================== *)
(** * graph.py *)
(* ===================================================================== *)

Module Graph.
Import Py.

Section CleanToolParameters.

(** [float(s)] on a [str]: the parsed float, or [None] where Python
    raises [ValueError].  A builtin of the language, left abstract. *)
Variable float_of_str : string -> option float.

Definition list_keys : list string :=
  ["transcript_types"; "section_metadata"; "filing_types";
   "document_types"; "sources"].

Definition numeric_keys : list string :=
  ["fiscal_year"; "fiscal_quarter"; "max_results"].

Definition float_keys : list string := ["rerank_threshold"].

Definition string_keys : list string := ["search_type"; "date_range"].

Definition dict_keys : list string := ["filters"].

(** [int(value)] where [isinstance(value, (int, float))]; [bool] is a
    subclass of [int]. *)
Definition int_of_number (v : value) : outcome Z :=
  match v with
  | VBool b => Returns (if b then 1 else 0)
  | VInt z => Returns z
  | VFloat f => int_of_float f
  | _ => Raises (Exn (OtherException "TypeError") "int() argument")
  end.

(** [float(value)] where [isinstance(value, (int, float))]. *)
Definition float_of_number (v : value) : outcome float :=
  match v with
  | VBool b => float_of_int (if b then 1 else 0)
  | VInt z => float_of_int z
  | VFloat f => Returns f
  | _ => Raises (Exn (OtherException "TypeError") "float() argument")
  end.

Definition store (cleaned : dict) (key : string) (o : outcome value)
  : outcome dict :=
  match o with
  | Returns v => Returns (dict_set cleaned key v)
  | Raises e => Raises e
  end.

Definition map_outcome {A B} (f : A -> B) (o : outcome A) : outcome B :=
  match o with
  | Returns a => Returns (f a)
  | Raises e => Raises e
  end.

(** One iteration of the [for key, value in params.items()] loop:
    the dictionary [cleaned] after it, or the exception that leaves
    the function. *)
Definition clean_item (cleaned : dict) (key : string) (v : value)
  : outcome dict :=
  match v with
  | VNone => Returns cleaned
  | _ =>
    if str_in_list key list_keys then
      match v with
      | VBool _ => Returns cleaned
      | VStr _ => Returns (dict_set cleaned key (VList [v]))
      | VList _ => Returns (dict_set cleaned key v)
      | _ => Returns cleaned
      end
    else if str_in_list key numeric_keys then
      match v with
      | VBool _ | VInt _ | VFloat _ =>
          store cleaned key (map_outcome VInt (int_of_number v))
      | VStr s =>
          if isdigit s
          then store cleaned key (map_outcome VInt (int_of_str s))
          else Returns cleaned
      | _ => Returns cleaned
      end
    else if str_in_list key float_keys then
      match v with
      | VBool _ | VInt _ | VFloat _ =>
          store cleaned key (map_outcome VFloat (float_of_number v))
      | VStr s =>
          match float_of_str s with
          | Some f => Returns (dict_set cleaned key (VFloat f))
          | None => Returns cleaned
          end
      | _ => Returns cleaned
      end
    else if str_in_list key string_keys then
      match v with
      | VStr _ => Returns (dict_set cleaned key v)
      | _ => Returns cleaned
      end
    else if str_in_list key dict_keys then
      match v with
      | VDict _ => Returns (dict_set cleaned key v)
      | _ => Returns cleaned
      end
    else
      match v with
      | VStr _ | VInt _ | VFloat _ | VBool _ | VList _ | VDict _ =>
          Returns (dict_set cleaned key v)
      | _ => Returns cleaned
      end
  end.

Fixpoint clean_loop (items : dict) (cleaned : dict) : outcome dict :=
  match items with
  | [] => Returns cleaned
  | (key, v) :: rest =>
      match clean_item cleaned key v with
      | Returns cleaned' => clean_loop rest cleaned'
      | Raises e => Raises e
      end
  end.

Definition _clean_tool_parameters (params : dict) (tool_type : string)
  : outcome dict :=
  clean_loop params [].

End CleanToolParameters.

(** ** State of the workflow graph (state.py) *)

Record SearchStrategy := {
  tool_type : string;
  search_queries : list string;
  parameters : dict;
  priority : Z;
  description : string }.

Record SearchResult := {
  result_strategy : SearchStrategy;
  results : list dict;
  metadata : dict;
  quality_score : option float }.

(** The keys of [BigdataSearchState] that the routing function reads.
    [topic] and [search_strategies] are subscripted; the two optional
    keys are read with [state.get], which gives [None] both for a key
    that is absent (outer [None]) and for a key bound to [None]. *)
Record BigdataSearchState := {
  topic : string;
  entity_preference : option (option (list string));
  date_range : option (option string);
  search_strategies : list SearchStrategy }.

Definition state_get {A} (field : option (option A)) : option A :=
  match field with
  | Some v => v
  | None => None
  end.

(** The argument of a [Send]: a [SearchStrategyState]. *)
Record SearchStrategyState := {
  arg_topic : string;
  strategy : SearchStrategy;
  entity_ids : option (list string);
  global_date_range : option string;
  completed_searches : list SearchResult }.

Record Send := { node : string; arg : SearchStrategyState }.

Definition initiate_parallel_searches (state : BigdataSearchState)
  : list Send :=
  map (fun s =>
         {| node := "execute_search_strategy";
            arg := {| arg_topic := topic state;
                      strategy := s;
                      entity_ids := state_get (entity_preference state);
                      global_date_range := state_get (date_range state);
                      completed_searches := [] |} |})
      (search_strategies state).

End Graph.

(* ===================================================================== *)
(** * utils.py *)
(* ===================================================================== *)

Module Utils.
Import Py PyNotations.

(** ** Date ranges *)

Inductive RollingDateRange :=
| TODAY | YESTERDAY | THIS_WEEK | LAST_WEEK | LAST_SEVEN_DAYS
| LAST_THIRTY_DAYS | LAST_NINETY_DAYS | YEAR_TO_DATE | LAST_YEAR.

Record AbsoluteDateRange := { start_dt : string; end_dt : string }.

Inductive date_range_obj :=
| Rolling (r : RollingDateRange)
| Absolute (a : AbsoluteDateRange).

Definition rolling_ranges : list (string * RollingDateRange) :=
  [("today", TODAY);
   ("yesterday", YESTERDAY);
   ("this_week", THIS_WEEK);
   ("last_week", LAST_WEEK);
   ("last_7_days", LAST_SEVEN_DAYS);
   ("last_month", LAST_THIRTY_DAYS);
   ("last_30_days", LAST_THIRTY_DAYS);
   ("last_90_days", LAST_NINETY_DAYS);
   ("year_to_date", YEAR_TO_DATE);
   ("last_year", LAST_YEAR)].

Fixpoint lookup {A} (table : list (string * A)) (k : string) : option A :=
  match table with
  | [] => None
  | (k', a) :: table' => if String.eqb k' k then Some a else lookup table' k
  end.

Section ParseDateRange.

(** The constructor of the vendor class [AbsoluteDateRange], which
    validates its two arguments: [None] when it accepts them, the
    exception it raises otherwise. *)
Variable AbsoluteDateRange_init : string -> string -> option exn.

Definition new_AbsoluteDateRange (s e : string) : outcome AbsoluteDateRange :=
  match AbsoluteDateRange_init s e with
  | None => Returns {| start_dt := s; end_dt := e |}
  | Some x => Raises x
  end.

(** [start_date, end_date = date_range.split(",")]: unpacking anything
    but two parts raises [ValueError]. *)
Definition unpack2 (parts : list string) : outcome (string * string) :=
  match parts with
  | [a; b] => Returns (a, b)
  | _ :: _ :: _ :: _ =>
      Raises (Exn ValueError "too many values to unpack (expected 2)")
  | _ => Raises (Exn ValueError "not enough values to unpack (expected 2)")
  end.

Definition _parse_date_range (date_range : option string)
  : outcome (option date_range_obj) :=
  match date_range with
  | None => Returns None
  | Some EmptyString => Returns None
  | Some s =>
      match lookup rolling_ranges s with
      | Some r => Returns (Some (Rolling r))
      | None =>
          if str_in "," s then
            let attempt :=
              match unpack2 (split "," s) with
              | Returns (start_date, end_date) =>
                  match new_AbsoluteDateRange
                          (strip start_date ++ "T00:00:00")
                          (strip end_date ++ "T23:59:59") with
                  | Returns a => Returns (Some (Absolute a))
                  | Raises e => Raises e
                  end
              | Raises e => Raises e
              end in
            match attempt with
            | Raises e => if is_ValueError e then Returns None else Raises e
            | r => r
            end
          else Returns None
      end
  end.

End ParseDateRange.

(** ** Vendor response objects

    An attribute that an object may lack is an [option]: [None] is
    [hasattr(obj, name) == False]. *)

Record Chunk := {
  chunk_text : option string;
  chunk_relevance : option float;
  chunk_chunk : option Z;
  chunk_sentiment : option float;
  chunk_entities : option (list value) }.

Record Source := { source_name : option string; source_key : option string }.

Record Document := {
  doc_headline : option string;
  doc_title : option string;
  doc_url : option string;
  doc_id : option string;
  doc_timestamp : option value;
  doc_sentiment : option value;
  doc_language : option value;
  doc_source : option Source;
  doc_chunks : option (list Chunk) }.

(** [getattr(obj, name, default)] *)
Definition getattr {A} (attr : option A) (default : A) : A :=
  match attr with Some a => a | None => default end.

Definition opt_value {A} (inj : A -> value) (o : option A) : value :=
  match o with Some a => inj a | None => VNone end.

Definition format_chunk (doc : Document) (include_raw_content : bool)
           (chunk : Chunk) : dict :=
  [("title", VStr (getattr (doc_headline doc) (getattr (doc_title doc) "Document")));
   ("url", VStr (getattr (doc_url doc)
                         ("bigdata://document/" ++ getattr (doc_id doc) "unknown")));
   ("content", VStr (getattr (chunk_text chunk) ""));
   ("score", VFloat (getattr (chunk_relevance chunk) (S754_zero false)));
   ("raw_content",
     if include_raw_content then opt_value VStr (chunk_text chunk) else VNone);
   ("chunk_index", VInt (getattr (chunk_chunk chunk) 0));
   ("document_id", opt_value VStr (doc_id doc));
   ("document_timestamp", getattr (doc_timestamp doc) VNone);
   ("document_sentiment", getattr (doc_sentiment doc) VNone);
   ("language", getattr (doc_language doc) VNone);
   ("chunk_sentiment", opt_value VFloat (chunk_sentiment chunk));
   ("source_name",
     match doc_source doc with
     | Some src => opt_value VStr (source_name src)
     | None => VNone
     end);
   ("source_key",
     match doc_source doc with
     | Some src => opt_value VStr (source_key src)
     | None => VNone
     end);
   ("entities", VList (getattr (chunk_entities chunk) []))].

(** [doc.chunks] raises [AttributeError] on a document without chunks. *)
Fixpoint _format_search_results (documents : list Document)
         (include_raw_content : bool) : outcome (list dict) :=
  match documents with
  | [] => Returns []
  | doc :: rest =>
      match doc_chunks doc with
      | None => Raises (Exn AttributeError "object has no attribute 'chunks'")
      | Some chunks =>
          match _format_search_results rest include_raw_content with
          | Returns more =>
              Returns (map (format_chunk doc include_raw_content) chunks ++ more)%list
          | Raises e => Raises e
          end
      end
  end.

(** ** The client singleton and the world the search functions run in *)

Record Bigdata := {
  client_serial : nat;          (* which constructor call built it *)
  client_username : string;
  client_password : string }.

Record world := {
  _bigdata_client : option Bigdata;      (* the module-level global *)
  BIGDATA_USERNAME : option string;      (* os.environ *)
  BIGDATA_PASSWORD : option string;
  constructions : nat;   (* calls of the [Bigdata] constructor so far *)
  executions : nat;      (* closures handed to the executor so far *)
  stdout : list string;
  slept : list Z }.

Definition set_client (c : option Bigdata) (w : world) : world :=
  {| _bigdata_client := c;
     BIGDATA_USERNAME := BIGDATA_USERNAME w;
     BIGDATA_PASSWORD := BIGDATA_PASSWORD w;
     constructions := constructions w;
     executions := executions w;
     stdout := stdout w;
     slept := slept w |}.

Definition count_construction (w : world) : world :=
  {| _bigdata_client := _bigdata_client w;
     BIGDATA_USERNAME := BIGDATA_USERNAME w;
     BIGDATA_PASSWORD := BIGDATA_PASSWORD w;
     constructions := S (constructions w);
     executions := executions w;
     stdout := stdout w;
     slept := slept w |}.

Definition count_execution (w : world) : world :=
  {| _bigdata_client := _bigdata_client w;
     BIGDATA_USERNAME := BIGDATA_USERNAME w;
     BIGDATA_PASSWORD := BIGDATA_PASSWORD w;
     constructions := constructions w;
     executions := S (executions w);
     stdout := stdout w;
     slept := slept w |}.

Definition write_stdout (line : string) (w : world) : world :=
  {| _bigdata_client := _bigdata_client w;
     BIGDATA_USERNAME := BIGDATA_USERNAME w;
     BIGDATA_PASSWORD := BIGDATA_PASSWORD w;
     constructions := constructions w;
     executions := executions w;
     stdout := (stdout w ++ [line])%list;
     slept := slept w |}.

Definition record_sleep (seconds : Z) (w : world) : world :=
  {| _bigdata_client := _bigdata_client w;
     BIGDATA_USERNAME := BIGDATA_USERNAME w;
     BIGDATA_PASSWORD := BIGDATA_PASSWORD w;
     constructions := constructions w;
     executions := executions w;
     stdout := stdout w;
     slept := (slept w ++ [seconds])%list |}.

Definition print (line : string) : M world unit := modify (write_stdout line).

Definition sleep (seconds : Z) : M world unit := modify (record_sleep seconds).

(** [not s] for an [Optional[str]] *)
Definition falsy (o : option string) : bool :=
  match o with
  | None => true
  | Some s => String.eqb s ""
  end.

Definition AUTH_ERRORS : list string :=
  ["authentication"; "unauthorized"; "token"; "jwt"; "login"].

(** [any(auth_error in str(e).lower() for auth_error in [...])] *)
Definition is_auth_error (e : exn) : bool :=
  let error_str := lower (exn_str e) in
  existsb (fun auth_error => str_in auth_error error_str) AUTH_ERRORS.

(** What a knowledge-graph lookup yields: objects with a [__dict__],
    whose [datetime] attributes are given by their ISO form, or simple
    objects, given by their [str()]. *)
Inductive kg_attr :=
| KgDatetime (isoformat : string)
| KgValue (v : value).

Inductive kg_item :=
| KgObject (__dict__ : list (string * kg_attr))
| KgSimple (str : string).

Definition format_kg_item (item : kg_item) : dict :=
  match item with
  | KgObject attrs =>
      fold_left
        (fun result_dict kv =>
           match snd kv with
           | KgDatetime iso => dict_set result_dict (fst kv) (VStr iso)
           | KgValue v => dict_set result_dict (fst kv) v
           end)
        attrs []
  | KgSimple s => [("result", VStr s)]
  end.

Section Client.

(** The import of [bigdata_client] succeeded. *)
Variable BIGDATA_AVAILABLE : bool.

(** [Bigdata(username, password)], by the number of the constructor
    call: [None] when the client is built, the exception raised
    otherwise. *)
Variable Bigdata_init : nat -> string -> string -> option exn.

(** The closure a search function hands to the executor (query
    construction with the vendor classes, [_parse_date_range],
    [bigdata.search.new] and [search.run]), by the number of the
    execution: it receives the kind of search, the client and the query,
    and returns documents or raises.  The other arguments of a search
    function ([max_results], [date_range], the filters) are read by this
    closure only. *)
Variable execute_search :
  nat -> string -> Bigdata -> string -> outcome (list Document).

(** The knowledge-graph closure: search type, client and term. *)
Variable execute_knowledge_graph_search :
  nat -> string -> Bigdata -> string -> outcome (list kg_item).

Definition not_available : exn :=
  Exn ValueError
      "bigdata_client not available. Please install it with: pip install bigdata-client".

Definition no_credentials : exn :=
  Exn ValueError
      "BIGDATA_USERNAME and BIGDATA_PASSWORD environment variables must be set".

(** The body runs with [_bigdata_client_lock] held, and so does that
    of [reset_bigdata_client]: calls of the two functions do not
    interleave, each is one step on the world. *)
Definition get_bigdata_client : M world Bigdata :=
  if negb BIGDATA_AVAILABLE then raise not_available
  else
    client <- gets _bigdata_client ;;
    match client with
    | Some bigdata => ret bigdata
    | None =>
        username <- gets BIGDATA_USERNAME ;;
        password <- gets BIGDATA_PASSWORD ;;
        if falsy username || falsy password then raise no_credentials
        else
          let u := getattr username "" in
          let p := getattr password "" in
          n <- gets constructions ;;
          modify count_construction ;;;
          match Bigdata_init n u p with
          | Some e => raise e
          | None =>
              let bigdata := {| client_serial := n;
                                client_username := u;
                                client_password := p |} in
              modify (set_client (Some bigdata)) ;;;
              ret bigdata
          end
    end.

Definition reset_bigdata_client : M world unit :=
  modify (set_client None).

(** The [except Exception as e] block shared by the search functions. *)
Definition on_search_error (what : string) (e : exn) : M world unit :=
  (if is_auth_error e then
     print ("Authentication error detected, resetting Bigdata client: "
              ++ exn_str e) ;;;
     reset_bigdata_client
   else ret tt) ;;;
  print ("Error processing Bigdata " ++ what ++ ": " ++ exn_str e).

Definition run_in_executor {A} (closure : nat -> outcome A) : M world A :=
  n <- gets executions ;;
  modify count_execution ;;;
  lift (closure n).

(** The [for query in search_queries] loop, the same in the news,
    transcript, filings and universal search but for the closure and
    the word in the message.  [n_queries] is [len(search_queries)]. *)
Fixpoint search_loop (kind : string) (bigdata : Bigdata)
         (include_raw_content : bool) (n_queries : nat)
         (queries : list string) (all_results : list dict)
  : M world (list dict) :=
  match queries with
  | [] => ret all_results
  | query :: rest =>
      all_results' <-
        try_except
          (documents <-
             run_in_executor (fun n => execute_search n kind bigdata query) ;;
           formatted_results <-
             lift (_format_search_results documents include_raw_content) ;;
           (if (1 <? n_queries)%nat then sleep 1 else ret tt) ;;;
           ret (all_results ++ formatted_results)%list)
          (fun e =>
             on_search_error (kind ++ " query '" ++ query ++ "'") e ;;;
             ret all_results) ;;
      search_loop kind bigdata include_raw_content n_queries rest all_results'
  end.

Definition search_async (kind : string) (search_queries : list string)
           (include_raw_content : bool) : M world (list dict) :=
  if negb BIGDATA_AVAILABLE then raise not_available
  else
    bigdata <- get_bigdata_client ;;
    search_loop kind bigdata include_raw_content
                (List.length search_queries) search_queries [].

Definition bigdata_news_search_async := search_async "news".
Definition bigdata_transcript_search_async := search_async "transcript".
Definition bigdata_filings_search_async := search_async "filings".
Definition bigdata_universal_search_async := search_async "universal".

Definition bigdata_knowledge_graph_async (search_type search_term : string)
  : M world (list dict) :=
  if negb BIGDATA_AVAILABLE then raise not_available
  else if negb (str_in_list search_type ["companies"; "sources"; "autosuggest"])
  then raise (Exn ValueError
                  ("Invalid search_type '" ++ search_type
                     ++ "'. Must be one of: companies, sources, autosuggest"))
  else
    bigdata <- get_bigdata_client ;;
    try_except
      (raw_results <-
         run_in_executor
           (fun n => execute_knowledge_graph_search n search_type bigdata search_term) ;;
       ret (map format_kg_item raw_results))
      (fun e =>
         on_search_error ("knowledge graph search '" ++ search_term ++ "'") e ;;;
         ret []).

End Client.

End Utils.

(* ===================================================================== *)
(** * batch_file_upload.py and batch_file_analytics_download.py *)
(* ===================================================================== *)

(** What the two scripts have in common: the status constants, and the
    world a worker acts on (vendor calls made, seconds slept, log). *)
Module Batch.
Import Py PyNotations.

Definition UPLOAD_DONE : string := "UPLOAD_DONE".
Definition UPLOAD_ERROR : string := "UPLOAD_ERROR".
Definition DOWNLOAD_DONE : string := "DOWNLOAD_DONE".
Definition DOWNLOAD_ERROR : string := "DOWNLOAD_ERROR".

Inductive level := INFO | WARNING | ERROR.

Record world := {
  attempts : nat;                    (* try blocks entered so far *)
  slept : list Z;                    (* arguments of [time.sleep] *)
  logged : list (level * string) }.

Definition initial : world := {| attempts := 0; slept := []; logged := [] |}.

Definition count_attempt (w : world) : world :=
  {| attempts := S (attempts w); slept := slept w; logged := logged w |}.

Definition record_sleep (seconds : Z) (w : world) : world :=
  {| attempts := attempts w;
     slept := (slept w ++ [seconds])%list;
     logged := logged w |}.

Definition record_log (l : level) (msg : string) (w : world) : world :=
  {| attempts := attempts w;
     slept := slept w;
     logged := (logged w ++ [(l, msg)])%list |}.

Definition sleep (seconds : Z) : M world unit := modify (record_sleep seconds).

Definition logging (l : level) (msg : string) : M world unit :=
  modify (record_log l msg).

(** [str(n)] for an [int] *)
Definition str_of_int (z : Z) : string :=
  DecimalString.NilZero.string_of_int (Z.to_int z).

Definition max_try : nat := 5.

(** [min(2**attempt, 10)] *)
Definition backoff (attempt : Z) : Z := Z.min (2 ^ attempt) 10.

(** How a pass through the body of the [while] loop ends: at a
    [return], or at the end of the [except] block with the new value of
    [attempt]. *)
Inductive pass (A : Type) :=
| Return (a : A)
| Next (attempt : Z).
Arguments Return {A} a.
Arguments Next {A} attempt.

End Batch.

Module BatchUpload.
Import Py PyNotations Batch.

Section UploadFile.

(** [bigdata.uploads.upload_from_disk(file_path, skip_metadata=True)]
    followed by [file.id], by the number of the attempt: the id of
    the uploaded file, or the exception raised. *)
Variable upload_from_disk : nat -> string -> outcome string.

Definition try_upload (file_path : string) : M world string :=
  n <- gets attempts ;;
  modify count_attempt ;;;
  lift (upload_from_disk n file_path).

(** [while attempt < max_try], with [remaining = max_try - attempt]
    passes still allowed: the condition holds exactly when
    [remaining] is a successor. *)
Fixpoint upload_loop (remaining : nat) (attempt : Z) (file_path : string)
  : M world (string * string * string) :=
  match remaining with
  | O => ret (file_path, "", UPLOAD_ERROR)
  | S remaining' =>
      p <- try_except_class is_BigdataClientRateLimitError
             (file_id <- try_upload file_path ;;
              ret (Return (file_path, file_id, UPLOAD_DONE)))
             (fun _ =>
                let attempt := attempt + 1 in
                sleep (backoff attempt) ;;;
                logging WARNING (str_of_int attempt ++ " failed: " ++ file_path) ;;;
                ret (Next attempt)) ;;
      match p with
      | Return r => ret r
      | Next attempt' => upload_loop remaining' attempt' file_path
      end
  end.

Definition upload_file (file_path : string)
  : M world (string * string * string) :=
  upload_loop max_try 0 file_path.

End UploadFile.

(** ** [bulk_upload_files] *)

Definition row := list string.

(** The main thread: the rows of the result CSV and its own log. *)
Record main := { result_csv : list row; main_log : list (level * string) }.

Definition writerow (r : row) (m : main) : main :=
  {| result_csv := (result_csv m ++ [r])%list; main_log := main_log m |}.

Definition main_logging (l : level) (msg : string) (m : main) : main :=
  {| result_csv := result_csv m;
     main_log := (main_log m ++ [(l, msg)])%list |}.

(** A submitted future: the path it was submitted with, and what
    [future.result()] does once the worker is done. *)
Record future := {
  submitted_path : string;
  result : outcome (string * string * string) }.

Section BulkUploadFiles.

(** The vendor as seen by the worker of the [i]-th submitted future. *)
Variable upload_from_disk : nat -> nat -> string -> outcome string.

(** [executor.submit(upload_file, bigdata, file_path)]: the worker runs
    [upload_file] in a thread of its own. *)
Definition submit (i : nat) (file_path : string) : future :=
  {| submitted_path := file_path;
     result := fst (upload_file (upload_from_disk i) file_path initial) |}.

Fixpoint submit_all (i : nat) (upload_txt : list string) : list future :=
  match upload_txt with
  | [] => []
  | line :: rest => submit i (strip line) :: submit_all (S i) rest
  end.

(** The body of the [for future in as_completed(...)] loop. *)
Definition on_completed (f : future) : M main unit :=
  let file_path := submitted_path f in
  match result f with
  | Returns (file_path, file_id, upload_status) =>
      (if String.eqb upload_status UPLOAD_ERROR
       then modify (main_logging ERROR
                      ("Error to upload file " ++ file_path ++ ", max retries reached"))
       else modify (main_logging INFO ("Success upload file " ++ file_path))) ;;;
      modify (writerow [file_id; upload_status; file_path])
  | Raises e =>
      modify (main_logging ERROR ("Error to upload file " ++ file_path)) ;;;
      modify (writerow [""; UPLOAD_ERROR; file_path])
  end.

(** [completion] is the order in which [as_completed] yields the
    futures, as positions in the order of submission. *)
Fixpoint completed_loop (futures : list future) (completion : list nat)
  : M main unit :=
  match completion with
  | [] => ret tt
  | i :: rest =>
      match nth_error futures i with
      | Some f => on_completed f ;;; completed_loop futures rest
      | None => completed_loop futures rest
      end
  end.

(** [ThreadPoolExecutor(max_workers=max_concurrency)] raises
    [ValueError] unless [max_workers] is positive. *)
Definition bulk_upload_files (max_concurrency : Z)
           (upload_txt : list string) (completion : list nat)
  : M main unit :=
  if max_concurrency <=? 0
  then raise (Exn ValueError "max_workers must be greater than 0")
  else completed_loop (submit_all 0 upload_txt) completion.

End BulkUploadFiles.

End BatchUpload.

Module BatchDownload.
Import Py PyNotations Batch.

(** POSIX [os.path.basename]: what follows the last slash. *)
Definition basename (path : string) : string :=
  last (split "/" path) "".

(** [s.replace(".", "_")] *)
Fixpoint replace_dots (s : string) : string :=
  match s with
  | EmptyString => EmptyString
  | String c s' =>
      String (if Ascii.eqb c "." then "_"%char else c) (replace_dots s')
  end.

Definition endswith_slash (s : string) : bool :=
  match last (list_ascii_of_string s) " "%char with
  | "/"%char => true
  | _ => false
  end.

(** POSIX [os.path.join(a, b)] for a [b] that does not start with a
    slash. *)
Definition path_join (a b : string) : string :=
  if String.eqb a "" || endswith_slash a then a ++ b else a ++ "/" ++ b.

Section DownloadAnalyticsFile.

(** The three vendor calls of one attempt, by the number of the
    attempt: [bigdata.uploads.get(file_id)] gives the status of the
    file or raises; the other two return nothing or raise. *)
Variable uploads_get : nat -> string -> outcome string.
Variable wait_for_analysis_complete : nat -> string -> Z -> option exn.
Variable download_analytics : nat -> string -> string -> option exn.

Definition call (o : option exn) : M world unit :=
  match o with
  | None => ret tt
  | Some e => raise e
  end.

Definition try_download (download_timeout : Z)
           (file_id output_directory absolute_path_filename : string)
  : M world unit :=
  n <- gets attempts ;;
  modify count_attempt ;;;
  logging INFO ("downloading file " ++ file_id) ;;;
  let filename := basename absolute_path_filename in
  let filename := replace_dots filename in
  let filename := path_join output_directory (filename ++ "_analytics.json") in
  status <- lift (uploads_get n file_id) ;;
  logging INFO ("downloading file status " ++ status) ;;;
  call (wait_for_analysis_complete n file_id download_timeout) ;;;
  call (download_analytics n file_id filename).

Fixpoint download_loop (remaining : nat) (attempt : Z) (download_timeout : Z)
         (file_id output_directory absolute_path_filename : string)
  : M world (string * string) :=
  match remaining with
  | O => ret (file_id, DOWNLOAD_ERROR)
  | S remaining' =>
      p <- try_except
             (try_download download_timeout file_id output_directory
                           absolute_path_filename ;;;
              ret (Return (file_id, DOWNLOAD_DONE)))
             (fun _ =>
                let attempt := attempt + 1 in
                sleep (backoff attempt) ;;;
                logging WARNING ("failed " ++ str_of_int attempt ++ ": " ++ file_id) ;;;
                ret (Next attempt)) ;;
      match p with
      | Return r => ret r
      | Next attempt' =>
          download_loop remaining' attempt' download_timeout
                        file_id output_directory absolute_path_filename
      end
  end.

Definition download_analytics_file (download_timeout : Z)
           (file_id output_directory absolute_path_filename : string)
  : M world (string * string) :=
  download_loop max_try 0 download_timeout
                file_id output_directory absolute_path_filename.

End DownloadAnalyticsFile.

End BatchDownload.

(* ===================================================================== *)
(** * utils.py: the client singleton under concurrent callers *)
(* ===================================================================== *)

(** Coroutines that call [get_bigdata_client] or [reset_bigdata_client]
    on one event loop.  A coroutine runs until it awaits something that
    is not ready, so a step of a task is what it does between two such
    points: [async with _bigdata_client_lock] on a free lock does not
    suspend, [await loop.run_in_executor(...)] does, with the lock held. *)
Module Async.
Import Py Utils.

Inductive task :=
| CallGet                    (* about to call [get_bigdata_client] *)
| CallReset                  (* about to call [reset_bigdata_client] *)
| Constructing (n : nat) (username password : string)
                             (* in [get_bigdata_client], lock held, awaiting
                                the [n]-th constructor call *)
| Finished (r : outcome Bigdata) (epoch : nat)
                             (* [get_bigdata_client] has returned or raised *)
| FinishedReset.

(** [epoch] counts the resets so far; a finished call records the epoch
    it ended in. *)
Record system := {
  shared : world;
  locked : bool;
  epoch : nat;
  tasks : nat -> task }.

Definition update (i : nat) (t : task) (ts : nat -> task) : nat -> task :=
  fun j => if Nat.eqb j i then t else ts j.

(** The call will have to build a client: none is set and the
    credentials are there. *)
Definition needs_construction (w : world) : bool :=
  match _bigdata_client w with
  | Some _ => false
  | None => negb (falsy (BIGDATA_USERNAME w) || falsy (BIGDATA_PASSWORD w))
  end.

Section Steps.

Variable BIGDATA_AVAILABLE : bool.
Variable Bigdata_init : nat -> string -> string -> option exn.

Inductive step : system -> system -> Prop :=
| step_unavailable s i :
    BIGDATA_AVAILABLE = false ->
    tasks s i = CallGet ->
    step s {| shared := shared s;
              locked := locked s;
              epoch := epoch s;
              tasks := update i (Finished (Raises not_available) (epoch s)) (tasks s) |}
| step_get s i :
    (* the lock is free and no client has to be built: the whole call
       runs without suspending *)
    BIGDATA_AVAILABLE = true ->
    tasks s i = CallGet ->
    locked s = false ->
    needs_construction (shared s) = false ->
    step s {| shared := snd (get_bigdata_client BIGDATA_AVAILABLE Bigdata_init (shared s));
              locked := false;
              epoch := epoch s;
              tasks := update i
                         (Finished
                            (fst (get_bigdata_client BIGDATA_AVAILABLE Bigdata_init
                                                     (shared s)))
                            (epoch s))
                         (tasks s) |}
| step_construct s i :
    (* the lock is free and a client has to be built: the task takes the
       lock and suspends on the executor *)
    BIGDATA_AVAILABLE = true ->
    tasks s i = CallGet ->
    locked s = false ->
    needs_construction (shared s) = true ->
    step s {| shared := count_construction (shared s);
              locked := true;
              epoch := epoch s;
              tasks := update i
                         (Constructing (constructions (shared s))
                                       (getattr (BIGDATA_USERNAME (shared s)) "")
                                       (getattr (BIGDATA_PASSWORD (shared s)) ""))
                         (tasks s) |}
| step_constructed s i n u p :
    (* the constructor has returned: the client is stored, the lock
       released *)
    tasks s i = Constructing n u p ->
    Bigdata_init n u p = None ->
    step s {| shared := set_client (Some {| client_serial := n;
                                            client_username := u;
                                            client_password := p |})
                                   (shared s);
              locked := false;
              epoch := epoch s;
              tasks := update i
                         (Finished (Returns {| client_serial := n;
                                               client_username := u;
                                               client_password := p |})
                                   (epoch s))
                         (tasks s) |}
| step_construction_failed s i n u p e :
    (* the constructor has raised: the lock is released on the way out *)
    tasks s i = Constructing n u p ->
    Bigdata_init n u p = Some e ->
    step s {| shared := shared s;
              locked := false;
              epoch := epoch s;
              tasks := update i (Finished (Raises e) (epoch s)) (tasks s) |}
| step_reset s i :
    tasks s i = CallReset ->
    locked s = false ->
    step s {| shared := snd (reset_bigdata_client (shared s));
              locked := false;
              epoch := S (epoch s);
              tasks := update i FinishedReset (tasks s) |}.

(** Before any call: the lock is free and every task is about to call. *)
Definition initial (s : system) : Prop :=
  locked s = false /\
  forall i, tasks s i = CallGet \/ tasks s i = CallReset.

Inductive reachable : system -> Prop :=
| reachable_initial s : initial s -> reachable s
| reachable_step s s' : reachable s -> step s s' -> reachable s'.

(** What holds of every reachable system. *)
Record invariant (s : system) : Prop := {
  lock_held :
    forall i n u p, tasks s i = Constructing n u p ->
                    locked s = true /\ _bigdata_client (shared s) = None;
  one_constructor :
    forall i j n u p n' u' p',
      tasks s i = Constructing n u p ->
      tasks s j = Constructing n' u' p' -> i = j;
  current_client :
    forall i b e, tasks s i = Finished (Returns b) e ->
                  (e <= epoch s)%nat /\
                  (e = epoch s -> _bigdata_client (shared s) = Some b);
  same_client :
    forall i j b b' e,
      tasks s i = Finished (Returns b) e ->
      tasks s j = Finished (Returns b') e -> b = b' }.

End Steps.

End Async.

(* ===================================================================== *)
(** * Vocabulary of the statements *)
(* ===================================================================== *)

(** Definitions that the theorems below are stated with.  They describe
    runs of the code from outside and are not translations of it. *)
Module Spec.
Import Py.

(** The one-character string U+00B2 (superscript two). *)
Definition superscript_two : string := String (ascii_of_N 178) EmptyString.

Definition not_a_number : float := S754_nan.

(** A name is bound in a dictionary only to [None]. *)
Definition only_None (d : dict) (k : string) : Prop :=
  forall v, In (k, v) d -> v = VNone.

Definition is_conversion_error (e : exn) : bool :=
  match exn_class e with
  | ValueError | OverflowError => true
  | _ => false
  end.

(** ** The coercions of [_clean_tool_parameters], value by value *)

Section Coercions.

Variable float_of_str : string -> option float.

Definition finite_int (f : float) : option Z :=
  match int_of_float f with
  | Returns z => Some z
  | Raises _ => None
  end.

Definition finite_float (z : Z) : option float :=
  match float_of_int z with
  | Returns f => Some f
  | Raises _ => None
  end.

Definition decimal_literal (s : string) : bool :=
  negb (String.eqb s "") && str_forallb char_isdecimal s.

(** The value kept for a key, or [None] when the key is dropped: a
    string under a list-typed key becomes a list of one element, a number
    or a literal of decimal digits under a numeric key becomes an [int],
    a number or a parseable string under [rerank_threshold] becomes a
    [float]. *)
Definition coerced (key : string) (v : value) : option value :=
  if str_in_list key Graph.list_keys then
    match v with
    | VStr _ => Some (VList [v])
    | VList _ => Some v
    | _ => None
    end
  else if str_in_list key Graph.numeric_keys then
    match v with
    | VBool b => Some (VInt (if b then 1 else 0))
    | VInt z => Some (VInt z)
    | VFloat f => option_map VInt (finite_int f)
    | VStr s => if decimal_literal s then Some (VInt (digits_value 0 s)) else None
    | _ => None
    end
  else if str_in_list key Graph.float_keys then
    match v with
    | VBool b => option_map VFloat (finite_float (if b then 1 else 0))
    | VInt z => option_map VFloat (finite_float z)
    | VFloat f => Some (VFloat f)
    | VStr s => option_map VFloat (float_of_str s)
    | _ => None
    end
  else if str_in_list key Graph.string_keys then
    match v with
    | VStr _ => Some v
    | _ => None
    end
  else if str_in_list key Graph.dict_keys then
    match v with
    | VDict _ => Some v
    | _ => None
    end
  else
    match v with
    | VNone | VObject _ => None
    | _ => Some v
    end.

(** The values on which no conversion raises: under a numeric key no NaN,
    no infinity and no string that [isdigit()] accepts and [int()] does
    not; under [rerank_threshold] no integer beyond the floats. *)
Definition convertible (key : string) (v : value) : bool :=
  if str_in_list key Graph.numeric_keys then
    match v with
    | VFloat f => returned (int_of_float f)
    | VStr s => negb (isdigit s) || str_forallb char_isdecimal s
    | _ => true
    end
  else if str_in_list key Graph.float_keys then
    match v with
    | VBool b => returned (float_of_int (if b then 1 else 0))
    | VInt z => returned (float_of_int z)
    | _ => true
    end
  else true.

Definition coerced_items (params : dict) : dict :=
  flat_map (fun kv => match coerced (fst kv) (snd kv) with
                      | Some v' => [(fst kv, v')]
                      | None => []
                      end)
           params.

End Coercions.

(** The number of occurrences of a character in a string. *)
Fixpoint count_char (c : ascii) (s : string) : nat :=
  match s with
  | EmptyString => 0
  | String c' s' => (if Ascii.eqb c' c then 1 else 0) + count_char c s'
  end.

(** ** Runs of the search functions *)

Section SearchRuns.

Variable execute_search :
  nat -> string -> Utils.Bigdata -> string -> outcome (list Utils.Document).

(** What the [try] block yields for a query whose closure is the
    execution number [n]: the formatted results, or the exception
    raised by the closure or by the formatting. *)
Definition query_outcome (kind : string) (bigdata : Utils.Bigdata)
           (include_raw_content : bool) (n : nat) (query : string)
  : outcome (list dict) :=
  match execute_search n kind bigdata query with
  | Returns documents =>
      Utils._format_search_results documents include_raw_content
  | Raises e => Raises e
  end.

(** One outcome per query, the first of them being execution [n]. *)
Fixpoint query_outcomes (kind : string) (bigdata : Utils.Bigdata)
         (include_raw_content : bool) (n : nat) (queries : list string)
  : list (outcome (list dict)) :=
  match queries with
  | [] => []
  | query :: rest =>
      query_outcome kind bigdata include_raw_content n query
      :: query_outcomes kind bigdata include_raw_content (S n) rest
  end.

End SearchRuns.

(** The results of the queries that succeeded, in the order of the
    queries. *)
Definition results_of {A} (outcomes : list (outcome (list A))) : list A :=
  flat_map (fun o => match o with Returns r => r | Raises _ => [] end) outcomes.

(** The exceptions of the queries that failed. *)
Definition errors_of {A} (outcomes : list (outcome A)) : list exn :=
  flat_map (fun o => match o with Returns _ => [] | Raises e => [e] end) outcomes.

(** No client has a serial number that a later constructor call will
    use: true of a world in which the singleton is [None], and kept by
    every function of the module. *)
Definition client_fresh (w : Utils.world) : Prop :=
  forall c, Utils._bigdata_client w = Some c ->
            (Utils.client_serial c < Utils.constructions w)%nat.

(** ** Runs of [get_bigdata_client] with no reset in between *)

Section ClientRuns.

Variable BIGDATA_AVAILABLE : bool.
Variable Bigdata_init : nat -> string -> string -> option exn.

Fixpoint get_repeatedly (n : nat) (w : Utils.world)
  : list (outcome Utils.Bigdata) * Utils.world :=
  match n with
  | O => ([], w)
  | S n' =>
      let (r, w1) := Utils.get_bigdata_client BIGDATA_AVAILABLE Bigdata_init w in
      let (rs, w2) := get_repeatedly n' w1 in
      (r :: rs, w2)
  end.

(** The next call of [get_bigdata_client] in [w'], if it returns, returns
    a client built by a constructor call of its own, not [bigdata]. *)
Definition constructs_anew (bigdata : Utils.Bigdata) (w' : Utils.world) : Prop :=
  forall b' w'',
    Utils.get_bigdata_client BIGDATA_AVAILABLE Bigdata_init w' = (Returns b', w'') ->
    b' <> bigdata /\
    Utils.client_serial b' = Utils.constructions w' /\
    Utils.constructions w'' = S (Utils.constructions w').

(** The singleton of [w'], after a search that ran with the client
    [bigdata] and caught [errors]: reset when one of the errors is an
    authentication error, untouched otherwise. *)
Definition reset_on_auth_error (bigdata : Utils.Bigdata) (errors : list exn)
           (w' : Utils.world) : Prop :=
  if existsb Utils.is_auth_error errors
  then Utils._bigdata_client w' = None /\ constructs_anew bigdata w'
  else Utils._bigdata_client w' = Some bigdata.

End ClientRuns.

(** The world after the [except] block of a search function. *)
Definition after_error (what : string) (e : exn) (w : Utils.world) : Utils.world :=
  snd (Utils.on_search_error what e w).

(** The world after a pass of the search loop that succeeded. *)
Definition after_success (n_queries : nat) (w : Utils.world) : Utils.world :=
  if (1 <? n_queries)%nat then Utils.record_sleep 1 w else w.

(** ** Runs of the retry loops *)

(** Among the attempts [n], [n + 1], ... and at most [fuel] of them, the
    number of leading ones that raise an exception the loop catches. *)
Fixpoint caught_failures {A} (caught : exn -> bool)
         (attempt_outcome : nat -> outcome A) (n fuel : nat) : nat :=
  match fuel with
  | O => O
  | S fuel' =>
      match attempt_outcome n with
      | Raises e =>
          if caught e
          then S (caught_failures caught attempt_outcome (S n) fuel')
          else O
      | Returns _ => O
      end
  end.

(** The delays slept after failures number [attempt + 1] to [attempt + k]. *)
Definition backoffs_from (attempt : Z) (k : nat) : list Z :=
  map (fun i => Batch.backoff (attempt + Z.of_nat i)) (seq 1 k).

(** The warnings logged by [upload_file] after those failures. *)
Definition upload_warnings (file_path : string) (attempt : Z) (k : nat)
  : list (Batch.level * string) :=
  map (fun i => (Batch.WARNING,
                 Batch.str_of_int (attempt + Z.of_nat i) ++ " failed: " ++ file_path))
      (seq 1 k).

(** What the three vendor calls of the attempt number [n] of a download
    come to. *)
Definition download_attempt
           (uploads_get : nat -> string -> outcome string)
           (wait_for_analysis_complete : nat -> string -> Z -> option exn)
           (download_analytics : nat -> string -> string -> option exn)
           (download_timeout : Z)
           (file_id output_directory absolute_path_filename : string)
           (n : nat) : outcome unit :=
  match uploads_get n file_id with
  | Raises e => Raises e
  | Returns _ =>
      match wait_for_analysis_complete n file_id download_timeout with
      | Some e => Raises e
      | None =>
          match download_analytics
                  n file_id
                  (BatchDownload.path_join
                     output_directory
                     (BatchDownload.replace_dots
                        (BatchDownload.basename absolute_path_filename)
                        ++ "_analytics.json")) with
          | Some e => Raises e
          | None => Returns tt
          end
      end
  end.

Definition any_exception (e : exn) : bool := true.

(** ** Runs of [bulk_upload_files] *)

(** The result CSV as the script finds it after opening it with [w+]. *)
Definition opened : BatchUpload.main :=
  {| BatchUpload.result_csv := []; BatchUpload.main_log := [] |}.

(** The row written for a completed future. *)
Definition row_of (f : BatchUpload.future) : BatchUpload.row :=
  match BatchUpload.result f with
  | Returns (file_path, file_id, upload_status) =>
      [file_id; upload_status; file_path]
  | Raises _ => [""; Batch.UPLOAD_ERROR; BatchUpload.submitted_path f]
  end.

(** A row for a line of the upload list: the id, the status and the
    stripped line, the id being empty when the status is the error. *)
Definition row_for_line (line : string) (r : BatchUpload.row) : Prop :=
  exists file_id upload_status,
    r = [file_id; upload_status; strip line] /\
    (upload_status = Batch.UPLOAD_DONE \/
     (upload_status = Batch.UPLOAD_ERROR /\ file_id = "")).

(** The futures that [as_completed] yields, for an order of completion
    given by positions in the list of submitted futures. *)
Definition yielded {A} (futures : list A) (completion : list nat) : list A :=
  flat_map (fun i => match nth_error futures i with
                     | Some f => [f]
                     | None => []
                     end)
           completion.

Definition returned_values {A} (outcomes : list (outcome A)) : list A :=
  flat_map (fun o => match o with Returns a => [a] | Raises _ => [] end) outcomes.

End Spec.

(* ===================================================================== *)
(** * Concrete runs *)
(* ===================================================================== *)

(** Vendors, worlds and inputs on which the theorems are instantiated. *)
Module Examples.
Import Py.

Definition connection_error : exn :=
  Exn (OtherException "ConnectionError") "connection reset by peer".

Definition rate_limited : exn :=
  Exn BigdataClientRateLimitError "429 too many requests".

Definition expired_token : exn :=
  Exn (OtherException "BigdataClientError") "Invalid JWT Token: signature has expired".

Definition timed_out : exn :=
  Exn (OtherException "TimeoutError") "the read operation timed out".

(** A vendor whose every upload fails with a connection error. *)
Definition unreachable (n : nat) (file_path : string) : outcome string :=
  Raises connection_error.

(** A vendor whose first upload fails with a connection error and whose
    later ones succeed. *)
Definition fails_once (n : nat) (file_path : string) : outcome string :=
  match n with
  | O => Raises connection_error
  | S _ => Returns "5A3F"
  end.

(** A vendor that is rate-limited twice and then accepts the upload. *)
Definition busy_twice (n : nat) (file_path : string) : outcome string :=
  if (n <? 2)%nat then Raises rate_limited else Returns "5A3F".

(** A vendor whose every call fails with a rate-limit error. *)
Definition always_busy (n : nat) (file_path : string) : outcome string :=
  Raises rate_limited.

(** The vendor as three workers see it: the first uploads at once, the
    second is rate-limited forever, the third meets a connection error. *)
Definition three_workers (i n : nat) (file_path : string) : outcome string :=
  match i with
  | O => Returns "5A3F"
  | S O => Raises rate_limited
  | _ => Raises connection_error
  end.

Definition upload_list : list string :=
  ["/data/a.pdf" ++ String (ascii_of_N 10) EmptyString;
   "/data/b.pdf" ++ String (ascii_of_N 10) EmptyString;
   "/data/c.pdf"].

(** Downloads: the file is found, the analysis times out once. *)
Definition found (n : nat) (file_id : string) : outcome string :=
  Returns "COMPLETED".

Definition slow_once (n : nat) (file_id : string) (timeout : Z) : option exn :=
  match n with
  | O => Some timed_out
  | S _ => None
  end.

Definition writes (n : nat) (file_id filename : string) : option exn := None.

(** A world with credentials and no client yet. *)
Definition logged_out : Utils.world :=
  {| Utils._bigdata_client := None;
     Utils.BIGDATA_USERNAME := Some "analyst";
     Utils.BIGDATA_PASSWORD := Some "secret";
     Utils.constructions := 0;
     Utils.executions := 0;
     Utils.stdout := [];
     Utils.slept := [] |}.

Definition accepts (n : nat) (username password : string) : option exn := None.

Definition first_client : Utils.Bigdata :=
  {| Utils.client_serial := 0;
     Utils.client_username := "analyst";
     Utils.client_password := "secret" |}.

Definition logged_in : Utils.world :=
  {| Utils._bigdata_client := Some first_client;
     Utils.BIGDATA_USERNAME := Some "analyst";
     Utils.BIGDATA_PASSWORD := Some "secret";
     Utils.constructions := 1;
     Utils.executions := 0;
     Utils.stdout := [];
     Utils.slept := [] |}.

Definition one_chunk (text : string) : Utils.Document :=
  {| Utils.doc_headline := Some text;
     Utils.doc_title := None;
     Utils.doc_url := None;
     Utils.doc_id := Some "D1";
     Utils.doc_timestamp := None;
     Utils.doc_sentiment := None;
     Utils.doc_language := None;
     Utils.doc_source := None;
     Utils.doc_chunks :=
       Some [{| Utils.chunk_text := Some text;
                Utils.chunk_relevance := None;
                Utils.chunk_chunk := Some 0;
                Utils.chunk_sentiment := None;
                Utils.chunk_entities := None |}] |}.

(** Searches of which the second fails with an expired token. *)
Definition token_expires (n : nat) (kind : string) (bigdata : Utils.Bigdata)
           (query : string) : outcome (list Utils.Document) :=
  match n with
  | S O => Raises expired_token
  | _ => Returns [one_chunk query]
  end.

Definition kg_token_expires (n : nat) (search_type : string)
           (bigdata : Utils.Bigdata) (term : string)
  : outcome (list Utils.kg_item) :=
  Raises expired_token.

Definition three_queries : list string := ["tesla"; "nvidia"; "apple"].

Definition some_parameters : dict :=
  [("sources", VStr "reuters"); ("max_results", VStr "25");
   ("date_range", VNone); ("fiscal_year", VInt 2024)].

Definition no_float (s : string) : option float := None.

Definition cleaned_parameters : dict :=
  [("sources", VList [VStr "reuters"]); ("max_results", VInt 25);
   ("fiscal_year", VInt 2024)].

(** A constructor of [AbsoluteDateRange] that takes two timestamps of
    nineteen characters and rejects anything else with [ValueError]. *)
Definition iso_dates (s e : string) : option exn :=
  if ((String.length s =? 19) && (String.length e =? 19))%nat
  then None
  else Some (Exn ValueError "Invalid isoformat string").

(** A world in which the password is not set. *)
Definition no_password : Utils.world :=
  {| Utils._bigdata_client := None;
     Utils.BIGDATA_USERNAME := Some "analyst";
     Utils.BIGDATA_PASSWORD := None;
     Utils.constructions := 0;
     Utils.executions := 0;
     Utils.stdout := [];
     Utils.slept := [] |}.

(** Coroutines that all call [get_bigdata_client] at once: the first
    takes the lock and awaits the constructor, the constructor returns,
    and the second finds the client. *)
Definition callers : Async.system :=
  {| Async.shared := logged_out;
     Async.locked := false;
     Async.epoch := 0;
     Async.tasks := fun _ => Async.CallGet |}.

Definition first_constructing : Async.system :=
  {| Async.shared := Utils.count_construction logged_out;
     Async.locked := true;
     Async.epoch := 0;
     Async.tasks :=
       Async.update 0 (Async.Constructing 0 "analyst" "secret")
                    (Async.tasks callers) |}.

Definition first_finished : Async.system :=
  {| Async.shared :=
       Utils.set_client (Some first_client) (Async.shared first_constructing);
     Async.locked := false;
     Async.epoch := 0;
     Async.tasks :=
       Async.update 0 (Async.Finished (Returns first_client) 0)
                    (Async.tasks first_constructing) |}.

Definition second_finished : Async.system :=
  {| Async.shared := Async.shared first_finished;
     Async.locked := false;
     Async.epoch := 0;
     Async.tasks :=
       Async.update 1 (Async.Finished (Returns first_client) 0)
                    (Async.tasks first_finished) |}.

(** The world after the first call of [get_bigdata_client] in
    [logged_out]. *)
Definition just_logged_in : Utils.world :=
  Utils.set_client (Some first_client) (Utils.count_construction logged_out).

End Examples.

(* ===================================================================== *)
(** * batch_file_upload.py: the rows of a run *)
(* ===================================================================== *)

Module UploadRuns.
Import Py Batch BatchUpload.

(** The row that the result CSV must hold for a line of the upload
    list, by what the vendor does for the worker of that line: the
    worker uploads the stripped path until an attempt does not fail
    with a rate-limit error, five times at most.  After five such
    failures, or when an attempt raises another exception, the row has
    an empty id and the status [UPLOAD_ERROR]; when an attempt returns,
    the row has the id it returned and the status [UPLOAD_DONE]. *)
Definition upload_row (vendor : nat -> string -> outcome string)
           (line : string) : row :=
  let file_path := strip line in
  let k :=
    Spec.caught_failures is_BigdataClientRateLimitError
                         (fun n => vendor n file_path) 0 max_try in
  if (k =? max_try)%nat then [""; UPLOAD_ERROR; file_path]
  else
    match vendor k file_path with
    | Returns file_id => [file_id; UPLOAD_DONE; file_path]
    | Raises _ => [""; UPLOAD_ERROR; file_path]
    end.

(** One such row per line, the worker of the first line being the
    [i]-th. *)
Fixpoint upload_rows (upload_from_disk : nat -> nat -> string -> outcome string)
         (i : nat) (upload_txt : list string) : list row :=
  match upload_txt with
  | [] => []
  | line :: rest =>
      upload_row (upload_from_disk i) line
        :: upload_rows upload_from_disk (S i) rest
  end.

End UploadRuns.

(* ===================================================================== *)
(** * batch_file_analytics_download.py: [bulk_download_analytics] *)
(* ===================================================================== *)

Module BulkDownload.
Import Py PyNotations Batch BatchDownload.

(** A row of a CSV file, as [csv.reader] yields it and [csv.writer]
    takes it: the list of its fields. *)
Definition row := list string.

(** The main thread: the rows written to the result CSV, its own log,
    and what it printed. *)
Record main := {
  result_csv : list row;
  main_log : list (level * string);
  printed : list row }.

Definition writerow (r : row) (m : main) : main :=
  {| result_csv := (result_csv m ++ [r])%list;
     main_log := main_log m;
     printed := printed m |}.

Definition main_logging (l : level) (msg : string) (m : main) : main :=
  {| result_csv := result_csv m;
     main_log := (main_log m ++ [(l, msg)])%list;
     printed := printed m |}.

Definition print (r : row) (m : main) : main :=
  {| result_csv := result_csv m;
     main_log := main_log m;
     printed := (printed m ++ [r])%list |}.

Definition IndexError : exn :=
  Exn (OtherException "IndexError") "list index out of range".

(** [row[i]] *)
Definition item (r : row) (i : nat) : outcome string :=
  match nth_error r i with
  | Some field => Returns field
  | None => Raises IndexError
  end.

(** A submitted future: the pair [future_to_file_id] holds for it, and
    what [future.result()] does once the worker is done. *)
Record future := {
  submitted : string * string;
  result : outcome (string * string) }.

Section BulkDownloadAnalytics.

(** The vendor as seen by the worker of the [i]-th submitted future. *)
Variable uploads_get : nat -> nat -> string -> outcome string.
Variable wait_for_analysis_complete : nat -> nat -> string -> Z -> option exn.
Variable download_analytics : nat -> nat -> string -> string -> option exn.

(** [executor.submit(download_analytics_file, bigdata, download_timeout,
    file_id, output_directory, absolute_path_filename)]: the worker runs
    [download_analytics_file] in a thread of its own. *)
Definition submit (i : nat) (download_timeout : Z)
           (file_id output_directory absolute_path_filename : string)
  : future :=
  {| submitted := (file_id, absolute_path_filename);
     result :=
       fst (download_analytics_file
              (uploads_get i) (wait_for_analysis_complete i)
              (download_analytics i)
              download_timeout file_id output_directory
              absolute_path_filename initial) |}.

(** The [for row in reader] loop; [future_to_file_id] holds the futures
    in the order of their submission. *)
Fixpoint submit_loop (download_timeout : Z) (output_directory : string)
         (reader : list row) (future_to_file_id : list future)
  : M main (list future) :=
  match reader with
  | [] => ret future_to_file_id
  | row :: rest =>
      file_id <- lift (item row 0) ;;
      status <- lift (item row 1) ;;
      absolute_path_filename <- lift (item row 2) ;;
      if String.eqb status UPLOAD_DONE || String.eqb status DOWNLOAD_ERROR
      then
        submit_loop download_timeout output_directory rest
                    (future_to_file_id
                       ++ [submit (List.length future_to_file_id)
                                  download_timeout file_id output_directory
                                  absolute_path_filename])%list
      else
        submit_loop download_timeout output_directory rest future_to_file_id
  end.

(** The [finally] block. *)
Definition write_result (file_id download_status filename : string)
  : M main unit :=
  let row := [file_id; download_status; filename] in
  modify (print row) ;;;
  modify (writerow row).

(** The body of the [for future in as_completed(...)] loop. *)
Definition on_completed (f : future) : M main unit :=
  let (file_id, filename) := submitted f in
  match result f with
  | Returns (file_id, download_status) =>
      (if String.eqb download_status DOWNLOAD_ERROR
       then modify (main_logging ERROR
                      ("failed to download file " ++ file_id
                         ++ ", max retries reached"))
       else modify (main_logging INFO ("downloaded file " ++ file_id))) ;;;
      write_result file_id download_status filename
  | Raises ex =>
      modify (main_logging ERROR ("failed to download file " ++ file_id)) ;;;
      write_result file_id DOWNLOAD_ERROR filename
  end.

(** [completion] is the order in which [as_completed] yields the
    futures, as positions in the order of submission. *)
Fixpoint completed_loop (futures : list future) (completion : list nat)
  : M main unit :=
  match completion with
  | [] => ret tt
  | i :: rest =>
      match nth_error futures i with
      | Some f => on_completed f ;;; completed_loop futures rest
      | None => completed_loop futures rest
      end
  end.

(** [csv_file] is the content of the input CSV.  The pool is created
    in the [with] statement, and [ThreadPoolExecutor] raises
    [ValueError] unless [max_workers] is positive.  [completion] reads
    its positions in the futures that were submitted. *)
Definition bulk_download_analytics (max_concurrency download_timeout : Z)
           (output_directory : string) (csv_file : list row)
           (completion : list nat)
  : M main unit :=
  if max_concurrency <=? 0
  then raise (Exn ValueError "max_workers must be greater than 0")
  else
    future_to_file_id <-
      submit_loop download_timeout output_directory csv_file [] ;;
    completed_loop future_to_file_id completion.

End BulkDownloadAnalytics.

End BulkDownload.

(** ** Runs of [bulk_download_analytics] *)

Module BulkDownloadRuns.
Import Py Batch BulkDownload.

(** The main thread before the first row is written. *)
Definition opened : main :=
  {| result_csv := []; main_log := []; printed := [] |}.

(** A row with the three fields the loop reads. *)
Definition complete (r : row) : Prop := (3 <= List.length r)%nat.

(** A row whose status asks for a download. *)
Definition pending (r : row) : bool :=
  match nth_error r 1 with
  | Some status =>
      String.eqb status UPLOAD_DONE || String.eqb status DOWNLOAD_ERROR
  | None => false
  end.

Definition has_status (status : string) (r : row) : bool :=
  match nth_error r 1 with
  | Some s => String.eqb s status
  | None => false
  end.

(** The row written for a completed future. *)
Definition written_row (f : future) : row :=
  match result f with
  | Returns (file_id, download_status) =>
      [file_id; download_status; snd (submitted f)]
  | Raises _ => [fst (submitted f); DOWNLOAD_ERROR; snd (submitted f)]
  end.

Section Workers.

Variable uploads_get : nat -> nat -> string -> outcome string.
Variable wait_for_analysis_complete : nat -> nat -> string -> Z -> option exn.
Variable download_analytics : nat -> nat -> string -> string -> option exn.
Variable download_timeout : Z.
Variable output_directory : string.

(** The attempts of the [i]-th worker, on the file of the row [r], that
    fail before one succeeds, among the first five. *)
Definition failed_attempts (i : nat) (r : row) : nat :=
  Spec.caught_failures
    Spec.any_exception
    (Spec.download_attempt
       (uploads_get i) (wait_for_analysis_complete i) (download_analytics i)
       download_timeout (nth 0 r "") output_directory (nth 2 r ""))
    0 max_try.

(** The row expected for the [i]-th pending row: its id and file name,
    and the status by whether one of the five attempts succeeds. *)
Definition expected_row (i : nat) (r : row) : row :=
  [nth 0 r "";
   if (failed_attempts i r =? max_try)%nat then DOWNLOAD_ERROR else DOWNLOAD_DONE;
   nth 2 r ""].

Fixpoint expected_rows (i : nat) (pending_rows : list row) : list row :=
  match pending_rows with
  | [] => []
  | r :: rest => expected_row i r :: expected_rows (S i) rest
  end.

(** The futures submitted for the pending rows, from the [i]-th on. *)
Fixpoint submitted_futures (i : nat) (pending_rows : list row)
  : list future :=
  match pending_rows with
  | [] => []
  | r :: rest =>
      submit uploads_get wait_for_analysis_complete download_analytics
             i download_timeout (nth 0 r "") output_directory (nth 2 r "")
        :: submitted_futures (S i) rest
  end.

End Workers.

End BulkDownloadRuns.

(* ===================================================================== *)
(** * configuration.py *)
(* ===================================================================== *)

Module Configuration.
Import Py.

Inductive BigdataToolType := NEWS | TRANSCRIPTS | FILINGS | KNOWLEDGE_GRAPH.

(** [member.value] *)
Definition enum_value (member : BigdataToolType) : string :=
  match member with
  | NEWS => "news"
  | TRANSCRIPTS => "transcripts"
  | FILINGS => "filings"
  | KNOWLEDGE_GRAPH => "knowledge_graph"
  end.

(** The dataclass.  A dataclass checks no type: a field holds whatever
    value the instance was built with. *)
Record BigdataSearchConfiguration := {
  planner_provider : value;
  planner_model : value;
  planner_model_kwargs : value;
  writer_provider : value;
  writer_model : value;
  writer_model_kwargs : value;
  search_depth : value;
  max_results_per_strategy : value;
  number_of_queries : value;
  enable_entity_discovery : value;
  enable_cross_strategy_deduplication : value;
  bigdata_rate_limit_delay : value;
  bigdata_max_retries : value;
  bigdata_timeout : value;
  bigdata_rerank_threshold : value;
  max_structured_output_retries : value;
  include_source_metadata : value;
  debug_mode : value;
  default_tool_types : value;
  default_date_range : value }.

(** The names of [fields(cls)], in the order of declaration; every
    field is an [init] field. *)
Definition fields : list string :=
  ["planner_provider";
   "planner_model";
   "planner_model_kwargs";
   "writer_provider";
   "writer_model";
   "writer_model_kwargs";
   "search_depth";
   "max_results_per_strategy";
   "number_of_queries";
   "enable_entity_discovery";
   "enable_cross_strategy_deduplication";
   "bigdata_rate_limit_delay";
   "bigdata_max_retries";
   "bigdata_timeout";
   "bigdata_rerank_threshold";
   "max_structured_output_retries";
   "include_source_metadata";
   "debug_mode";
   "default_tool_types";
   "default_date_range"].

(** The floats [1.0] and [0.1]. *)
Definition one : float := S754_finite false 4503599627370496 (-52).
Definition one_tenth : float := S754_finite false 7205759403792794 (-56).

Definition __post_init__ (self : BigdataSearchConfiguration)
  : BigdataSearchConfiguration :=
  match default_tool_types self with
  | VNone =>
      {| planner_provider := planner_provider self;
         planner_model := planner_model self;
         planner_model_kwargs := planner_model_kwargs self;
         writer_provider := writer_provider self;
         writer_model := writer_model self;
         writer_model_kwargs := writer_model_kwargs self;
         search_depth := search_depth self;
         max_results_per_strategy := max_results_per_strategy self;
         number_of_queries := number_of_queries self;
         enable_entity_discovery := enable_entity_discovery self;
         enable_cross_strategy_deduplication := enable_cross_strategy_deduplication self;
         bigdata_rate_limit_delay := bigdata_rate_limit_delay self;
         bigdata_max_retries := bigdata_max_retries self;
         bigdata_timeout := bigdata_timeout self;
         bigdata_rerank_threshold := bigdata_rerank_threshold self;
         max_structured_output_retries := max_structured_output_retries self;
         include_source_metadata := include_source_metadata self;
         debug_mode := debug_mode self;
         default_tool_types :=
           VList [VStr (enum_value NEWS);
                  VStr (enum_value TRANSCRIPTS);
                  VStr (enum_value FILINGS)];
         default_date_range := default_date_range self |}
  | _ => self
  end.

(** A keyword argument of the generated [__init__], or the default of
    the field. *)
Definition keyword (values : dict) (name : string) (default : value) : value :=
  match dict_get values name with
  | Some v => v
  | None => default
  end.

(** [cls] called with the keyword arguments [values], whose keys are
    names of fields: the generated [__init__], which ends with
    [__post_init__]. *)
Definition __init__ (values : dict) : BigdataSearchConfiguration :=
  __post_init__
    {| planner_provider :=
         keyword values "planner_provider" (VStr "google_genai");
       planner_model :=
         keyword values "planner_model" (VStr "gemini-2.5-flash");
       planner_model_kwargs :=
         keyword values "planner_model_kwargs" (VNone);
       writer_provider :=
         keyword values "writer_provider" (VStr "google_genai");
       writer_model :=
         keyword values "writer_model" (VStr "gemini-2.5-flash");
       writer_model_kwargs :=
         keyword values "writer_model_kwargs" (VNone);
       search_depth :=
         keyword values "search_depth" (VInt 5);
       max_results_per_strategy :=
         keyword values "max_results_per_strategy" (VInt 30);
       number_of_queries :=
         keyword values "number_of_queries" (VInt 3);
       enable_entity_discovery :=
         keyword values "enable_entity_discovery" (VBool true);
       enable_cross_strategy_deduplication :=
         keyword values "enable_cross_strategy_deduplication" (VBool true);
       bigdata_rate_limit_delay :=
         keyword values "bigdata_rate_limit_delay" (VFloat one);
       bigdata_max_retries :=
         keyword values "bigdata_max_retries" (VInt 3);
       bigdata_timeout :=
         keyword values "bigdata_timeout" (VInt 60);
       bigdata_rerank_threshold :=
         keyword values "bigdata_rerank_threshold" (VFloat one_tenth);
       max_structured_output_retries :=
         keyword values "max_structured_output_retries" (VInt 3);
       include_source_metadata :=
         keyword values "include_source_metadata" (VBool true);
       debug_mode :=
         keyword values "debug_mode" (VBool false);
       default_tool_types :=
         keyword values "default_tool_types" (VNone);
       default_date_range :=
         keyword values "default_date_range" (VNone) |}.

(** A [RunnableConfig]: a dictionary whose entry ["configurable"], when
    present, is a dictionary. *)
Record RunnableConfig := { configurable : option dict }.

(** The loop over the fields: [values] receives the entries of
    [configurable] that are named after a field and are not [None]. *)
Fixpoint collect (configurable : dict) (names : list string) (values : dict)
  : dict :=
  match names with
  | [] => values
  | name :: rest =>
      match dict_get configurable name with
      | None | Some VNone => collect configurable rest values
      | Some v => collect configurable rest (dict_set values name v)
      end
  end.

Definition from_runnable_config (config : option RunnableConfig)
  : BigdataSearchConfiguration :=
  let configurable :=
    match config with
    | Some c =>
        match configurable c with
        | Some d => d
        | None => []
        end
    | None => []
    end in
  __init__ (collect configurable fields []).

End Configuration.

(** ** Instances of the configuration, attribute by attribute *)

Module ConfigurationRuns.
Import Py Configuration.

(** [getattr(self, name)] for the name of a field. *)
Definition attribute (self : BigdataSearchConfiguration) (name : string)
  : option value :=
  if String.eqb name "planner_provider" then Some (planner_provider self)
  else if String.eqb name "planner_model" then Some (planner_model self)
  else if String.eqb name "planner_model_kwargs" then Some (planner_model_kwargs self)
  else if String.eqb name "writer_provider" then Some (writer_provider self)
  else if String.eqb name "writer_model" then Some (writer_model self)
  else if String.eqb name "writer_model_kwargs" then Some (writer_model_kwargs self)
  else if String.eqb name "search_depth" then Some (search_depth self)
  else if String.eqb name "max_results_per_strategy" then Some (max_results_per_strategy self)
  else if String.eqb name "number_of_queries" then Some (number_of_queries self)
  else if String.eqb name "enable_entity_discovery" then Some (enable_entity_discovery self)
  else if String.eqb name "enable_cross_strategy_deduplication" then Some (enable_cross_strategy_deduplication self)
  else if String.eqb name "bigdata_rate_limit_delay" then Some (bigdata_rate_limit_delay self)
  else if String.eqb name "bigdata_max_retries" then Some (bigdata_max_retries self)
  else if String.eqb name "bigdata_timeout" then Some (bigdata_timeout self)
  else if String.eqb name "bigdata_rerank_threshold" then Some (bigdata_rerank_threshold self)
  else if String.eqb name "max_structured_output_retries" then Some (max_structured_output_retries self)
  else if String.eqb name "include_source_metadata" then Some (include_source_metadata self)
  else if String.eqb name "debug_mode" then Some (debug_mode self)
  else if String.eqb name "default_tool_types" then Some (default_tool_types self)
  else if String.eqb name "default_date_range" then Some (default_date_range self)
  else None.

(** The value of each field in an instance built with no argument. *)
Definition defaults : dict :=
  [("planner_provider", VStr "google_genai");
   ("planner_model", VStr "gemini-2.5-flash");
   ("planner_model_kwargs", VNone);
   ("writer_provider", VStr "google_genai");
   ("writer_model", VStr "gemini-2.5-flash");
   ("writer_model_kwargs", VNone);
   ("search_depth", VInt 5);
   ("max_results_per_strategy", VInt 30);
   ("number_of_queries", VInt 3);
   ("enable_entity_discovery", VBool true);
   ("enable_cross_strategy_deduplication", VBool true);
   ("bigdata_rate_limit_delay", VFloat one);
   ("bigdata_max_retries", VInt 3);
   ("bigdata_timeout", VInt 60);
   ("bigdata_rerank_threshold", VFloat one_tenth);
   ("max_structured_output_retries", VInt 3);
   ("include_source_metadata", VBool true);
   ("debug_mode", VBool false);
   ("default_tool_types", VList [VStr "news"; VStr "transcripts"; VStr "filings"]);
   ("default_date_range", VNone)].

(** The dictionary read by [from_runnable_config]. *)
Definition configurable_of (config : option RunnableConfig) : dict :=
  match config with
  | Some c =>
      match configurable c with
      | Some d => d
      | None => []
      end
  | None => []
  end.

(** The entry of a dictionary, unless it is [None]. *)
Definition given (d : dict) (name : string) : option value :=
  match dict_get d name with
  | Some VNone | None => None
  | Some v => Some v
  end.

End ConfigurationRuns.

(* ===================================================================== *)
(** * graph.py: the nodes [execute_search_strategy] and
      [gather_search_results] *)
(* ===================================================================== *)

Module Workflow.
Import Py PyNotations Graph Configuration.

(** What a node acts on: the stream behind [get_stream_writer()], the
    standard output, and the tools invoked so far with their
    parameters.  Of a dictionary written to the stream the model keeps
    the entry ["type"]; the other entries are computed from values at
    hand, and where computing one can raise, the node below raises. *)
Record world := {
  stream : list string;
  stdout : list string;
  invocations : list (string * dict) }.

Definition write_stream (type : string) (w : world) : world :=
  {| stream := (stream w ++ [type])%list;
     stdout := stdout w;
     invocations := invocations w |}.

Definition write_stdout (line : string) (w : world) : world :=
  {| stream := stream w;
     stdout := (stdout w ++ [line])%list;
     invocations := invocations w |}.

Definition record_invocation (tool : string) (input : dict) (w : world)
  : world :=
  {| stream := stream w;
     stdout := stdout w;
     invocations := (invocations w ++ [(tool, input)])%list |}.

Definition writer (type : string) : M world unit := modify (write_stream type).

Definition print (line : string) : M world unit := modify (write_stdout line).

(** [bool(v)]; an instance of another class is true unless its class
    says otherwise. *)
Definition truthy (v : value) : bool :=
  match v with
  | VNone => false
  | VBool b => b
  | VInt z => negb (z =? 0)
  | VFloat (S754_zero _) => false
  | VFloat _ => true
  | VStr s => negb (String.eqb s "")
  | VList [] => false
  | VList _ => true
  | VDict [] => false
  | VDict _ => true
  | VObject _ => true
  end.

(** [d.get(k, default)] *)
Definition get (d : dict) (k : string) (default : value) : value :=
  match dict_get d k with
  | Some v => v
  | None => default
  end.

(** [k in d] *)
Definition contains (d : dict) (k : string) : bool :=
  match dict_get d k with
  | Some _ => true
  | None => false
  end.

(** [d.update(other)] *)
Definition update (d other : dict) : dict :=
  fold_left (fun d kv => dict_set d (fst kv) (snd kv)) other d.

(** [d.pop(k, None)], for the dictionary that is left. *)
Fixpoint pop (d : dict) (k : string) : dict :=
  match d with
  | [] => []
  | (k', v) :: d' => if String.eqb k' k then d' else (k', v) :: pop d' k
  end.

(** The tools of tools.py, by the type of the strategy. *)
Definition tool_map : list (string * string) :=
  [("news", "bigdata_news_search");
   ("transcripts", "bigdata_transcript_search");
   ("filings", "bigdata_filings_search");
   ("universal", "bigdata_universal_search");
   ("knowledge_graph", "bigdata_knowledge_graph")].

Section ExecuteSearchStrategy.

Variable float_of_str : string -> option float.

(** [selected_tool.ainvoke(tool_params)], by the number of the
    invocation: what the tool returns, or the exception raised. *)
Variable ainvoke : nat -> string -> dict -> outcome value.

(** The seconds between the two readings of [time.time()] around the
    invocation, by its number. *)
Variable elapsed : nat -> float.

Definition invoke (selected_tool : string) (tool_params : dict)
  : M world (value * float) :=
  n <- gets (fun w => List.length (invocations w)) ;;
  modify (record_invocation selected_tool tool_params) ;;;
  raw_results <- lift (ainvoke n selected_tool tool_params) ;;
  ret (raw_results, elapsed n).

(** The parameters of the state, for the search tools. *)
Definition add_global_parameters (strategy : SearchStrategy)
           (entity_ids : option (list string))
           (global_date_range : option string)
           (configurable : BigdataSearchConfiguration) (tool_params : dict)
  : M world dict :=
  if negb (String.eqb (tool_type strategy) "knowledge_graph") then
    tool_params <-
      match entity_ids with
      | Some (entity_id :: others) =>
          writer "entity_filter" ;;;
          ret (dict_set tool_params "entity_ids"
                        (VList (map VStr (entity_id :: others))))
      | _ => ret tool_params
      end ;;
    tool_params <-
      (if negb (Utils.falsy global_date_range) then
         writer "date_filter" ;;;
         ret (dict_set tool_params "date_range"
                       (VStr (Utils.getattr global_date_range "")))
       else ret tool_params) ;;
    if negb (contains tool_params "rerank_threshold")
       && str_in_list (tool_type strategy) ["news"; "universal"]
    then
      writer "rerank_config" ;;;
      ret (dict_set tool_params "rerank_threshold"
                    (bigdata_rerank_threshold configurable))
    else ret tool_params
  else ret tool_params.

(** The parameters of the knowledge-graph tool. *)
Definition knowledge_graph_parameters (strategy : SearchStrategy)
           (tool_params : dict) : M world dict :=
  if String.eqb (tool_type strategy) "knowledge_graph" then
    let tool_params :=
      if contains tool_params "search_type" then tool_params
      else dict_set tool_params "search_type" (VStr "companies") in
    let tool_params :=
      if contains tool_params "search_term" then tool_params
      else dict_set tool_params "search_term"
                    (VStr match search_queries strategy with
                          | query :: _ => query
                          | [] => ""
                          end) in
    let tool_params := pop tool_params "queries" in
    writer "knowledge_graph_config" ;;;
    ret tool_params
  else ret tool_params.

(** [len(raw_results) if isinstance(raw_results, str) else 0] *)
Definition result_length (raw_results : value) : Z :=
  match raw_results with
  | VStr s => Z.of_nat (String.length s)
  | _ => 0
  end.

Definition query_count (strategy : SearchStrategy) : value :=
  VInt (Z.of_nat (List.length (search_queries strategy))).

(** The [try] block. *)
Definition on_success (strategy : SearchStrategy) (selected_tool : string)
           (tool_params : dict) : M world SearchResult :=
  r <- invoke selected_tool tool_params ;;
  let (raw_results, execution_time) := r in
  writer "api_success" ;;;
  (if 0 <? result_length raw_results then writer "result_quality"
   else ret tt) ;;;
  let search_result :=
    {| result_strategy := strategy;
       results := [[("raw_output", raw_results)]];
       metadata :=
         [("execution_time", VFloat execution_time);
          ("query_count", query_count strategy);
          ("tool_type", VStr (tool_type strategy));
          ("parameters_used", VDict tool_params);
          ("success", VBool true);
          ("content_length", VInt (result_length raw_results))];
       quality_score := None |} in
  writer "search_complete" ;;;
  ret search_result.

(** The [except Exception as e] block; the invocation that raised is
    the last one recorded. *)
Definition on_failure (strategy : SearchStrategy) (tool_params : dict)
           (e : exn) : M world SearchResult :=
  n <- gets (fun w => List.length (invocations w)) ;;
  let execution_time := elapsed (Nat.pred n) in
  let error_message := exn_str e in
  writer "api_error" ;;;
  (if str_in "rate limit" (lower error_message) then writer "rate_limit_hit"
   else if str_in "authentication" (lower error_message)
        then writer "auth_error"
        else if str_in "timeout" (lower error_message)
             then writer "timeout_error"
             else ret tt) ;;;
  print ("Error executing search strategy " ++ tool_type strategy ++ ": "
           ++ exn_str e) ;;;
  let search_result :=
    {| result_strategy := strategy;
       results := [];
       metadata :=
         [("execution_time", VFloat execution_time);
          ("query_count", query_count strategy);
          ("tool_type", VStr (tool_type strategy));
          ("parameters_used", VDict tool_params);
          ("success", VBool false);
          ("error", VStr error_message)];
       quality_score := None |} in
  writer "search_complete" ;;;
  ret search_result.

(** The node returns [{"completed_searches": [search_result]}]: the
    model returns the list. *)
Definition execute_search_strategy (state : SearchStrategyState)
           (config : option RunnableConfig) : M world (list SearchResult) :=
  let strategy := Graph.strategy state in
  let entity_ids := Graph.entity_ids state in
  let global_date_range := Graph.global_date_range state in
  writer "search_start" ;;;
  let configurable := from_runnable_config config in
  writer "tool_selection" ;;;
  match Utils.lookup tool_map (tool_type strategy) with
  | None =>
      writer "error" ;;;
      raise (Exn ValueError ("Unknown tool type: " ++ tool_type strategy))
  | Some selected_tool =>
      writer "parameter_prep" ;;;
      let tool_params :=
        [("queries", VList (map VStr (search_queries strategy)));
         ("max_results", max_results_per_strategy configurable)] in
      cleaned_params <-
        lift (_clean_tool_parameters float_of_str (parameters strategy)
                                     (tool_type strategy)) ;;
      let tool_params := update tool_params cleaned_params in
      writer "parameters_ready" ;;;
      tool_params <-
        add_global_parameters strategy entity_ids global_date_range
                              configurable tool_params ;;
      tool_params <- knowledge_graph_parameters strategy tool_params ;;
      writer "rate_limit_info" ;;;
      writer "final_parameters" ;;;
      writer "api_start" ;;;
      search_result <-
        try_except (on_success strategy selected_tool tool_params)
                   (on_failure strategy tool_params) ;;
      ret [search_result]
  end.

End ExecuteSearchStrategy.

(** ** [gather_search_results] *)

Definition ZeroDivisionError : exn :=
  Exn (OtherException "ZeroDivisionError") "division by zero".

(** [format(v, ".1f")], for whether it raises: a [float] is formatted
    as it is, an [int] or [bool] through [float(v)], a [str] has no
    such format code, and the other classes accept no format. *)
Definition format_f (v : value) : M world unit :=
  match v with
  | VFloat _ | VBool _ => ret tt
  | VInt z =>
      match float_of_int z with
      | Returns _ => ret tt
      | Raises e => raise e
      end
  | VStr _ =>
      raise (Exn ValueError "Unknown format code 'f' for object of type 'str'")
  | _ =>
      raise (Exn (OtherException "TypeError")
                 "unsupported format string passed to __format__")
  end.

(** [format(v, ",")], for whether it raises. *)
Definition format_comma (v : value) : M world unit :=
  match v with
  | VFloat _ | VBool _ | VInt _ => ret tt
  | VStr _ => raise (Exn ValueError "Cannot specify ',' with 's'.")
  | _ =>
      raise (Exn (OtherException "TypeError")
                 "unsupported format string passed to __format__")
  end.

(** [s.metadata.get("success", False)], as a condition. *)
Definition succeeded (s : SearchResult) : bool :=
  truthy (get (metadata s) "success" (VBool false)).

(** [distribution[tool_type] = distribution.get(tool_type, 0) + 1], on
    a dictionary whose values are counts. *)
Fixpoint count_tool_type (distribution : list (string * Z)) (tool_type : string)
  : list (string * Z) :=
  match distribution with
  | [] => [(tool_type, 0 + 1)]
  | (k, n) :: rest =>
      if String.eqb k tool_type then (k, n + 1) :: rest
      else (k, n) :: count_tool_type rest tool_type
  end.

Definition tool_type_distribution (completed_searches : list SearchResult)
  : list (string * Z) :=
  fold_left (fun distribution search =>
               count_tool_type distribution
                               (tool_type (result_strategy search)))
            completed_searches [].

Section GatherSearchResults.

(** [get_today_str()] *)
Variable today : string.

(** The builtins [sum(values)] and [total / n]: the number they give,
    or the exception raised. *)
Variable builtin_sum : list value -> outcome value.
Variable builtin_truediv : value -> Z -> outcome value.

(** The loop of the debug mode. *)
Fixpoint debug_loop (searches : list SearchResult) : M world unit :=
  match searches with
  | [] => ret tt
  | search :: rest => writer "debug_tool_parameters" ;;; debug_loop rest
  end.

(** The loop of the summaries; the message of each formats the
    execution time. *)
Fixpoint summary_loop (searches : list SearchResult) : M world unit :=
  match searches with
  | [] => ret tt
  | search :: rest =>
      let execution_time := get (metadata search) "execution_time" (VInt 0) in
      format_f execution_time ;;;
      writer "search_summary" ;;;
      summary_loop rest
  end.

Fixpoint distribution_loop (items : list (string * Z)) : M world unit :=
  match items with
  | [] => ret tt
  | item :: rest => writer "tool_distribution" ;;; distribution_loop rest
  end.

(** [completed_searches] is the entry of the state, [None] when the
    state has no such key; the node returns
    [{"source_metadata": source_metadata}], the model the dictionary
    [source_metadata]. *)
Definition gather_search_results
           (completed_searches : option (list SearchResult))
           (config : option RunnableConfig) : M world dict :=
  let completed_searches := Utils.getattr completed_searches [] in
  writer "gathering_start" ;;;
  let configurable := from_runnable_config config in
  let successful_searches := filter succeeded completed_searches in
  let failed_searches :=
    filter (fun s => negb (succeeded s)) completed_searches in
  (* the message of the next dictionary divides by
     [len(completed_searches)], with no condition *)
  (match completed_searches with
   | [] => raise ZeroDivisionError
   | _ => ret tt
   end) ;;;
  writer "success_analysis" ;;;
  let configurable := from_runnable_config config in
  (if truthy (debug_mode configurable) then
     writer "debug_mode_enabled" ;;;
     debug_loop completed_searches
   else ret tt) ;;;
  summary_loop completed_searches ;;;
  writer "metadata_calculation" ;;;
  total_execution_time <-
    lift (builtin_sum
            (map (fun s => get (metadata s) "execution_time" (VInt 0))
                 completed_searches)) ;;
  average_execution_time <-
    match completed_searches with
    | [] => ret (VInt 0)
    | _ =>
        lift (builtin_truediv total_execution_time
                              (Z.of_nat (List.length completed_searches)))
    end ;;
  total_content_length <-
    lift (builtin_sum
            (map (fun s => get (metadata s) "content_length" (VInt 0))
                 successful_searches)) ;;
  let distribution := tool_type_distribution completed_searches in
  let source_metadata :=
    [("total_searches", VInt (Z.of_nat (List.length completed_searches)));
     ("successful_searches",
       VInt (Z.of_nat (List.length successful_searches)));
     ("total_execution_time", total_execution_time);
     ("tool_type_distribution",
       VDict (map (fun item => (fst item, VInt (snd item))) distribution));
     ("search_timestamp", VStr today);
     ("average_execution_time", average_execution_time);
     ("total_content_length", total_content_length)] in
  format_f total_execution_time ;;;
  format_f average_execution_time ;;;
  writer "performance_metrics" ;;;
  distribution_loop distribution ;;;
  (if truthy (enable_cross_strategy_deduplication configurable)
   then writer "deduplication_skip"
   else ret tt) ;;;
  format_comma total_content_length ;;;
  writer "gathering_complete" ;;;
  ret source_metadata.

End GatherSearchResults.

End Workflow.

(* ===================================================================== *)
(** * tools.py *)
(* ===================================================================== *)

Module Tools.
Import Py PyNotations Utils.

(** A line feed. *)
Definition nl : string := String (ascii_of_N 10) EmptyString.

Definition KeyError (key : string) : exn :=
  Exn (OtherException "KeyError") ("'" ++ key ++ "'").

(** [d[key]] *)
Definition getitem (d : dict) (key : string) : outcome value :=
  match dict_get d key with
  | Some v => Returns v
  | None => Raises (KeyError key)
  end.

(** [v[:n]]: a [str] and a [list] take a slice, the other classes of
    the model do not. *)
Definition slice_to (n : nat) (v : value) : outcome value :=
  match v with
  | VStr s => Returns (VStr (substring 0 n s))
  | VList l => Returns (VList (firstn n l))
  | _ => Raises (Exn (OtherException "TypeError") "object is not subscriptable")
  end.

(** ['=' * n] *)
Fixpoint equals_signs (n : nat) : string :=
  match n with
  | O => ""
  | S n' => String "=" (equals_signs n')
  end.

Section Tools.

Variable BIGDATA_AVAILABLE : bool.
Variable Bigdata_init : nat -> string -> string -> option exn.
Variable execute_search :
  nat -> string -> Bigdata -> string -> outcome (list Document).
Variable execute_knowledge_graph_search :
  nat -> string -> Bigdata -> string -> outcome (list kg_item).

(** [str(v)] for a float, a list, a dictionary or an instance of
    another class, and [format(v, spec)]: builtins of the language, left
    abstract. *)
Variable str_of_other : value -> string.
Variable format : value -> string -> outcome string.

(** [str(v)], which is what an f-string writes for [v]. *)
Definition str (v : value) : string :=
  match v with
  | VStr s => s
  | VInt z => Batch.str_of_int z
  | VBool true => "True"
  | VBool false => "False"
  | VNone => "None"
  | _ => str_of_other v
  end.

(** The text of [result[key]] in an f-string. *)
Definition field (result : dict) (key : string) : M world string :=
  v <- lift (getitem result key) ;;
  ret (str v).

(** The text of [result[key]:.3f] in an f-string. *)
Definition field_3f (result : dict) (key : string) : M world string :=
  v <- lift (getitem result key) ;;
  lift (format v ".3f").

(** The loop [for i, result in enumerate(results, 1)] of a tool, for
    the body [entry] of the tool: what the body adds is appended to
    [formatted_output]. *)
Fixpoint format_loop (entry : Z -> dict -> M world string)
         (i : Z) (results : list dict) (formatted_output : string)
  : M world string :=
  match results with
  | [] => ret formatted_output
  | result :: rest =>
      text <- entry i result ;;
      format_loop entry (i + 1) rest (formatted_output ++ text)
  end.

(** A line that is added when [result.get(key)] is true. *)
Definition when_true (result : dict) (key : string) (line : M world string)
  : M world string :=
  if Workflow.truthy (Workflow.get result key VNone) then line else ret "".

(** ** [bigdata_news_search] *)

Definition news_entry (i : Z) (result : dict) : M world string :=
  title <- field result "title" ;;
  title' <- field result "title" ;;
  url <- field result "url" ;;
  content <- field result "content" ;;
  content' <- field result "content" ;;
  raw <-
    when_true result "raw_content"
      (raw_content <- lift (getitem result "raw_content") ;;
       cut <- lift (slice_to (Z.to_nat 20000) raw_content) ;;
       ret ("Full source content limited to 5000 tokens: " ++ str cut
              ++ nl ++ nl)) ;;
  ret ("--- SOURCE " ++ Batch.str_of_int i ++ ": " ++ title ++ " ---" ++ nl
         ++ "Title: " ++ title' ++ nl
         ++ "URL: " ++ url ++ nl ++ "===" ++ nl
         ++ "Most relevant content from source: " ++ content ++ nl
         ++ "===" ++ nl
         ++ "Content: " ++ content' ++ nl
         ++ raw
         ++ equals_signs 80 ++ nl ++ nl).

(** A tool: the search, then the text of its results, and the text of
    the error when either raises. *)
Definition search_tool (kind : string) (search_queries : list string)
           (nothing heading error : string)
           (entry : Z -> dict -> M world string) : M world string :=
  try_except
    (results <-
       search_async BIGDATA_AVAILABLE Bigdata_init execute_search
                    kind search_queries true ;;
     match results with
     | [] => ret nothing
     | _ => format_loop entry 1 results heading
     end)
    (fun e => ret (error ++ exn_str e)).

Definition bigdata_news_search (queries : list string) : M world string :=
  search_tool "news" queries
              "No news results found for the given queries."
              ("News search results:" ++ nl ++ nl)
              "Error executing news search: "
              news_entry.

(** ** [bigdata_transcript_search] *)

Definition transcript_entry (i : Z) (result : dict) : M world string :=
  title <- field result "title" ;;
  content <- field result "content" ;;
  url <- field result "url" ;;
  date <-
    when_true result "document_timestamp"
      (timestamp <- field result "document_timestamp" ;;
       ret ("Date: " ++ timestamp ++ nl)) ;;
  section <-
    match Workflow.get result "chunk_index" VNone with
    | VNone => ret ""
    | _ =>
        chunk_index <- field result "chunk_index" ;;
        ret ("Section: Chunk " ++ chunk_index ++ nl)
    end ;;
  score <- field_3f result "score" ;;
  ret ("--- TRANSCRIPT RESULT " ++ Batch.str_of_int i ++ " ---" ++ nl
         ++ "Title: " ++ title ++ nl
         ++ "Content: " ++ content ++ nl
         ++ "URL: " ++ url ++ nl
         ++ date
         ++ section
         ++ "Relevance Score: " ++ score ++ nl ++ nl).

Definition bigdata_transcript_search (queries : list string)
  : M world string :=
  search_tool "transcript" queries
              "No transcript results found for the given queries."
              ("Transcript Search Results:" ++ nl ++ nl)
              "Error executing transcript search: "
              transcript_entry.

(** ** [bigdata_filings_search] *)

Definition filing_entry (i : Z) (result : dict) : M world string :=
  title <- field result "title" ;;
  content <- field result "content" ;;
  url <- field result "url" ;;
  filed <-
    when_true result "document_timestamp"
      (timestamp <- field result "document_timestamp" ;;
       ret ("Filed: " ++ timestamp ++ nl)) ;;
  score <- field_3f result "score" ;;
  ret ("--- FILING RESULT " ++ Batch.str_of_int i ++ " ---" ++ nl
         ++ "Title: " ++ title ++ nl
         ++ "Content: " ++ content ++ nl
         ++ "URL: " ++ url ++ nl
         ++ filed
         ++ "Relevance Score: " ++ score ++ nl ++ nl).

Definition bigdata_filings_search (queries : list string) : M world string :=
  search_tool "filings" queries
              "No filings results found for the given queries."
              ("Filings Search Results:" ++ nl ++ nl)
              "Error executing filings search: "
              filing_entry.

(** ** [bigdata_universal_search] *)

Definition universal_entry (i : Z) (result : dict) : M world string :=
  title <- field result "title" ;;
  content <- field result "content" ;;
  url <- field result "url" ;;
  source <-
    when_true result "source_name"
      (source_name <- field result "source_name" ;;
       ret ("Source: " ++ source_name ++ nl)) ;;
  date <-
    when_true result "document_timestamp"
      (timestamp <- field result "document_timestamp" ;;
       ret ("Date: " ++ timestamp ++ nl)) ;;
  score <- field_3f result "score" ;;
  ret ("--- RESULT " ++ Batch.str_of_int i ++ " ---" ++ nl
         ++ "Title: " ++ title ++ nl
         ++ "Content: " ++ content ++ nl
         ++ "URL: " ++ url ++ nl
         ++ source
         ++ date
         ++ "Relevance Score: " ++ score ++ nl ++ nl).

Definition bigdata_universal_search (queries : list string)
  : M world string :=
  search_tool "universal" queries
              "No results found across any document types for the given queries."
              ("Universal Search Results (All Document Types):" ++ nl ++ nl)
              "Error executing universal search: "
              universal_entry.

(** ** [bigdata_knowledge_graph]

    The filters that the tool builds from [country_filter] and
    [source_rank_filter], and [max_results], are read by the closure of
    [bigdata_knowledge_graph_async] only. *)

(** [f"{label}{entity.get(key, 'Unknown')}\n"] *)
Definition named_line (entity : dict) (label key : string) : string :=
  label ++ str (Workflow.get entity key (VStr "Unknown")) ++ nl.

(** A line that is added when [entity.get(key)] is true. *)
Definition optional_line (entity : dict) (label key ending : string)
  : M world string :=
  when_true entity key
            (text <- field entity key ;;
             ret (label ++ text ++ ending ++ nl)).

(** A line that is added when [key in entity]. *)
Definition present_line (entity : dict) (label key : string)
  : M world string :=
  if Workflow.contains entity key
  then text <- field entity key ;; ret (label ++ text ++ nl)
  else ret "".

Definition company_entry (i : Z) (company : dict) : M world string :=
  ticker <- optional_line company "Ticker: " "ticker" "" ;;
  country <- optional_line company "Country: " "country" "" ;;
  sector <- optional_line company "Sector: " "sector" "" ;;
  description <- optional_line company "Description: " "description" "" ;;
  ret ("--- COMPANY " ++ Batch.str_of_int i ++ " ---" ++ nl
         ++ named_line company "Name: " "name"
         ++ named_line company "Entity ID: " "id"
         ++ ticker ++ country ++ sector ++ description
         ++ nl).

Definition source_entry (i : Z) (source : dict) : M world string :=
  rank <- optional_line source "Credibility Rank: " "source_rank" "/5" ;;
  country <- optional_line source "Country: " "country" "" ;;
  url <- optional_line source "URL: " "url" "" ;;
  description <- optional_line source "Description: " "description" "" ;;
  ret ("--- SOURCE " ++ Batch.str_of_int i ++ " ---" ++ nl
         ++ named_line source "Name: " "name"
         ++ named_line source "Source ID: " "id"
         ++ rank ++ country ++ url ++ description
         ++ nl).

Definition entity_entry (i : Z) (entity : dict) : M world string :=
  name <- present_line entity "Name: " "name" ;;
  id <- present_line entity "ID: " "id" ;;
  entity_type <- present_line entity "Type: " "entity_type" ;;
  description <- present_line entity "Description: " "description" ;;
  ret ("--- ENTITY " ++ Batch.str_of_int i ++ " ---" ++ nl
         ++ name ++ id ++ entity_type ++ description
         ++ nl).

Definition bigdata_knowledge_graph (search_type search_term : string)
  : M world string :=
  try_except
    (results <-
       bigdata_knowledge_graph_async
         BIGDATA_AVAILABLE Bigdata_init execute_knowledge_graph_search
         search_type search_term ;;
     match results with
     | [] => ret ("No " ++ search_type ++ " found for '" ++ search_term ++ "'.")
     | _ =>
         if String.eqb search_type "companies" then
           format_loop company_entry 1 results
                       ("Companies found for '" ++ search_term ++ "':" ++ nl ++ nl)
         else if String.eqb search_type "sources" then
           format_loop source_entry 1 results
                       ("News sources found for '" ++ search_term ++ "':"
                          ++ nl ++ nl)
         else
           format_loop entity_entry 1 results
                       ("Entities found for '" ++ search_term ++ "':" ++ nl ++ nl)
     end)
    (fun e => ret ("Error executing knowledge graph search: " ++ exn_str e)).

End Tools.

End Tools.

(** ** Runs of the tools *)

Module ToolsRuns.
Import Py PyNotations Utils Tools.

Section Reports.

Variable BIGDATA_AVAILABLE : bool.
Variable Bigdata_init : nat -> string -> string -> option exn.
Variable execute_search :
  nat -> string -> Bigdata -> string -> outcome (list Document).

(** What a search tool reports: it returns a text on every world and
    for every list of queries; the text of the error when no client can
    be had; and the text [nothing] when there is a client and no query
    yields a result, be it that the search found none or that it
    raised. *)
Definition reports (tool : list string -> M world string)
           (kind nothing error : string) : Prop :=
  forall (queries : list string) (w : world),
    (exists text, fst (tool queries w) = Returns text) /\
    match get_bigdata_client BIGDATA_AVAILABLE Bigdata_init w with
    | (Raises e, _) => fst (tool queries w) = Returns (error ++ exn_str e)
    | (Returns bigdata, w1) =>
        Spec.results_of
          (Spec.query_outcomes execute_search kind bigdata true
                               (executions w1) queries)
        = [] ->
        fst (tool queries w) = Returns nothing
    end.

End Reports.

End ToolsRuns.

(** ** Runs of the nodes *)

Module WorkflowRuns.
Import Py PyNotations Graph Configuration Workflow.

(** A world in which nothing has happened yet. *)
Definition quiet : world := {| stream := []; stdout := []; invocations := [] |}.

(** The types of strategy that have a tool. *)
Definition tool_types : list string := map fst tool_map.

(** The types of strategy served by a search tool. *)
Definition search_tool_types : list string :=
  ["news"; "transcripts"; "filings"; "universal"].

(** The steps of [add_global_parameters], for the dictionary each
    leaves. *)
Definition with_entity_ids (state : SearchStrategyState) (tool_params : dict)
  : dict :=
  match Graph.entity_ids state with
  | Some (entity_id :: others) =>
      dict_set tool_params "entity_ids" (VList (map VStr (entity_id :: others)))
  | _ => tool_params
  end.

Definition with_date_range (state : SearchStrategyState) (tool_params : dict)
  : dict :=
  if negb (Utils.falsy (Graph.global_date_range state))
  then dict_set tool_params "date_range"
                (VStr (Utils.getattr (Graph.global_date_range state) ""))
  else tool_params.

Definition with_rerank_threshold (strategy : SearchStrategy)
           (configurable : BigdataSearchConfiguration) (tool_params : dict)
  : dict :=
  if negb (contains tool_params "rerank_threshold")
     && str_in_list (tool_type strategy) ["news"; "universal"]
  then dict_set tool_params "rerank_threshold"
                (bigdata_rerank_threshold configurable)
  else tool_params.

(** The dictionary that [add_global_parameters] returns. *)
Definition global_parameters (state : SearchStrategyState)
           (configurable : BigdataSearchConfiguration) (tool_params : dict)
  : dict :=
  let strategy := Graph.strategy state in
  if negb (String.eqb (tool_type strategy) "knowledge_graph") then
    with_rerank_threshold
      strategy configurable
      (with_date_range state (with_entity_ids state tool_params))
  else tool_params.

(** [if k not in tool_params: tool_params[k] = v] *)
Definition with_default (tool_params : dict) (k : string) (v : value) : dict :=
  if contains tool_params k then tool_params else dict_set tool_params k v.

(** The dictionary that [knowledge_graph_parameters] returns. *)
Definition graph_parameters (strategy : SearchStrategy) (tool_params : dict)
  : dict :=
  if String.eqb (tool_type strategy) "knowledge_graph" then
    pop (with_default
           (with_default tool_params "search_type" (VStr "companies"))
           "search_term" (VStr (hd "" (search_queries strategy))))
        "queries"
  else tool_params.

(** The parameters a node has prepared when it invokes its tool: those
    of the strategy as cleaned, then those of the state. *)
Definition prepared (state : SearchStrategyState)
           (configurable : BigdataSearchConfiguration) (cleaned_params : dict)
  : dict :=
  let strategy := Graph.strategy state in
  graph_parameters
    strategy
    (global_parameters
       state configurable
       (update [("queries", VList (map VStr (search_queries strategy)));
                ("max_results", max_results_per_strategy configurable)]
               cleaned_params)).

(** The entity ids of the state, when there are some. *)
Definition some_entity_ids (state : SearchStrategyState) : option value :=
  match Graph.entity_ids state with
  | Some (entity_id :: others) => Some (VList (map VStr (entity_id :: others)))
  | _ => None
  end.

(** The date range of the state, when there is one. *)
Definition some_date_range (state : SearchStrategyState) : option value :=
  match Graph.global_date_range state with
  | Some "" | None => None
  | Some date_range => Some (VStr date_range)
  end.

(** The first of two optional values that is there. *)
Definition or_else (first second : option value) : option value :=
  match first with
  | Some v => Some v
  | None => second
  end.

(** The metadata of a search that returned and of one that raised. *)
Definition success_metadata (strategy : SearchStrategy) (tool_params : dict)
           (raw_results : value) (execution_time : float) : dict :=
  [("execution_time", VFloat execution_time);
   ("query_count", VInt (Z.of_nat (List.length (search_queries strategy))));
   ("tool_type", VStr (tool_type strategy));
   ("parameters_used", VDict tool_params);
   ("success", VBool true);
   ("content_length", VInt (result_length raw_results))].

Definition failure_metadata (strategy : SearchStrategy) (tool_params : dict)
           (e : exn) (execution_time : float) : dict :=
  [("execution_time", VFloat execution_time);
   ("query_count", VInt (Z.of_nat (List.length (search_queries strategy))));
   ("tool_type", VStr (tool_type strategy));
   ("parameters_used", VDict tool_params);
   ("success", VBool false);
   ("error", VStr (exn_str e))].

(** The number of searches of a type, among those gathered. *)
Definition searches_of (tool : string) (searches : list SearchResult) : Z :=
  Z.of_nat (List.length
              (filter (fun s => String.eqb (tool_type (result_strategy s)) tool)
                      searches)).

(** The count held by an entry of the distribution. *)
Definition count_of (entry : string * value) : Z :=
  match snd entry with
  | VInt n => n
  | _ => 0
  end.

(** A step that leaves on the stream what was written before. *)
Definition stream_grows {A} (c : M world A) : Prop :=
  forall w, exists more, stream (snd (c w)) = (stream w ++ more)%list.

(** A step that returns [a] on every world, and only writes to the
    stream. *)
Definition only_streams {A} (c : M world A) (a : A) : Prop :=
  forall w, exists w',
    c w = (Returns a, w') /\
    invocations w' = invocations w /\
    stdout w' = stdout w.

(** ** The branches of the parallel searches

    Each [Send] of [initiate_parallel_searches] runs the node
    [execute_search_strategy] on its own argument; the lists that the
    branches return are added up into [completed_searches]. *)

Section Branches.

Variable float_of_str : string -> option float.

(** The tools, the clock and the world as the [i]-th branch finds
    them. *)
Variable ainvoke : nat -> nat -> string -> dict -> outcome value.
Variable elapsed : nat -> nat -> float.
Variable worlds : nat -> world.

Definition branch_run (config : option RunnableConfig) (i : nat) (send : Send)
  : outcome (list SearchResult) * world :=
  execute_search_strategy float_of_str (ainvoke i) (elapsed i)
                          (arg send) config (worlds i).

(** What the [i]-th branch adds to [completed_searches]. *)
Definition branch_results (config : option RunnableConfig) (i : nat)
           (send : Send) : list SearchResult :=
  match fst (branch_run config i send) with
  | Returns completed_searches => completed_searches
  | Raises _ => []
  end.

Fixpoint fan_out (config : option RunnableConfig) (i : nat) (sends : list Send)
  : list SearchResult :=
  match sends with
  | [] => []
  | send :: rest =>
      (branch_results config i send ++ fan_out config (S i) rest)%list
  end.

(** Whether the tool that the [i]-th branch invoked returned. *)
Definition tool_returned (config : option RunnableConfig) (i : nat)
           (send : Send) : bool :=
  let n := List.length (invocations (worlds i)) in
  match nth_error (invocations (snd (branch_run config i send))) n with
  | Some (tool, tool_params) => returned (ainvoke i n tool tool_params)
  | None => false
  end.

(** The number of branches, from the [i]-th on, whose tool returned. *)
Fixpoint tools_returned (config : option RunnableConfig) (i : nat)
         (sends : list Send) : nat :=
  match sends with
  | [] => O
  | send :: rest =>
      ((if tool_returned config i send then 1 else 0)
       + tools_returned config (S i) rest)%nat
  end.

End Branches.

(** The number of strategies of a type. *)
Definition strategies_of (tool : string) (strategies : list SearchStrategy)
  : Z :=
  Z.of_nat (List.length
              (filter (fun s => String.eqb (tool_type s) tool) strategies)).

End WorkflowRuns.

(* ===================================================================== *)
(** * The command line of the two batch scripts *)
(* ===================================================================== *)

Module Script.
Import Py.

(** A [dict] from [str] to [str], in insertion order. *)
Definition str_dict := list (string * string).

(** [d[k] = v] *)
Fixpoint setitem (d : str_dict) (k v : string) : str_dict :=
  match d with
  | [] => [(k, v)]
  | (k', v') :: d' =>
      if String.eqb k' k then (k', v) :: d' else (k', v') :: setitem d' k v
  end.

Definition IndexError : exn :=
  Exn (OtherException "IndexError") "list index out of range".

(** [l[i]] *)
Definition item (l : list string) (i : nat) : outcome string :=
  match nth_error l i with
  | Some s => Returns s
  | None => Raises IndexError
  end.

(** [d[k]] *)
Definition getitem (d : str_dict) (k : string) : outcome string :=
  match Utils.lookup d k with
  | Some v => Returns v
  | None => Raises (Exn (OtherException "KeyError") ("'" ++ k ++ "'"))
  end.

(** [{param.split("=")[0]: param.split("=")[1] for param in argv}],
    with [params] the dictionary built so far; [argv] is
    [sys.argv[1:]]. *)
Fixpoint parse (argv : list string) (params : str_dict) : outcome str_dict :=
  match argv with
  | [] => Returns params
  | param :: rest =>
      match item (split "=" param) 0 with
      | Raises e => Raises e
      | Returns key =>
          match item (split "=" param) 1 with
          | Raises e => Raises e
          | Returns value => parse rest (setitem params key value)
          end
      end
  end.

(** An argument written [key=value]. *)
Definition argument (entry : string * string) : string :=
  fst entry ++ "=" ++ snd entry.

End Script.

(* ===================================================================== *)
(** * Further concrete runs *)
(* ===================================================================== *)

Module MoreExamples.
Import Py.

Definition not_found : exn :=
  Exn (OtherException "BigdataClientError") "file not found".

(** The download vendor as the workers see it: the analysis of the
    first worker's file times out once, the file of the second worker
    is never found. *)
Definition finds (i n : nat) (file_id : string) : outcome string :=
  match i with
  | 1%nat => Raises not_found
  | _ => Returns "COMPLETED"
  end.

Definition waits (i n : nat) (file_id : string) (timeout : Z) : option exn :=
  match i, n with
  | O, O => Some Examples.timed_out
  | _, _ => None
  end.

Definition saves (i n : nat) (file_id filename : string) : option exn := None.

(** A later day, on which every download succeeds at once. *)
Definition finds_all (i n : nat) (file_id : string) : outcome string :=
  Returns "COMPLETED".

Definition waits_none (i n : nat) (file_id : string) (timeout : Z)
  : option exn := None.

(** An input of the download script: an uploaded file, a failed upload,
    a download to retry and a file already downloaded. *)
Definition uploaded_ids : list BulkDownload.row :=
  [["5A3F"; "UPLOAD_DONE"; "/data/a.pdf"];
   [""; "UPLOAD_ERROR"; "/data/b.pdf"];
   ["77C0"; "DOWNLOAD_ERROR"; "/data/c.pdf"];
   ["9B1E"; "DOWNLOAD_DONE"; "/data/d.pdf"]].

(** The same with a blank line at its end. *)
Definition blank_line : list BulkDownload.row := (uploaded_ids ++ [[]])%list.

(** A strategy for the news tool with parameters of its own, in a
    state that has an entity and a date range. *)
Definition news_strategy : Graph.SearchStrategy :=
  {| Graph.tool_type := "news";
     Graph.search_queries := Examples.three_queries;
     Graph.parameters := Examples.some_parameters;
     Graph.priority := 1;
     Graph.description := "Recent coverage" |}.

Definition news_state : Graph.SearchStrategyState :=
  {| Graph.arg_topic := "EV makers";
     Graph.strategy := news_strategy;
     Graph.entity_ids := Some ["4A6F00"];
     Graph.global_date_range := Some "last_week";
     Graph.completed_searches := [] |}.

(** A strategy for the knowledge graph, in the same state. *)
Definition graph_strategy : Graph.SearchStrategy :=
  {| Graph.tool_type := "knowledge_graph";
     Graph.search_queries := ["tesla"; "nvidia"];
     Graph.parameters := [("search_type", VStr "sources")];
     Graph.priority := 2;
     Graph.description := "Sources on EV makers" |}.

Definition graph_state : Graph.SearchStrategyState :=
  {| Graph.arg_topic := "EV makers";
     Graph.strategy := graph_strategy;
     Graph.entity_ids := Some ["4A6F00"];
     Graph.global_date_range := Some "last_week";
     Graph.completed_searches := [] |}.

(** A strategy of a type that has no tool. *)
Definition podcast_strategy : Graph.SearchStrategy :=
  {| Graph.tool_type := "podcasts";
     Graph.search_queries := ["tesla"];
     Graph.parameters := [];
     Graph.priority := 1;
     Graph.description := "Interviews" |}.

(** The tools on a day on which the news tool answers and every other
    tool is rate-limited. *)
Definition news_only (n : nat) (tool : string) (input : dict) : outcome value :=
  if String.eqb tool "bigdata_news_search"
  then Returns (VStr "No news results found for the given queries.")
  else Raises Examples.rate_limited.

(** Every invocation takes two seconds. *)
Definition two_seconds (n : nat) : float := S754_finite false 4503599627370496 (-51).

(** What the node returns for a state, on a quiet world. *)
Definition searched (state : Graph.SearchStrategyState)
  : list Graph.SearchResult :=
  match fst (Workflow.execute_search_strategy
               Examples.no_float news_only two_seconds state None
               WorkflowRuns.quiet) with
  | Returns completed_searches => completed_searches
  | Raises _ => []
  end.

(** The searches of the two strategies, one after the other. *)
Definition two_searches : list Graph.SearchResult :=
  (searched news_state ++ searched graph_state)%list.

(** The builtins [sum] and [/] on the numbers of these searches:
    [int]s are added as they are, and a [float] is added or divided
    with the operations of binary64. *)
Definition add (x y : value) : outcome value :=
  match x, y with
  | VInt a, VInt b => Returns (VInt (a + b))
  | VInt a, VFloat g =>
      match float_of_int a with
      | Returns f => Returns (VFloat (SFadd prec emax f g))
      | Raises e => Raises e
      end
  | VFloat f, VFloat g => Returns (VFloat (SFadd prec emax f g))
  | _, _ => Raises (Exn (OtherException "TypeError") "unsupported operand type(s) for +")
  end.

Fixpoint sum_from (start : value) (values : list value) : outcome value :=
  match values with
  | [] => Returns start
  | v :: rest =>
      match add start v with
      | Returns total => sum_from total rest
      | Raises e => Raises e
      end
  end.

Definition sum_of (values : list value) : outcome value :=
  sum_from (VInt 0) values.

Definition divided_by (total : value) (n : Z) : outcome value :=
  match total, float_of_int n with
  | VFloat f, Returns g => Returns (VFloat (SFdiv prec emax f g))
  | _, _ => Raises (Exn (OtherException "TypeError") "unsupported operand type(s) for /")
  end.

(** A plan of the two strategies, and its branches: each finds the
    same tools and a quiet world. *)
Definition plan : Graph.BigdataSearchState :=
  {| Graph.topic := "EV makers";
     Graph.entity_preference := Some (Some ["4A6F00"]);
     Graph.date_range := Some (Some "last_week");
     Graph.search_strategies := [news_strategy; graph_strategy] |}.

Definition branch_tools (i : nat) := news_only.

Definition branch_clock (i : nat) := two_seconds.

Definition branch_world (i : nat) : Workflow.world := WorkflowRuns.quiet.

(** The searches of the plan, the second branch completing first. *)
Definition plan_searches : list Graph.SearchResult :=
  rev (WorkflowRuns.fan_out Examples.no_float branch_tools branch_clock
                            branch_world None 0
                            (Graph.initiate_parallel_searches plan)).

End MoreExamples.

(* ===================================================================== *)
(** * Properties of graph.py *)
(* ===================================================================== *)

Section GraphFacts.
Import Py Graph Spec.

Variable float_of_str : string -> option float.

Lemma in_dict_set (d : dict) (k : string) (v : value) (k' : string) (v' : value) :
  In (k', v') (dict_set d k v) -> (k' = k /\ v' = v) \/ In (k', v') d.
Proof.
  induction d as [|[k0 v0] d IH]; simpl.
  - intros [H|[]]. inversion H. auto.
  - destruct (String.eqb k0 k) eqn:E.
    + apply String.eqb_eq in E. subst k0.
      intros [H|H]; [inversion H; auto | auto].
    + intros [H|H]; [auto|].
      destruct (IH H) as [?|?]; auto.
Qed.

Lemma dict_get_set_same (d : dict) (k : string) (v : value) :
  dict_get (dict_set d k v) k = Some v.
Proof.
  induction d as [|[k0 v0] d IH]; simpl.
  - now rewrite String.eqb_refl.
  - destruct (String.eqb k0 k) eqn:E; simpl; rewrite E; auto.
Qed.

(** An iteration leaves [cleaned] as it is or binds the key to a value
    that is not [None], and then the input value was not [None]. *)
Lemma clean_item_shape (cleaned : dict) (key : string) (v : value) (cleaned' : dict) :
  clean_item float_of_str cleaned key v = Returns cleaned' ->
  cleaned' = cleaned \/
  (v <> VNone /\ exists v', v' <> VNone /\ cleaned' = dict_set cleaned key v').
Proof.
  unfold clean_item. intros H.
  assert (Hset : forall c' v', v <> VNone -> v' <> VNone ->
                   c' = dict_set cleaned key v' ->
                   c' = cleaned \/
                   (v <> VNone /\ exists v', v' <> VNone /\
                                             c' = dict_set cleaned key v'))
    by (intros c' v' ? ? ?; right; split; [assumption|now exists v']).
  destruct (str_in_list key list_keys);
    [destruct v; inversion H; subst; try (now left);
     eapply Hset; try reflexivity; discriminate|].
  destruct (str_in_list key numeric_keys).
  { destruct v as [|b|z|f|s|l|d|r]; try (inversion H; now left).
    - inversion H. eapply Hset; try reflexivity; discriminate.
    - inversion H. eapply Hset; try reflexivity; discriminate.
    - simpl in H. destruct (int_of_float f); inversion H.
      eapply Hset; try reflexivity; discriminate.
    - destruct (isdigit s); [|inversion H; now left].
      destruct (int_of_str s); inversion H.
      eapply Hset; try reflexivity; discriminate. }
  destruct (str_in_list key float_keys).
  { destruct v as [|b|z|f|s|l|d|r]; try (inversion H; now left).
    - simpl in H. destruct (float_of_int (if b then 1 else 0)); inversion H.
      eapply Hset; try reflexivity; discriminate.
    - simpl in H. destruct (float_of_int z); inversion H.
      eapply Hset; try reflexivity; discriminate.
    - inversion H. eapply Hset; try reflexivity; discriminate.
    - destruct (float_of_str s); inversion H; [|now left].
      eapply Hset; try reflexivity; discriminate. }
  destruct (str_in_list key string_keys);
    [destruct v; inversion H; subst; try (now left);
     eapply Hset; try reflexivity; discriminate|].
  destruct (str_in_list key dict_keys);
    destruct v; inversion H; subst; try (now left);
    eapply Hset; try reflexivity; discriminate.
Qed.

(** An iteration raises only in a conversion for a numeric key or for
    [rerank_threshold]. *)
Lemma clean_item_raises (cleaned : dict) (key : string) (v : value) (e : exn) :
  clean_item float_of_str cleaned key v = Raises e ->
  v <> VNone /\ is_conversion_error e = true /\
  (str_in_list key numeric_keys = true \/ str_in_list key float_keys = true).
Proof.
  unfold clean_item, store, map_outcome, int_of_number, float_of_number,
    int_of_float, float_of_int, int_of_str.
  intros H.
  destruct (str_in_list key list_keys) eqn:E1;
    [destruct v; discriminate|].
  destruct (str_in_list key numeric_keys) eqn:E2.
  - split; [destruct v; discriminate|]. split; [|now left].
    destruct v as [|b|z|f|s|l|d|r]; try discriminate.
    + destruct f; inversion H; reflexivity.
    + destruct (isdigit s); [|discriminate].
      destruct s; [inversion H; reflexivity|].
      destruct (str_forallb char_isdecimal (String a s)); inversion H; reflexivity.
  - destruct (str_in_list key float_keys) eqn:E3.
    + split; [destruct v; discriminate|]. split; [|now right].
      destruct v as [|b|z|f|s|l|d|r]; try discriminate.
      * destruct (binary_normalize prec emax (if b then 1 else 0) 0 false);
          inversion H; reflexivity.
      * destruct (binary_normalize prec emax z 0 false); inversion H; reflexivity.
      * destruct (float_of_str s); discriminate.
    + destruct (str_in_list key string_keys);
        [destruct v; discriminate|].
      destruct (str_in_list key dict_keys); destruct v; discriminate.
Qed.

(** The invariant of the loop: what [cleaned] binds is not [None] and
    comes from a binding of the input that is not [None]. *)
Definition from_input (params cleaned : dict) : Prop :=
  forall k v, In (k, v) cleaned ->
              v <> VNone /\ exists v0, In (k, v0) params /\ v0 <> VNone.

Lemma clean_loop_inv (params : dict) :
  forall items cleaned,
    incl items params ->
    from_input params cleaned ->
    match clean_loop float_of_str items cleaned with
    | Returns cleaned' => from_input params cleaned'
    | Raises e =>
        exists key v, In (key, v) params /\ v <> VNone /\
                      is_conversion_error e = true /\
                      (str_in_list key numeric_keys = true \/
                       str_in_list key float_keys = true)
    end.
Proof.
  induction items as [|[key v] items IH]; intros cleaned Hincl Hinv; simpl.
  - exact Hinv.
  - assert (Hin : In (key, v) params) by (apply Hincl; now left).
    assert (Hrest : incl items params) by (intros x Hx; apply Hincl; now right).
    destruct (clean_item float_of_str cleaned key v) as [cleaned'|e] eqn:E.
    + apply IH; [exact Hrest|].
      destruct (clean_item_shape _ _ _ _ E) as [->|(Hv & v' & Hv' & ->)];
        [exact Hinv|].
      intros k0 v0 H0. apply in_dict_set in H0.
      destruct H0 as [[-> ->]|H0]; [|now apply Hinv].
      split; [exact Hv'|]. now exists v.
    + destruct (clean_item_raises _ _ _ _ E) as (Hv & He & Hk).
      now exists key, v.
Qed.

Lemma numeric_key_cases (key : string) :
  str_in_list key numeric_keys = true ->
  key = "fiscal_year" \/ key = "fiscal_quarter" \/ key = "max_results".
Proof.
  unfold str_in_list, numeric_keys. simpl.
  rewrite !orb_true_iff, !String.eqb_eq. intuition congruence.
Qed.

Lemma list_key_cases (key : string) :
  str_in_list key list_keys = true ->
  key = "transcript_types" \/ key = "section_metadata" \/ key = "filing_types"
  \/ key = "document_types" \/ key = "sources".
Proof.
  unfold str_in_list, list_keys. simpl.
  rewrite !orb_true_iff, !String.eqb_eq. intuition congruence.
Qed.

Lemma float_key_cases (key : string) :
  str_in_list key float_keys = true -> key = "rerank_threshold".
Proof.
  unfold str_in_list, float_keys. simpl.
  rewrite !orb_true_iff, !String.eqb_eq. intuition congruence.
Qed.

(** The coercions of the list-typed keys. *)
Lemma clean_item_list_key (cleaned : dict) (key : string) (v : value) :
  str_in_list key list_keys = true ->
  clean_item float_of_str cleaned key v =
  Returns (match v with
           | VStr _ => dict_set cleaned key (VList [v])
           | VList _ => dict_set cleaned key v
           | _ => cleaned
           end).
Proof.
  intros H. unfold clean_item. rewrite H. now destruct v.
Qed.

(** The coercions of the numeric keys, where the conversion succeeds. *)
Lemma clean_item_numeric_key (cleaned : dict) (key : string) :
  str_in_list key numeric_keys = true ->
  (forall z, clean_item float_of_str cleaned key (VInt z)
             = Returns (dict_set cleaned key (VInt z))) /\
  (forall f z, int_of_float f = Returns z ->
               clean_item float_of_str cleaned key (VFloat f)
               = Returns (dict_set cleaned key (VInt z))) /\
  (forall s, s <> EmptyString -> str_forallb char_isdecimal s = true ->
             clean_item float_of_str cleaned key (VStr s)
             = Returns (dict_set cleaned key (VInt (digits_value 0 s)))).
Proof.
  intros H.
  assert (Hl : str_in_list key list_keys = false)
    by (destruct (numeric_key_cases _ H) as [->|[->| ->]]; reflexivity).
  unfold clean_item. rewrite Hl, H. repeat split.
  - intros f z Hz. simpl. now rewrite Hz.
  - intros s Hs Hd.
    assert (Hdigit : isdigit s = true).
    { destruct s as [|c s]; [congruence|]. unfold isdigit.
      revert Hd. generalize (String c s). clear.
      induction s as [|c s IH]; simpl; [reflexivity|].
      rewrite !andb_true_iff. intros [Hc Hs]. split; [|now apply IH].
      unfold char_isdecimal in Hc. unfold char_isdigit.
      now rewrite Hc. }
    rewrite Hdigit. unfold int_of_str.
    destruct s; [congruence|]. now rewrite Hd.
Qed.

(** The coercions of [rerank_threshold], where the conversion succeeds,
    and the unparseable string that is dropped. *)
Lemma clean_item_float_key (cleaned : dict) (key : string) :
  str_in_list key float_keys = true ->
  (forall z f, float_of_int z = Returns f ->
               clean_item float_of_str cleaned key (VInt z)
               = Returns (dict_set cleaned key (VFloat f))) /\
  (forall f, clean_item float_of_str cleaned key (VFloat f)
             = Returns (dict_set cleaned key (VFloat f))) /\
  (forall s f, float_of_str s = Some f ->
               clean_item float_of_str cleaned key (VStr s)
               = Returns (dict_set cleaned key (VFloat f))) /\
  (forall s, float_of_str s = None ->
             clean_item float_of_str cleaned key (VStr s) = Returns cleaned).
Proof.
  intros H. apply float_key_cases in H. subst key.
  unfold clean_item. simpl. repeat split.
  - intros z f Hz. now rewrite Hz.
  - intros s f Hs. now rewrite Hs.
  - intros s Hs. now rewrite Hs.
Qed.

(** C1 (failing inputs).  A value of a numeric key whose conversion by
    [int()] raises makes [_clean_tool_parameters] raise instead of
    returning a cleaned dictionary: the string U+00B2 passes
    [isdigit()] and is no literal for [int()], and a float NaN passes
    [isinstance(value, (int, float))]; likewise an [int] beyond the
    range of floats under [rerank_threshold].  This holds whatever
    [float()] does on strings and whatever the tool type. *)
Theorem clean_tool_parameters_raises_on_failed_conversion (tool_type : string) :
  isdigit superscript_two = true /\
  _clean_tool_parameters float_of_str [("max_results", VStr superscript_two)] tool_type
  = Raises (Exn ValueError "invalid literal for int() with base 10") /\
  _clean_tool_parameters float_of_str [("fiscal_year", VFloat not_a_number)] tool_type
  = Raises (Exn ValueError "cannot convert float NaN to integer") /\
  _clean_tool_parameters float_of_str [("rerank_threshold", VInt (2 ^ 1024))] tool_type
  = Raises (Exn OverflowError "int too large to convert to float").
Proof.
  repeat split; vm_compute; reflexivity.
Qed.

(** C9.  The dictionary [_clean_tool_parameters] returns binds only
    keys of the input, binds none of them to [None], and omits every
    key that the input binds to [None]; and when the function does not
    return, the exception comes from the conversion of a value, not
    [None], of a numeric key or of [rerank_threshold]. *)
Theorem clean_tool_parameters_keys_from_input_none_dropped
        (params : dict) (tool_type : string) :
  match _clean_tool_parameters float_of_str params tool_type with
  | Returns cleaned =>
      (forall k, In k (keys cleaned) -> In k (keys params)) /\
      (forall k v, In (k, v) cleaned -> v <> VNone) /\
      (forall k, only_None params k -> ~ In k (keys cleaned))
  | Raises e =>
      exists key v, In (key, v) params /\ v <> VNone /\
                    is_conversion_error e = true /\
                    (str_in_list key numeric_keys = true \/
                     str_in_list key float_keys = true)
  end.
Proof.
  unfold _clean_tool_parameters.
  pose proof (clean_loop_inv params params [] (incl_refl _)) as H.
  assert (H0 : from_input params []) by (intros k v []).
  specialize (H H0).
  destruct (clean_loop float_of_str params []) as [cleaned|e]; [|exact H].
  repeat split.
  - intros k Hk. unfold keys in *. apply in_map_iff in Hk.
    destruct Hk as ([k' v] & <- & Hin).
    destruct (H _ _ Hin) as (_ & v0 & Hv0 & _).
    apply in_map_iff. now exists (k', v0).
  - intros k v Hin. now destruct (H _ _ Hin).
  - intros k Hnone Hk. unfold keys in Hk. apply in_map_iff in Hk.
    destruct Hk as ([k' v] & <- & Hin).
    destruct (H _ _ Hin) as (_ & v0 & Hv0 & Hne).
    apply Hne. now apply (Hnone v0).
Qed.

Lemma decimal_is_digit (s : string) :
  str_forallb char_isdecimal s = true -> str_forallb char_isdigit s = true.
Proof.
  induction s as [|c s IH]; simpl; [reflexivity|].
  rewrite !andb_true_iff. intros [Hc Hs]. split; [|now apply IH].
  unfold char_isdecimal in Hc. unfold char_isdigit. now rewrite Hc.
Qed.

Lemma dict_set_fresh (d : dict) (k : string) (v : value) :
  ~ In k (keys d) -> dict_set d k v = (d ++ [(k, v)])%list.
Proof.
  induction d as [|[k0 v0] d IH]; simpl; [reflexivity|].
  intros H. destruct (String.eqb k0 k) eqn:E.
  - apply String.eqb_eq in E. tauto.
  - rewrite IH; tauto.
Qed.

(** An iteration on a convertible value stores the coerced value or
    drops the key. *)
Lemma clean_item_coerced (cleaned : dict) (key : string) (v : value) :
  convertible key v = true ->
  clean_item float_of_str cleaned key v
  = Returns (match coerced float_of_str key v with
             | Some v' => dict_set cleaned key v'
             | None => cleaned
             end).
Proof.
  unfold convertible, coerced, clean_item. intros Hconv.
  destruct (str_in_list key list_keys) eqn:El.
  { assert (En : str_in_list key numeric_keys = false)
      by (destruct (list_key_cases _ El) as [->|[->|[->|[->| ->]]]]; reflexivity).
    now destruct v. }
  destruct (str_in_list key numeric_keys) eqn:En.
  { destruct v as [|b|z|f|s|l|d|r]; try reflexivity.
    - unfold finite_int. simpl.
      destruct (int_of_float f); [reflexivity|discriminate].
    - unfold decimal_literal, int_of_str.
      destruct (isdigit s) eqn:Ed; simpl in Hconv.
      + rewrite Hconv. destruct s; [discriminate|]. reflexivity.
      + destruct s as [|c s]; [reflexivity|].
        simpl negb. cbv iota. unfold isdigit in Ed.
        destruct (str_forallb char_isdecimal (String c s)) eqn:E; [|reflexivity].
        apply decimal_is_digit in E. congruence. }
  destruct (str_in_list key float_keys) eqn:Ef.
  { destruct v as [|b|z|f|s|l|d|r]; try reflexivity.
    - unfold finite_float. simpl.
      destruct (float_of_int (if b then 1 else 0)); [reflexivity|discriminate].
    - unfold finite_float. simpl.
      destruct (float_of_int z); [reflexivity|discriminate].
    - now destruct (float_of_str s). }
  destruct (str_in_list key string_keys); [now destruct v|].
  destruct (str_in_list key dict_keys); now destruct v.
Qed.

Lemma keys_app (d1 d2 : dict) :
  keys (d1 ++ d2)%list = (keys d1 ++ keys d2)%list.
Proof.
  unfold keys. apply map_app.
Qed.

Lemma clean_loop_coerced (items : dict) :
  forall cleaned,
    NoDup (keys items) ->
    (forall k, In k (keys cleaned) -> ~ In k (keys items)) ->
    (forall k v, In (k, v) items -> convertible k v = true) ->
    clean_loop float_of_str items cleaned
    = Returns (cleaned ++ coerced_items float_of_str items)%list.
Proof.
  induction items as [|[key v] items IH]; intros cleaned Hnd Hdisj Hconv; simpl.
  - now rewrite app_nil_r.
  - inversion Hnd as [|? ? Hnotin Hnd']; subst.
    rewrite clean_item_coerced by (apply Hconv; now left).
    unfold coerced_items. simpl flat_map. fold (coerced_items float_of_str items).
    assert (Hfresh : ~ In key (keys cleaned)).
    { intros H. apply (Hdisj key H). now left. }
    destruct (coerced float_of_str key v) as [v'|].
    + rewrite (dict_set_fresh _ _ _ Hfresh).
      rewrite IH; [now rewrite <- app_assoc|exact Hnd'| |].
      * intros k Hk. rewrite keys_app in Hk. apply in_app_or in Hk.
        destruct Hk as [Hk|[<-|[]]]; [|exact Hnotin].
        intros Hin. apply (Hdisj k Hk). now right.
      * intros k0 v0 H0. apply Hconv. now right.
    + rewrite IH; [reflexivity|exact Hnd'| |].
      * intros k Hk Hin. apply (Hdisj k Hk). now right.
      * intros k0 v0 H0. apply Hconv. now right.
Qed.


End GraphFacts.

(** C6.  [initiate_parallel_searches] returns one [Send] per strategy of
    the state, in the order of [search_strategies]; each targets the node
    [execute_search_strategy] and carries its strategy with the topic of
    the state, [entity_preference] as [entity_ids], [date_range] as
    [global_date_range] and no completed search.  This holds for every
    state, so for those with a non-empty list of strategies. *)
Theorem initiate_parallel_searches_one_send_per_strategy
        (state : Graph.BigdataSearchState) :
  let sends := Graph.initiate_parallel_searches state in
  List.length sends = List.length (Graph.search_strategies state) /\
  map (fun send => Graph.strategy (Graph.arg send)) sends
  = Graph.search_strategies state /\
  Forall (fun send =>
            Graph.node send = "execute_search_strategy" /\
            Graph.arg_topic (Graph.arg send) = Graph.topic state /\
            Graph.entity_ids (Graph.arg send)
            = Graph.state_get (Graph.entity_preference state) /\
            Graph.global_date_range (Graph.arg send)
            = Graph.state_get (Graph.date_range state) /\
            Graph.completed_searches (Graph.arg send) = [])
         sends.
Proof.
  unfold Graph.initiate_parallel_searches. cbv zeta.
  split; [apply length_map|]. split.
  - rewrite map_map. simpl. apply map_id.
  - apply Forall_forall. intros send Hin. apply in_map_iff in Hin.
    destruct Hin as (s & <- & _). simpl. auto.
Qed.

(* ===================================================================== *)
(** * Properties of utils.py: the client singleton *)
(* ===================================================================== *)

Section ClientFacts.
Import Py Utils Spec.

Variable BIGDATA_AVAILABLE : bool.
Variable Bigdata_init : nat -> string -> string -> option exn.

Local Abbreviation get_client :=
  (get_bigdata_client BIGDATA_AVAILABLE Bigdata_init).

(** With a client in place the call hands it out and touches nothing. *)
Lemma get_client_reuses (w : world) (c : Bigdata) :
  BIGDATA_AVAILABLE = true ->
  _bigdata_client w = Some c ->
  get_client w = (Returns c, w).
Proof.
  intros Ha Hc. unfold get_bigdata_client, bind, gets, ret.
  rewrite Ha. simpl. now rewrite Hc.
Qed.

(** A call never alters a world whose singleton is set. *)
Lemma get_client_keeps_world (w : world) (c : Bigdata) :
  _bigdata_client w = Some c -> snd (get_client w) = w.
Proof.
  intros Hc. unfold get_bigdata_client, bind, gets, ret, raise.
  destruct BIGDATA_AVAILABLE; simpl; [now rewrite Hc | reflexivity].
Qed.

(** What a call that returns has done. *)
Lemma get_client_returns (w w' : world) (b : Bigdata) :
  get_client w = (Returns b, w') ->
  BIGDATA_AVAILABLE = true /\
  _bigdata_client w' = Some b /\
  match _bigdata_client w with
  | Some c => b = c /\ w' = w
  | None =>
      client_serial b = constructions w /\
      constructions w' = S (constructions w) /\
      executions w' = executions w
  end.
Proof.
  unfold get_bigdata_client, bind, gets, ret, raise, modify.
  destruct BIGDATA_AVAILABLE; simpl; [|discriminate].
  destruct (_bigdata_client w) as [c|] eqn:Hc.
  - intros H. inversion H; subst. auto.
  - destruct (falsy (BIGDATA_USERNAME w) || falsy (BIGDATA_PASSWORD w));
      [discriminate|].
    simpl.
    destruct (Bigdata_init _ _ _); [discriminate|].
    intros H. inversion H; subst. simpl. auto.
Qed.

(** With no client in place, credentials set and a constructor that
    accepts them, the call constructs a client. *)
Lemma get_client_constructs (w : world) (u p : string) :
  BIGDATA_AVAILABLE = true ->
  _bigdata_client w = None ->
  BIGDATA_USERNAME w = Some u -> u <> "" ->
  BIGDATA_PASSWORD w = Some p -> p <> "" ->
  Bigdata_init (constructions w) u p = None ->
  exists w',
    get_client w
    = (Returns {| client_serial := constructions w;
                  client_username := u;
                  client_password := p |}, w') /\
    constructions w' = S (constructions w).
Proof.
  intros Ha Hc Hu Hu' Hp Hp' Hinit.
  unfold get_bigdata_client, bind, gets, ret, raise, modify.
  apply String.eqb_neq in Hu', Hp'.
  rewrite Ha. cbv beta iota delta [negb]. rewrite Hc, Hu, Hp.
  unfold falsy. rewrite Hu', Hp'. cbv beta iota delta [orb getattr].
  rewrite Hinit. eexists. split; reflexivity.
Qed.

Lemma get_client_fresh (w : world) :
  client_fresh w -> client_fresh (snd (get_client w)).
Proof.
  intros Hf. destruct (_bigdata_client w) as [c|] eqn:Hc.
  - now rewrite (get_client_keeps_world w c Hc).
  - unfold get_bigdata_client, bind, gets, ret, raise, modify.
    destruct BIGDATA_AVAILABLE; simpl; [|exact Hf].
    rewrite Hc.
    destruct (falsy (BIGDATA_USERNAME w) || falsy (BIGDATA_PASSWORD w));
      [exact Hf|].
    simpl. destruct (Bigdata_init _ _ _); simpl.
    + intros c' Hc'. simpl in Hc'. congruence.
    + intros c' Hc'. simpl in Hc'. inversion Hc'; subst. simpl. lia.
Qed.

(** In a run of calls, once one has returned a client every later one
    returns that client. *)
Lemma get_repeatedly_same (n : nat) :
  forall w c b,
    _bigdata_client w = Some c ->
    In b (returned_values (fst (get_repeatedly BIGDATA_AVAILABLE Bigdata_init n w))) ->
    b = c.
Proof.
  induction n as [|n IH]; intros w c b Hc; simpl; [intros []|].
  destruct (get_client w) as [r w1] eqn:E.
  pose proof (get_client_keeps_world w c Hc) as Hw. rewrite E in Hw.
  simpl in Hw. subst w1.
  destruct (get_repeatedly BIGDATA_AVAILABLE Bigdata_init n w) as [rs w2] eqn:E2.
  unfold returned_values. simpl. rewrite in_app_iff. intros [Hin|Hin].
  - destruct r as [b0|e]; simpl in Hin; [|contradiction].
    destruct Hin as [<-|[]].
    destruct (get_client_returns _ _ _ E) as (_ & _ & H).
    rewrite Hc in H. now destruct H.
  - apply (IH w c b Hc). now rewrite E2.
Qed.

(** C7.  The vendor client is constructed lazily and at most once
    between resets.  A call of [get_bigdata_client] that finds the
    singleton set returns that instance and leaves the world as it is
    (no constructor call); a call that returns on an unset singleton
    has called the constructor once and stored the new client; in any
    run of calls with no reset in between, all the calls that return
    give one and the same instance; and [reset_bigdata_client] sets the
    singleton back to [None] without touching anything else. *)
Theorem client_constructed_lazily_once_between_resets (w : world) :
  (forall c, BIGDATA_AVAILABLE = true -> _bigdata_client w = Some c ->
             get_client w = (Returns c, w)) /\
  (forall b w', get_client w = (Returns b, w') ->
                _bigdata_client w' = Some b /\
                match _bigdata_client w with
                | Some c => b = c /\ w' = w
                | None => client_serial b = constructions w /\
                          constructions w' = S (constructions w)
                end) /\
  (forall n b b',
      let clients :=
        returned_values (fst (get_repeatedly BIGDATA_AVAILABLE Bigdata_init n w)) in
      In b clients -> In b' clients -> b = b') /\
  reset_bigdata_client w = (Returns tt, set_client None w) /\
  _bigdata_client (set_client None w) = None /\
  constructions (set_client None w) = constructions w.
Proof.
  split; [intros c Ha Hc; now apply get_client_reuses|].
  split.
  { intros b w' H. destruct (get_client_returns _ _ _ H) as (_ & Hs & Hm).
    split; [exact Hs|].
    destruct (_bigdata_client w); [exact Hm|]. now destruct Hm as (? & ? & _). }
  split; [|repeat split].
  intros n. revert w.
  induction n as [|n IH]; intros w b b'; simpl; [intros []|].
  destruct (get_client w) as [r w1] eqn:E.
  destruct (get_repeatedly BIGDATA_AVAILABLE Bigdata_init n w1) as [rs w2] eqn:E2.
  unfold returned_values. simpl. fold (returned_values rs).
  destruct r as [b0|e]; simpl.
  - destruct (get_client_returns _ _ _ E) as (_ & Hs & _).
    assert (Hall : forall x, b0 = x \/ In x (returned_values rs) -> x = b0).
    { intros x [<-|Hx]; [reflexivity|].
      apply (get_repeatedly_same n w1 b0 x Hs). now rewrite E2. }
    intros H1 H2. rewrite (Hall _ H1), (Hall _ H2). reflexivity.
  - specialize (IH w1 b b'). rewrite E2 in IH. exact IH.
Qed.

(** X3.  Without credentials the call raises [ValueError], calls no
    constructor and leaves the singleton unset. *)
Theorem get_client_without_credentials (w : world) :
  BIGDATA_AVAILABLE = true ->
  _bigdata_client w = None ->
  falsy (BIGDATA_USERNAME w) || falsy (BIGDATA_PASSWORD w) = true ->
  get_client w = (Raises no_credentials, w) /\
  is_ValueError no_credentials = true.
Proof.
  intros Ha Hc Hf. split; [|reflexivity].
  unfold get_bigdata_client, bind, gets, raise.
  rewrite Ha. cbv beta iota delta [negb]. now rewrite Hc, Hf.
Qed.

End ClientFacts.

(* ===================================================================== *)
(** * Properties of utils.py: the search functions *)
(* ===================================================================== *)

Section SearchFacts.
Import Py Utils Spec.

Variable BIGDATA_AVAILABLE : bool.
Variable Bigdata_init : nat -> string -> string -> option exn.
Variable execute_search :
  nat -> string -> Bigdata -> string -> outcome (list Document).
Variable execute_knowledge_graph_search :
  nat -> string -> Bigdata -> string -> outcome (list kg_item).

Local Abbreviation get_client :=
  (get_bigdata_client BIGDATA_AVAILABLE Bigdata_init).
Local Abbreviation loop := (search_loop execute_search).
Local Abbreviation outcomes := (query_outcomes execute_search).

Lemma on_search_error_returns (what : string) (e : exn) (w : world) :
  on_search_error what e w = (Returns tt, after_error what e w).
Proof.
  unfold after_error, on_search_error, bind, print, reset_bigdata_client,
    modify, ret.
  now destruct (is_auth_error e).
Qed.

(** The [except] block resets the singleton exactly on a message that
    holds one of the authentication words, and calls no constructor and
    no executor. *)
Lemma after_error_client (what : string) (e : exn) (w : world) :
  _bigdata_client (after_error what e w)
  = (if is_auth_error e then None else _bigdata_client w) /\
  constructions (after_error what e w) = constructions w /\
  executions (after_error what e w) = executions w.
Proof.
  unfold after_error, on_search_error, bind, print, reset_bigdata_client,
    modify, ret.
  now destruct (is_auth_error e).
Qed.

Lemma after_success_client (n_queries : nat) (w : world) :
  _bigdata_client (after_success n_queries w) = _bigdata_client w /\
  constructions (after_success n_queries w) = constructions w /\
  executions (after_success n_queries w) = executions w.
Proof.
  unfold after_success. now destruct (1 <? n_queries)%nat.
Qed.

(** One pass of the loop: a query that fails is skipped, with
    [all_results] as it was; the loop goes on with the next query. *)
Lemma search_loop_pass (kind : string) (bigdata : Bigdata) (raw : bool)
      (n_queries : nat) (query : string) (rest : list string)
      (all_results : list dict) (w : world) :
  loop kind bigdata raw n_queries (query :: rest) all_results w
  = match query_outcome execute_search kind bigdata raw (executions w) query with
    | Returns formatted_results =>
        loop kind bigdata raw n_queries rest
             (all_results ++ formatted_results)%list
             (after_success n_queries (count_execution w))
    | Raises e =>
        loop kind bigdata raw n_queries rest all_results
             (after_error (kind ++ " query '" ++ query ++ "'") e
                          (count_execution w))
    end.
Proof.
  unfold query_outcome. simpl.
  unfold bind at 1. unfold try_except.
  unfold bind at 1. unfold run_in_executor at 1.
  unfold bind, gets, modify, lift, ret, sleep, after_success. simpl.
  destruct (execute_search (executions w) kind bigdata query) as [docs|e]; simpl.
  - destruct (_format_search_results docs raw) as [fr|e]; simpl.
    + now destruct (1 <? n_queries)%nat.
    + now rewrite on_search_error_returns.
  - now rewrite on_search_error_returns.
Qed.

(** The whole loop: it returns, with the results of the queries that
    succeeded appended in order; the singleton is reset when one of the
    exceptions caught was an authentication error and is otherwise as
    it was. *)
Lemma search_loop_run (kind : string) (bigdata : Bigdata) (raw : bool)
      (n_queries : nat) (queries : list string) :
  forall (all_results : list dict) (w : world),
    let os := outcomes kind bigdata raw (executions w) queries in
    let run := loop kind bigdata raw n_queries queries all_results w in
    fst run = Returns (all_results ++ results_of os)%list /\
    _bigdata_client (snd run)
    = (if existsb is_auth_error (errors_of os) then None else _bigdata_client w) /\
    constructions (snd run) = constructions w /\
    executions (snd run) = (executions w + List.length queries)%nat.
Proof.
  induction queries as [|query rest IH]; intros all_results w; cbv zeta.
  - simpl. rewrite app_nil_r. repeat split. lia.
  - rewrite search_loop_pass. simpl query_outcomes.
    unfold results_of, errors_of. simpl flat_map.
    fold (results_of (outcomes kind bigdata raw (S (executions w)) rest)).
    fold (errors_of (outcomes kind bigdata raw (S (executions w)) rest)).
    destruct (query_outcome execute_search kind bigdata raw (executions w) query)
      as [fr|e].
    + specialize (IH (all_results ++ fr)%list
                     (after_success n_queries (count_execution w))).
      cbv zeta in IH.
      destruct (after_success_client n_queries (count_execution w))
        as (Hc & Hk & Hx).
      rewrite Hx in IH.
  change (executions (count_execution w)) with (S (executions w)) in IH.
      destruct IH as (H1 & H2 & H3 & H4).
      rewrite H1, H2, H3, H4, Hc, Hk. simpl.
      rewrite app_assoc. repeat split. lia.
    + specialize (IH all_results
                     (after_error (kind ++ " query '" ++ query ++ "'") e
                                  (count_execution w))).
      cbv zeta in IH.
      destruct (after_error_client (kind ++ " query '" ++ query ++ "'") e
                                   (count_execution w)) as (Hc & Hk & Hx).
      rewrite Hx in IH.
  change (executions (count_execution w)) with (S (executions w)) in IH.
      destruct IH as (H1 & H2 & H3 & H4).
      rewrite H1, H2, H3, H4, Hc, Hk. simpl.
      repeat split; [|lia].
      destruct (is_auth_error e); simpl; [|reflexivity].
      now destruct (existsb is_auth_error _).
Qed.

(** A search function that has got its client runs the loop. *)
Lemma search_async_run (kind : string) (queries : list string) (raw : bool)
      (w w1 : world) (bigdata : Bigdata) :
  get_client w = (Returns bigdata, w1) ->
  search_async BIGDATA_AVAILABLE Bigdata_init execute_search kind queries raw w
  = loop kind bigdata raw (List.length queries) queries [] w1.
Proof.
  intros Hget. unfold search_async.
  destruct (get_client_returns _ _ _ _ _ Hget) as (Ha & _).
  rewrite Ha in Hget |- *. cbv beta iota delta [negb]. unfold bind at 1.
  now rewrite Hget.
Qed.

Lemma knowledge_graph_run (search_type search_term : string)
      (w w1 : world) (bigdata : Bigdata) :
  get_client w = (Returns bigdata, w1) ->
  str_in_list search_type ["companies"; "sources"; "autosuggest"] = true ->
  bigdata_knowledge_graph_async BIGDATA_AVAILABLE Bigdata_init
                                execute_knowledge_graph_search
                                search_type search_term w
  = match execute_knowledge_graph_search (executions w1) search_type bigdata
                                         search_term with
    | Returns raw_results =>
        (Returns (map format_kg_item raw_results), count_execution w1)
    | Raises e =>
        (Returns [],
         after_error ("knowledge graph search '" ++ search_term ++ "'") e
                     (count_execution w1))
    end.
Proof.
  intros Hget Hty. unfold bigdata_knowledge_graph_async.
  destruct (get_client_returns _ _ _ _ _ Hget) as (Ha & _).
  rewrite Hty. rewrite Ha in Hget |- *. cbv beta iota delta [negb].
  unfold bind at 1. rewrite Hget.
  unfold try_except, run_in_executor, bind, gets, modify, lift, ret. simpl.
  destruct (execute_knowledge_graph_search _ _ _ _); [reflexivity|].
  now rewrite on_search_error_returns.
Qed.

(** A world whose singleton was reset after [bigdata] was handed out
    builds the next client with a constructor call of its own. *)
Lemma reset_constructs_anew (bigdata : Bigdata) (w1 w' : world) :
  client_fresh w1 ->
  _bigdata_client w1 = Some bigdata ->
  constructions w' = constructions w1 ->
  _bigdata_client w' = None ->
  constructs_anew BIGDATA_AVAILABLE Bigdata_init bigdata w'.
Proof.
  intros Hfresh Hb Hk Hnone b' w'' Hget.
  destruct (get_client_returns _ _ _ _ _ Hget) as (_ & _ & Hm).
  rewrite Hnone in Hm. destruct Hm as (Hs & Hk' & _).
  repeat split; [|exact Hs|exact Hk'].
  intros ->. specialize (Hfresh _ Hb). lia.
Qed.

Lemma search_async_reset (kind : string) (queries : list string) (raw : bool)
      (w w1 : world) (bigdata : Bigdata) :
  get_client w = (Returns bigdata, w1) ->
  client_fresh w ->
  reset_on_auth_error
    BIGDATA_AVAILABLE Bigdata_init bigdata
    (errors_of (outcomes kind bigdata raw (executions w1) queries))
    (snd (search_async BIGDATA_AVAILABLE Bigdata_init execute_search
                       kind queries raw w)).
Proof.
  intros Hget Hfresh.
  rewrite (search_async_run _ _ _ _ _ _ Hget).
  destruct (search_loop_run kind bigdata raw (List.length queries) queries [] w1)
    as (_ & Hc & Hk & _).
  destruct (get_client_returns _ _ _ _ _ Hget) as (_ & Hb & _).
  assert (Hfresh1 : client_fresh w1).
  { pose proof (get_client_fresh BIGDATA_AVAILABLE Bigdata_init w Hfresh) as H.
    now rewrite Hget in H. }
  unfold reset_on_auth_error. rewrite Hb in Hc.
  destruct (existsb is_auth_error _); [|exact Hc].
  split; [exact Hc|].
  now apply (reset_constructs_anew bigdata w1).
Qed.

(** The search functions keep the serial numbers of clients fresh. *)
Lemma search_async_fresh (kind : string) (queries : list string) (raw : bool)
      (w : world) :
  client_fresh w ->
  client_fresh (snd (search_async BIGDATA_AVAILABLE Bigdata_init execute_search
                                  kind queries raw w)).
Proof.
  intros Hfresh.
  pose proof (get_client_fresh BIGDATA_AVAILABLE Bigdata_init w Hfresh) as Hfresh1.
  destruct (get_client w) as [[bigdata|e] w1] eqn:Hget.
  - rewrite (search_async_run _ _ _ _ _ _ Hget).
    destruct (search_loop_run kind bigdata raw (List.length queries) queries [] w1)
      as (_ & Hc & Hk & _).
    intros c Hsome. rewrite Hk. apply Hfresh1. simpl.
    rewrite Hc in Hsome. now destruct (existsb is_auth_error _).
  - unfold search_async. destruct BIGDATA_AVAILABLE; [|exact Hfresh].
    cbv beta iota delta [negb]. unfold bind. now rewrite Hget.
Qed.

(** C4.  Once [bigdata_news_search_async] has obtained the client it
    returns, whatever the queries and whatever each execution does: an
    exception raised for a query (by the search or by the formatting of
    its documents) is not propagated, the query contributes nothing, and
    the value returned is the formatted results of all the queries that
    succeeded, in the order of the queries. *)
Theorem news_search_skips_failed_queries
        (search_queries : list string) (include_raw_content : bool)
        (w w1 : world) (bigdata : Bigdata) :
  get_client w = (Returns bigdata, w1) ->
  fst (bigdata_news_search_async BIGDATA_AVAILABLE Bigdata_init execute_search
                                 search_queries include_raw_content w)
  = Returns (results_of (outcomes "news" bigdata include_raw_content
                                  (executions w1) search_queries)).
Proof.
  intros Hget. unfold bigdata_news_search_async.
  rewrite (search_async_run _ _ _ _ _ _ Hget).
  now destruct (search_loop_run "news" bigdata include_raw_content
                                (List.length search_queries) search_queries [] w1)
    as (-> & _).
Qed.

(** C3.  Each of the five asynchronous search functions, run from a world
    in which it obtains the client [bigdata], ends with the singleton
    reset to [None] when an exception it caught has a message that,
    lowercased, holds one of the authentication words, and then the next
    call of [get_bigdata_client] that returns has constructed a client of
    its own; when no caught exception has such a message the singleton
    is still [bigdata]. *)
Theorem auth_error_resets_client
        (search_queries : list string) (include_raw_content : bool)
        (search_type search_term : string)
        (w w1 : world) (bigdata : Bigdata) :
  get_client w = (Returns bigdata, w1) ->
  client_fresh w ->
  str_in_list search_type ["companies"; "sources"; "autosuggest"] = true ->
  let reset_after kind run :=
    reset_on_auth_error
      BIGDATA_AVAILABLE Bigdata_init bigdata
      (errors_of (outcomes kind bigdata include_raw_content
                           (executions w1) search_queries))
      (snd (run search_queries include_raw_content w)) in
  reset_after "news"
    (bigdata_news_search_async BIGDATA_AVAILABLE Bigdata_init execute_search) /\
  reset_after "transcript"
    (bigdata_transcript_search_async BIGDATA_AVAILABLE Bigdata_init execute_search) /\
  reset_after "filings"
    (bigdata_filings_search_async BIGDATA_AVAILABLE Bigdata_init execute_search) /\
  reset_after "universal"
    (bigdata_universal_search_async BIGDATA_AVAILABLE Bigdata_init execute_search) /\
  reset_on_auth_error
    BIGDATA_AVAILABLE Bigdata_init bigdata
    (errors_of [execute_knowledge_graph_search (executions w1) search_type
                                               bigdata search_term])
    (snd (bigdata_knowledge_graph_async
            BIGDATA_AVAILABLE Bigdata_init execute_knowledge_graph_search
            search_type search_term w)).
Proof.
  intros Hget Hfresh Hty. cbv zeta.
  repeat (split; [now apply search_async_reset|]).
  rewrite (knowledge_graph_run _ _ _ _ _ Hget Hty).
  destruct (get_client_returns _ _ _ _ _ Hget) as (_ & Hb & _).
  assert (Hfresh1 : client_fresh w1).
  { pose proof (get_client_fresh BIGDATA_AVAILABLE Bigdata_init w Hfresh) as H.
    now rewrite Hget in H. }
  unfold reset_on_auth_error, errors_of. simpl flat_map.
  destruct (execute_knowledge_graph_search _ _ _ _) as [raw|e];
    cbv beta iota delta [snd existsb app].
  - exact Hb.
  - destruct (after_error_client ("knowledge graph search '" ++ search_term ++ "'")
                                 e (count_execution w1)) as (Hc & Hk & _).
    rewrite orb_false_r.
    destruct (is_auth_error e); [|now rewrite Hc].
    split; [exact Hc|].
    apply (reset_constructs_anew bigdata w1); auto.
Qed.

(** X2.  Once it has its client and a valid search type,
    [bigdata_knowledge_graph_async] returns: the formatted items of the
    lookup, or the empty list when the lookup raised. *)
Theorem knowledge_graph_returns_empty_on_error
        (search_type search_term : string) (w w1 : world) (bigdata : Bigdata) :
  get_client w = (Returns bigdata, w1) ->
  str_in_list search_type ["companies"; "sources"; "autosuggest"] = true ->
  fst (bigdata_knowledge_graph_async BIGDATA_AVAILABLE Bigdata_init
                                     execute_knowledge_graph_search
                                     search_type search_term w)
  = Returns (match execute_knowledge_graph_search (executions w1) search_type
                                                  bigdata search_term with
             | Returns raw_results => map format_kg_item raw_results
             | Raises _ => []
             end).
Proof.
  intros Hget Hty. rewrite (knowledge_graph_run _ _ _ _ _ Hget Hty).
  now destruct (execute_knowledge_graph_search _ _ _ _).
Qed.

End SearchFacts.

(* ===================================================================== *)
(** * Properties of utils.py: [_parse_date_range] *)
(* ===================================================================== *)

Section DateRangeFacts.
Import Py Utils Spec.

Variable AbsoluteDateRange_init : string -> string -> option exn.

Local Abbreviation parse := (_parse_date_range AbsoluteDateRange_init).

Lemma split_nonempty (sep : ascii) (s : string) : split sep s <> [].
Proof.
  destruct s as [|c s]; simpl; [discriminate|].
  destruct (Ascii.eqb c sep); [discriminate|].
  destruct (split sep s); discriminate.
Qed.

(** A string splits into one part more than it has separators. *)
Lemma split_length (sep : ascii) (s : string) :
  List.length (split sep s) = S (count_char sep s).
Proof.
  induction s as [|c s IH]; simpl; [reflexivity|].
  destruct (Ascii.eqb c sep); simpl; [now rewrite IH|].
  destruct (split sep s) eqn:E; simpl in *; [discriminate IH|exact IH].
Qed.

(** [sep in s] holds exactly of the strings with a separator in them. *)
Lemma str_in_char (sep : ascii) (s : string) :
  str_in (String sep EmptyString) s = true <-> (0 < count_char sep s)%nat.
Proof.
  induction s as [|c s IH]; simpl.
  - split; [discriminate|lia].
  - destruct (ascii_dec sep c) as [<-|Hne].
    + rewrite Ascii.eqb_refl.
      assert (Hp : prefix EmptyString s = true) by now destruct s.
      rewrite Hp. split; [lia|reflexivity].
    + assert (E : Ascii.eqb c sep = false)
        by (apply Ascii.eqb_neq; congruence).
      rewrite E. exact IH.
Qed.

Lemma parse_rolling (keyword : string) (r : RollingDateRange) :
  In (keyword, r) rolling_ranges ->
  parse (Some keyword) = Returns (Some (Rolling r)).
Proof.
  unfold rolling_ranges. simpl.
  intros H.
  repeat (destruct H as [H|H]; [inversion H; subst; reflexivity|]).
  contradiction.
Qed.

(** What is returned for a string that is no keyword and holds a comma. *)
Lemma parse_comma (s : string) :
  s <> EmptyString ->
  lookup rolling_ranges s = None ->
  str_in "," s = true ->
  parse (Some s)
  = match split "," s with
    | [start_date; end_date] =>
        match AbsoluteDateRange_init (strip start_date ++ "T00:00:00")
                                     (strip end_date ++ "T23:59:59") with
        | None =>
            Returns (Some (Absolute
                             {| start_dt := strip start_date ++ "T00:00:00";
                                end_dt := strip end_date ++ "T23:59:59" |}))
        | Some x => if is_ValueError x then Returns None else Raises x
        end
    | _ => Returns None
    end.
Proof.
  intros Hne Hl Hc. unfold _parse_date_range.
  destruct s as [|c s]; [congruence|].
  rewrite Hl, Hc. unfold unpack2, new_AbsoluteDateRange.
  destruct (split "," (String c s)) as [|a [|b [|d l]]]; try reflexivity.
  now destruct (AbsoluteDateRange_init _ _).
Qed.


End DateRangeFacts.

(* ===================================================================== *)
(** * Properties of the batch scripts: the retry loops *)
(* ===================================================================== *)

Section UploadFacts.
Import Py Batch BatchUpload Spec.

Variable upload_from_disk : nat -> string -> outcome string.

Local Abbreviation failures file_path :=
  (caught_failures is_BigdataClientRateLimitError
                   (fun n => upload_from_disk n file_path)).

Lemma seq_shift_map {A} (f : nat -> A) (k : nat) :
  map f (seq 2 k) = map (fun i => f (S i)) (seq 1 k).
Proof.
  rewrite <- seq_shift, map_map. reflexivity.
Qed.

Lemma backoffs_from_S (attempt : Z) (k : nat) :
  backoffs_from attempt (S k)
  = backoff (attempt + 1) :: backoffs_from (attempt + 1) k.
Proof.
  unfold backoffs_from. simpl. f_equal.
  rewrite seq_shift_map. apply map_ext. intros i. f_equal. lia.
Qed.

Lemma upload_warnings_S (file_path : string) (attempt : Z) (k : nat) :
  upload_warnings file_path attempt (S k)
  = (WARNING, str_of_int (attempt + 1) ++ " failed: " ++ file_path)
      :: upload_warnings file_path (attempt + 1) k.
Proof.
  unfold upload_warnings. simpl map. f_equal.
  rewrite seq_shift_map. apply map_ext. intros i. do 3 f_equal. lia.
Qed.

(** No delay exceeds ten seconds. *)
Lemma backoffs_bounded (attempt : Z) (k : nat) :
  Forall (fun seconds => seconds <= 10) (backoffs_from attempt k).
Proof.
  unfold backoffs_from. apply Forall_forall. intros d Hd.
  apply in_map_iff in Hd. destruct Hd as (i & <- & _).
  unfold backoff. apply Z.le_min_r.
Qed.

(** A pass of the loop of [upload_file], by what the vendor does. *)
Lemma upload_loop_pass (remaining : nat) (attempt : Z) (file_path : string)
      (w : world) :
  upload_loop upload_from_disk (S remaining) attempt file_path w
  = match upload_from_disk (attempts w) file_path with
    | Returns file_id =>
        (Returns (file_path, file_id, UPLOAD_DONE), count_attempt w)
    | Raises e =>
        if is_BigdataClientRateLimitError e
        then upload_loop upload_from_disk remaining (attempt + 1) file_path
               (record_log WARNING
                  (str_of_int (attempt + 1) ++ " failed: " ++ file_path)
                  (record_sleep (backoff (attempt + 1)) (count_attempt w)))
        else (Raises e, count_attempt w)
    end.
Proof.
  simpl. unfold bind at 1. unfold try_except_class, try_upload.
  unfold bind, gets, modify, lift, ret, sleep, logging. simpl.
  destruct (upload_from_disk (attempts w) file_path) as [file_id|e]; simpl;
    [reflexivity|].
  now destruct (is_BigdataClientRateLimitError e).
Qed.

(** The whole loop, from any world. *)
Lemma upload_loop_run (remaining : nat) :
  forall (attempt : Z) (file_path : string) (w : world),
    let k := failures file_path (attempts w) remaining in
    let run := upload_loop upload_from_disk remaining attempt file_path w in
    attempts (snd run) = (attempts w + Nat.min (S k) remaining)%nat /\
    slept (snd run) = (slept w ++ backoffs_from attempt k)%list /\
    logged (snd run) = (logged w ++ upload_warnings file_path attempt k)%list /\
    fst run
    = if (k =? remaining)%nat
      then Returns (file_path, "", UPLOAD_ERROR)
      else match upload_from_disk (attempts w + k) file_path with
           | Returns file_id => Returns (file_path, file_id, UPLOAD_DONE)
           | Raises e => Raises e
           end.
Proof.
  induction remaining as [|remaining IH]; intros attempt file_path w; cbv zeta.
  - simpl. rewrite !app_nil_r. repeat split. lia.
  - rewrite upload_loop_pass. simpl caught_failures.
    destruct (upload_from_disk (attempts w) file_path) as [file_id|e] eqn:E.
    + simpl. rewrite !app_nil_r, Nat.add_0_r, E. repeat split. lia.
    + destruct (is_BigdataClientRateLimitError e) eqn:Ee.
      * specialize (IH (attempt + 1) file_path
                       (record_log WARNING
                          (str_of_int (attempt + 1) ++ " failed: " ++ file_path)
                          (record_sleep (backoff (attempt + 1)) (count_attempt w)))).
        cbv zeta in IH.
        change (attempts (record_log _ _ _)) with (S (attempts w)) in IH.
        destruct IH as (H1 & H2 & H3 & H4).
        rewrite H1, H2, H3, H4, backoffs_from_S, upload_warnings_S.
        cbn [slept logged record_log record_sleep count_attempt].
        rewrite <- !app_assoc. cbn [app].
        replace (attempts w + S (failures file_path (S (attempts w)) remaining))%nat
          with (S (attempts w) + failures file_path (S (attempts w)) remaining)%nat
          by lia.
        repeat split. lia.
      * simpl. rewrite !app_nil_r, Nat.add_0_r, E. repeat split. lia.
Qed.

(** The loop lets through only what is no rate-limit error. *)
Lemma upload_loop_raises (remaining : nat) :
  forall (attempt : Z) (file_path : string) (w : world) (e : exn),
    fst (upload_loop upload_from_disk remaining attempt file_path w) = Raises e ->
    is_BigdataClientRateLimitError e = false.
Proof.
  induction remaining as [|remaining IH]; intros attempt file_path w e;
    [discriminate|].
  rewrite upload_loop_pass.
  destruct (upload_from_disk (attempts w) file_path) as [file_id|e0];
    [discriminate|].
  destruct (is_BigdataClientRateLimitError e0) eqn:Ee; [apply IH|].
  simpl. intros H. inversion H. now subst.
Qed.

End UploadFacts.

Section DownloadFacts.
Import Py Batch BatchDownload Spec.

Variable uploads_get : nat -> string -> outcome string.
Variable wait_for_analysis_complete : nat -> string -> Z -> option exn.
Variable download_analytics : nat -> string -> string -> option exn.
Variable download_timeout : Z.
Variables file_id output_directory absolute_path_filename : string.

Local Abbreviation try_once :=
  (try_download uploads_get wait_for_analysis_complete download_analytics
                download_timeout file_id output_directory absolute_path_filename).
Local Abbreviation attempt_outcome :=
  (download_attempt uploads_get wait_for_analysis_complete download_analytics
                    download_timeout file_id output_directory
                    absolute_path_filename).
Local Abbreviation dl_loop remaining attempt :=
  (download_loop uploads_get wait_for_analysis_complete download_analytics
                 remaining attempt download_timeout
                 file_id output_directory absolute_path_filename).

(** The [try] block is one attempt: it ends as the three vendor calls
    do, and it sleeps nothing. *)
Lemma try_download_outcome (w : world) :
  fst (try_once w) = attempt_outcome (attempts w) /\
  attempts (snd (try_once w)) = S (attempts w) /\
  slept (snd (try_once w)) = slept w.
Proof.
  unfold try_download, download_attempt, bind, gets, modify, lift, ret,
    logging, call, raise.
  simpl.
  destruct (uploads_get (attempts w) file_id) as [status|e]; simpl; [|auto].
  destruct (wait_for_analysis_complete (attempts w) file_id download_timeout);
    simpl; [auto|].
  destruct (download_analytics (attempts w) file_id _); simpl; auto.
Qed.

(** A pass of the loop of [download_analytics_file]: whatever is raised
    in the [try] block, the loop sleeps, logs a warning and goes on. *)
Lemma download_loop_pass (remaining : nat) (attempt : Z) (w : world) :
  dl_loop (S remaining) attempt w
  = match attempt_outcome (attempts w) with
    | Returns _ => (Returns (file_id, DOWNLOAD_DONE), snd (try_once w))
    | Raises _ =>
        dl_loop remaining (attempt + 1)
                (record_log WARNING
                   ("failed " ++ str_of_int (attempt + 1) ++ ": " ++ file_id)
                   (record_sleep (backoff (attempt + 1)) (snd (try_once w))))
    end.
Proof.
  destruct (try_download_outcome w) as (Hout & _).
  simpl. unfold bind at 1. unfold try_except. unfold bind at 1.
  destruct (try_once w) as [[[]|e] w1] eqn:E; simpl in Hout; rewrite <- Hout.
  - reflexivity.
  - unfold bind, sleep, logging, modify, ret. reflexivity.
Qed.

Lemma download_loop_run (remaining : nat) :
  forall (attempt : Z) (w : world),
    let k := caught_failures any_exception attempt_outcome (attempts w) remaining in
    let run := dl_loop remaining attempt w in
    attempts (snd run) = (attempts w + Nat.min (S k) remaining)%nat /\
    slept (snd run) = (slept w ++ backoffs_from attempt k)%list /\
    fst run
    = Returns (file_id, if (k =? remaining)%nat then DOWNLOAD_ERROR else DOWNLOAD_DONE).
Proof.
  induction remaining as [|remaining IH]; intros attempt w; cbv zeta.
  - simpl. rewrite app_nil_r. repeat split. lia.
  - rewrite download_loop_pass. simpl caught_failures.
    destruct (try_download_outcome w) as (_ & Ha & Hs).
    destruct (attempt_outcome (attempts w)) as [[]|e] eqn:E.
    + simpl. rewrite Ha, Hs, app_nil_r. repeat split. lia.
    + change (any_exception e) with true. cbv iota.
      specialize (IH (attempt + 1)
                     (record_log WARNING
                        ("failed " ++ str_of_int (attempt + 1) ++ ": " ++ file_id)
                        (record_sleep (backoff (attempt + 1)) (snd (try_once w))))).
      cbv zeta in IH.
      change (attempts (record_log _ _ (record_sleep _ ?x))) with (attempts x) in IH.
      rewrite Ha in IH.
      destruct IH as (H1 & H2 & H3).
      rewrite H1, H2, H3, backoffs_from_S.
      cbn [slept record_log record_sleep]. rewrite Hs, <- app_assoc. cbn [app].
      repeat split. lia.
Qed.

End DownloadFacts.

(** All the attempts of a loop fail with a caught exception exactly when
    the count of caught failures reaches the number of attempts. *)
Lemma caught_failures_all {A} (caught : Py.exn -> bool)
      (attempt_outcome : nat -> Py.outcome A) (fuel : nat) :
  forall n,
    Spec.caught_failures caught attempt_outcome n fuel = fuel <->
    (forall i, (i < fuel)%nat ->
               exists e, attempt_outcome (n + i)%nat = Py.Raises e /\ caught e = true).
Proof.
  induction fuel as [|fuel IH]; intros n; simpl.
  - split; [intros _ i Hi; lia|reflexivity].
  - split.
    + intros H i Hi.
      destruct (attempt_outcome n) as [a|e] eqn:E; [discriminate|].
      destruct (caught e) eqn:Ec; [|discriminate].
      injection H as H. destruct i as [|i].
      * rewrite Nat.add_0_r. eauto.
      * replace (n + S i)%nat with (S n + i)%nat by lia.
        apply (proj1 (IH (S n)) H). lia.
    + intros H. destruct (H 0%nat) as (e & He & Hc); [lia|].
      rewrite Nat.add_0_r in He. rewrite He, Hc. f_equal.
      apply IH. intros i Hi.
      replace (S n + i)%nat with (n + S i)%nat by lia. apply H. lia.
Qed.

Lemma caught_failures_le {A} (caught : Py.exn -> bool)
      (attempt_outcome : nat -> Py.outcome A) (fuel : nat) :
  forall n, (Spec.caught_failures caught attempt_outcome n fuel <= fuel)%nat.
Proof.
  induction fuel as [|fuel IH]; intros n; simpl; [lia|].
  destruct (attempt_outcome n) as [a|e]; [lia|].
  destruct (caught e); [|lia]. specialize (IH (S n)). lia.
Qed.

Lemma backoffs_values :
  Spec.backoffs_from 0 5 = [2; 4; 8; 10; 10] /\
  forall k, Spec.backoffs_from 0 k
            = map (fun i => Z.min (2 ^ Z.of_nat i) 10) (seq 1 k).
Proof.
  split; [reflexivity|]. intros k. unfold Spec.backoffs_from, Batch.backoff.
  apply map_ext. intros i. reflexivity.
Qed.

(** C2 (amended).  In both retry loops the vendor is tried at most five
    times, the delay slept after the [i]-th caught failure is
    [min(2^i, 10)] seconds, so no delay exceeds ten seconds, and when all
    five attempts fail with an exception the loop catches (any exception
    in [download_analytics_file], a rate-limit error in [upload_file])
    the function returns the tuple with the error status.  [ku] and [kd]
    count the leading caught failures of the two runs; an [upload_file]
    attempt that does not fail that way ends the run with what the vendor
    did: the tuple with [UPLOAD_DONE], or the exception it raised. *)
Theorem retry_loops_five_attempts_capped_backoff
        (upload_from_disk : nat -> string -> Py.outcome string)
        (uploads_get : nat -> string -> Py.outcome string)
        (wait_for_analysis_complete : nat -> string -> Z -> option Py.exn)
        (download_analytics : nat -> string -> string -> option Py.exn)
        (download_timeout : Z)
        (file_path file_id output_directory absolute_path_filename : string)
        (w : Batch.world) :
  let attempt_outcome :=
    Spec.download_attempt uploads_get wait_for_analysis_complete
                          download_analytics download_timeout file_id
                          output_directory absolute_path_filename in
  let ku := Spec.caught_failures Py.is_BigdataClientRateLimitError
                                 (fun n => upload_from_disk n file_path)
                                 (Batch.attempts w) Batch.max_try in
  let kd := Spec.caught_failures Spec.any_exception attempt_outcome
                                 (Batch.attempts w) Batch.max_try in
  let up := BatchUpload.upload_file upload_from_disk file_path w in
  let down :=
    BatchDownload.download_analytics_file
      uploads_get wait_for_analysis_complete download_analytics
      download_timeout file_id output_directory absolute_path_filename w in
  Batch.max_try = 5%nat /\
  (Batch.attempts (snd up) <= Batch.attempts w + 5)%nat /\
  (Batch.attempts (snd down) <= Batch.attempts w + 5)%nat /\
  Batch.slept (snd up) = (Batch.slept w ++ Spec.backoffs_from 0 ku)%list /\
  Batch.slept (snd down) = (Batch.slept w ++ Spec.backoffs_from 0 kd)%list /\
  (forall k, Spec.backoffs_from 0 k
             = map (fun i => Z.min (2 ^ Z.of_nat i) 10) (seq 1 k)) /\
  (forall k, Forall (fun seconds => seconds <= 10) (Spec.backoffs_from 0 k)) /\
  ((forall i, (i < 5)%nat ->
              exists e, upload_from_disk (Batch.attempts w + i)%nat file_path
                        = Py.Raises e /\
                        Py.is_BigdataClientRateLimitError e = true) ->
   fst up = Py.Returns (file_path, "", Batch.UPLOAD_ERROR) /\
   Batch.slept (snd up) = (Batch.slept w ++ [2; 4; 8; 10; 10])%list) /\
  ((forall i, (i < 5)%nat ->
              exists e, attempt_outcome (Batch.attempts w + i)%nat = Py.Raises e) ->
   fst down = Py.Returns (file_id, Batch.DOWNLOAD_ERROR) /\
   Batch.slept (snd down) = (Batch.slept w ++ [2; 4; 8; 10; 10])%list) /\
  ((ku < 5)%nat ->
   fst up = match upload_from_disk (Batch.attempts w + ku)%nat file_path with
            | Py.Returns id => Py.Returns (file_path, id, Batch.UPLOAD_DONE)
            | Py.Raises e => Py.Raises e
            end) /\
  ((kd < 5)%nat -> fst down = Py.Returns (file_id, Batch.DOWNLOAD_DONE)).
Proof.
  cbv zeta.
  pose proof (upload_loop_run upload_from_disk Batch.max_try 0 file_path w) as Hu.
  pose proof (download_loop_run uploads_get wait_for_analysis_complete
                                download_analytics download_timeout file_id
                                output_directory absolute_path_filename
                                Batch.max_try 0 w) as Hd.
  cbv zeta in Hu, Hd.
  fold (BatchUpload.upload_file upload_from_disk file_path w) in Hu.
  fold (BatchDownload.download_analytics_file
          uploads_get wait_for_analysis_complete download_analytics
          download_timeout file_id output_directory absolute_path_filename w) in Hd.
  destruct Hu as (Hu1 & Hu2 & _ & Hu4). destruct Hd as (Hd1 & Hd2 & Hd3).
  change Batch.max_try with 5%nat in *.
  split; [reflexivity|].
  split; [rewrite Hu1; lia|]. split; [rewrite Hd1; lia|].
  split; [exact Hu2|]. split; [exact Hd2|].
  split; [apply backoffs_values|].
  split; [intros k; apply backoffs_bounded|].
  split; [|split; [|split]].
  - intros Hall.
    apply (caught_failures_all Py.is_BigdataClientRateLimitError
                               (fun n => upload_from_disk n file_path) 5)
      in Hall.
    rewrite Hu2, Hu4, Hall. split; reflexivity.
  - intros Hall.
    assert (Hall' : forall i, (i < 5)%nat ->
              exists e,
                Spec.download_attempt
                  uploads_get wait_for_analysis_complete download_analytics
                  download_timeout file_id output_directory
                  absolute_path_filename (Batch.attempts w + i)%nat
                = Py.Raises e /\ Spec.any_exception e = true).
    { intros i Hi. destruct (Hall i Hi) as (e & He). now exists e. }
    apply (caught_failures_all Spec.any_exception _ 5) in Hall'.
    rewrite Hd2, Hd3, Hall'. split; reflexivity.
  - intros Hk. rewrite Hu4.
    destruct (Nat.eqb_spec
                (Spec.caught_failures Py.is_BigdataClientRateLimitError
                   (fun n => upload_from_disk n file_path) (Batch.attempts w) 5)
                5); [lia|reflexivity].
  - intros Hk. rewrite Hd3.
    destruct (Nat.eqb_spec
                (Spec.caught_failures Spec.any_exception
                   (Spec.download_attempt
                      uploads_get wait_for_analysis_complete download_analytics
                      download_timeout file_id output_directory
                      absolute_path_filename) (Batch.attempts w) 5)
                5); [lia|reflexivity].
Qed.

(** C2 (counterexample).  With a vendor whose every upload fails with a
    connection error, all the attempts that [upload_file] makes fail, and
    it does not return the tuple with [UPLOAD_ERROR]: it raises, after one
    attempt and no delay. *)
Lemma upload_file_raises_when_all_attempts_fail :
  let run := BatchUpload.upload_file Examples.unreachable "report.pdf" Batch.initial in
  fst run = Py.Raises Examples.connection_error /\
  Batch.attempts (snd run) = 1%nat /\
  Batch.slept (snd run) = [].
Proof.
  repeat split.
Qed.

(** C5 (amended).  [download_analytics_file] catches every exception
    raised in its [try] block: the pass ends in a delay and a logged
    warning, the loop goes on, and the function always returns.
    [upload_file] does the same for a [BigdataClientRateLimitError] only:
    any other exception leaves the loop and the function at once, with no
    delay and no warning, and nothing but such an exception leaves it. *)
Theorem retry_loops_catch_vendor_exceptions
        (upload_from_disk : nat -> string -> Py.outcome string)
        (uploads_get : nat -> string -> Py.outcome string)
        (wait_for_analysis_complete : nat -> string -> Z -> option Py.exn)
        (download_analytics : nat -> string -> string -> option Py.exn)
        (download_timeout : Z)
        (file_path file_id output_directory absolute_path_filename : string)
        (remaining : nat) (attempt : Z) (w : Batch.world) :
  let attempt_outcome :=
    Spec.download_attempt uploads_get wait_for_analysis_complete
                          download_analytics download_timeout file_id
                          output_directory absolute_path_filename in
  let dl_loop remaining attempt :=
    BatchDownload.download_loop
      uploads_get wait_for_analysis_complete download_analytics
      remaining attempt download_timeout
      file_id output_directory absolute_path_filename in
  let tried :=
    snd (BatchDownload.try_download
           uploads_get wait_for_analysis_complete download_analytics
           download_timeout file_id output_directory absolute_path_filename w) in
  (forall e, attempt_outcome (Batch.attempts w) = Py.Raises e ->
             dl_loop (S remaining) attempt w
             = dl_loop remaining (attempt + 1)
                 (Batch.record_log Batch.WARNING
                    ("failed " ++ Batch.str_of_int (attempt + 1) ++ ": " ++ file_id)
                    (Batch.record_sleep (Batch.backoff (attempt + 1)) tried))) /\
  (exists status,
      fst (BatchDownload.download_analytics_file
             uploads_get wait_for_analysis_complete download_analytics
             download_timeout file_id output_directory absolute_path_filename w)
      = Py.Returns (file_id, status)) /\
  (forall e, upload_from_disk (Batch.attempts w) file_path = Py.Raises e ->
             Py.is_BigdataClientRateLimitError e = true ->
             BatchUpload.upload_loop upload_from_disk (S remaining) attempt file_path w
             = BatchUpload.upload_loop
                 upload_from_disk remaining (attempt + 1) file_path
                 (Batch.record_log Batch.WARNING
                    (Batch.str_of_int (attempt + 1) ++ " failed: " ++ file_path)
                    (Batch.record_sleep (Batch.backoff (attempt + 1))
                                        (Batch.count_attempt w)))) /\
  (forall e, upload_from_disk (Batch.attempts w) file_path = Py.Raises e ->
             Py.is_BigdataClientRateLimitError e = false ->
             BatchUpload.upload_loop upload_from_disk (S remaining) attempt file_path w
             = (Py.Raises e, Batch.count_attempt w)) /\
  (forall e, fst (BatchUpload.upload_file upload_from_disk file_path w) = Py.Raises e ->
             Py.is_BigdataClientRateLimitError e = false).
Proof.
  cbv zeta. repeat split.
  - intros e He. rewrite download_loop_pass. now rewrite He.
  - destruct (download_loop_run uploads_get wait_for_analysis_complete
                                download_analytics download_timeout file_id
                                output_directory absolute_path_filename
                                Batch.max_try 0 w) as (_ & _ & H).
    eexists. exact H.
  - intros e He Hc. rewrite upload_loop_pass. now rewrite He, Hc.
  - intros e He Hc. rewrite upload_loop_pass. now rewrite He, Hc.
  - intros e. apply upload_loop_raises.
Qed.

(** C5 (counterexample).  A connection error raised by the first upload
    is not caught by [upload_file]: it propagates out of the worker
    function, though the vendor would have accepted a second attempt;
    there is no retry and nothing is logged. *)
Lemma upload_file_propagates_other_exceptions :
  let run := BatchUpload.upload_file Examples.fails_once "report.pdf" Batch.initial in
  fst run = Py.Raises Examples.connection_error /\
  Py.is_BigdataClientRateLimitError Examples.connection_error = false /\
  Examples.fails_once 1 "report.pdf" = Py.Returns "5A3F" /\
  Batch.attempts (snd run) = 1%nat /\
  Batch.logged (snd run) = [].
Proof.
  repeat split.
Qed.

(* ===================================================================== *)
(** * Properties of batch_file_upload.py: [bulk_upload_files] *)
(* ===================================================================== *)

Section BulkUploadFacts.
Import Py Batch BatchUpload Spec.

Variable upload_from_disk : nat -> nat -> string -> outcome string.

(** What [upload_file] returns names the path it was given, and has an
    empty id when the status is the error. *)
Lemma upload_file_result (vendor : nat -> string -> outcome string)
      (file_path : string) (w : world) :
  match fst (upload_file vendor file_path w) with
  | Returns (p, file_id, upload_status) =>
      p = file_path /\
      (upload_status = UPLOAD_DONE \/ (upload_status = UPLOAD_ERROR /\ file_id = ""))
  | Raises e => is_BigdataClientRateLimitError e = false
  end.
Proof.
  destruct (fst (upload_file vendor file_path w)) as [[[p file_id] st]|e] eqn:E.
  - destruct (upload_loop_run vendor max_try 0 file_path w) as (_ & _ & _ & H).
    fold (upload_file vendor file_path w) in H. rewrite E in H.
    destruct (_ =? max_try)%nat.
    + inversion H; subst. auto.
    + destruct (vendor _ file_path); inversion H; subst. auto.
  - now apply (upload_loop_raises vendor max_try 0 file_path w).
Qed.

(** The row of the future submitted for a line is a row for that line. *)
Lemma row_of_submit (i : nat) (line : string) :
  row_for_line line (row_of (submit upload_from_disk i (strip line))).
Proof.
  unfold row_for_line, row_of, submit. simpl.
  pose proof (upload_file_result (upload_from_disk i) (strip line) initial) as H.
  destruct (fst (upload_file (upload_from_disk i) (strip line) initial))
    as [[[p file_id] st]|e].
  - destruct H as (-> & H). now exists file_id, st.
  - exists "", UPLOAD_ERROR. auto.
Qed.

Lemma submit_all_rows (upload_txt : list string) :
  forall i,
    Forall2 row_for_line upload_txt
            (map row_of (submit_all upload_from_disk i upload_txt)).
Proof.
  induction upload_txt as [|line rest IH]; intros i; simpl; constructor.
  - apply row_of_submit.
  - apply IH.
Qed.

(** The body of the loop over the completed futures writes the row of
    the future, whether its worker returned or raised, and raises
    nothing itself. *)
Lemma on_completed_writes (f : future) (m : main) :
  fst (on_completed f m) = Returns tt /\
  result_csv (snd (on_completed f m)) = (result_csv m ++ [row_of f])%list.
Proof.
  unfold on_completed, row_of, bind, modify.
  destruct (result f) as [[[p file_id] st]|e]; simpl.
  - destruct (String.eqb st UPLOAD_ERROR); simpl; auto.
  - auto.
Qed.

Lemma completed_loop_writes (futures : list future) (completion : list nat) :
  forall m,
    fst (completed_loop futures completion m) = Returns tt /\
    result_csv (snd (completed_loop futures completion m))
    = (result_csv m ++ map row_of (yielded futures completion))%list.
Proof.
  induction completion as [|i rest IH]; intros m; simpl.
  - now rewrite app_nil_r.
  - unfold yielded. simpl. fold (yielded futures rest).
    destruct (nth_error futures i) as [f|]; [|apply IH].
    unfold bind. destruct (on_completed_writes f m) as (Hr & Hc).
    destruct (on_completed f m) as [[[]|e] m1]; simpl in Hr, Hc; [|discriminate].
    destruct (IH m1) as (H1 & H2). rewrite H1, H2, Hc.
    simpl. now rewrite <- app_assoc.
Qed.

(** Looking up every position in turn gives back the list. *)
Lemma yielded_seq {A} (l : list A) :
  yielded l (seq 0 (List.length l)) = l.
Proof.
  unfold yielded. induction l as [|a l IH]; [reflexivity|].
  simpl. f_equal. rewrite <- seq_shift, flat_map_concat_map, map_map.
  rewrite <- flat_map_concat_map. exact IH.
Qed.

(** When every future completes once, each is yielded once. *)
Lemma yielded_permutation {A} (l : list A) (completion : list nat) :
  Permutation completion (seq 0 (List.length l)) ->
  Permutation (yielded l completion) l.
Proof.
  intros H. rewrite <- (yielded_seq l) at 2.
  unfold yielded. now apply Permutation_flat_map.
Qed.

Lemma submit_all_length (upload_txt : list string) :
  forall i, List.length (submit_all upload_from_disk i upload_txt)
            = List.length upload_txt.
Proof.
  induction upload_txt as [|line rest IH]; intros i; simpl; [reflexivity|].
  now rewrite IH.
Qed.

(** The row of the future submitted for a line is the row that the
    vendor's behaviour for its worker calls for. *)
Lemma row_of_upload (i : nat) (line : string) :
  row_of (submit upload_from_disk i (strip line))
  = UploadRuns.upload_row (upload_from_disk i) line.
Proof.
  unfold row_of, submit, UploadRuns.upload_row, upload_file.
  cbn [result submitted_path]. cbv zeta.
  destruct (upload_loop_run (upload_from_disk i) max_try 0 (strip line) initial)
    as (_ & _ & _ & H).
  cbv zeta in H. cbn [attempts initial Nat.add] in H. rewrite H.
  destruct (_ =? max_try)%nat; [reflexivity|].
  now destruct (upload_from_disk i _ (strip line)).
Qed.

Lemma submit_all_upload_rows (upload_txt : list string) :
  forall i,
    map row_of (submit_all upload_from_disk i upload_txt)
    = UploadRuns.upload_rows upload_from_disk i upload_txt.
Proof.
  induction upload_txt as [|line rest IH]; intros i; simpl; [reflexivity|].
  now rewrite row_of_upload, IH.
Qed.

(** The rows of the futures yielded are the rows yielded. *)
Lemma yielded_map {A B} (f : A -> B) (l : list A) (completion : list nat) :
  map f (yielded l completion) = yielded (map f l) completion.
Proof.
  unfold yielded. induction completion as [|i rest IH]; simpl; [reflexivity|].
  rewrite map_app, IH, nth_error_map. now destruct (nth_error l i).
Qed.

(** C8.  With a pool that can be created and every future completing
    once, in whatever order, [bulk_upload_files] ends without raising and
    the result CSV holds exactly one row per line of the upload list,
    written in the order of completion, and each is the row that the
    vendor's behaviour for that line calls for: the id that the upload
    returned and [UPLOAD_DONE] with the stripped path when an attempt of
    the worker succeeded, and an empty id and [UPLOAD_ERROR] with the
    stripped path when the worker ran out of attempts or its upload
    raised; so the failure of one file takes no row from the others. *)
Theorem bulk_upload_files_one_row_per_line
        (max_concurrency : Z) (upload_txt : list string) (completion : list nat) :
  0 < max_concurrency ->
  Permutation completion (seq 0 (List.length upload_txt)) ->
  let run :=
    bulk_upload_files upload_from_disk max_concurrency upload_txt completion opened in
  let rows := UploadRuns.upload_rows upload_from_disk 0 upload_txt in
  fst run = Returns tt /\
  result_csv (snd run) = yielded rows completion /\
  Permutation (result_csv (snd run)) rows /\
  Forall2 row_for_line upload_txt rows /\
  List.length (result_csv (snd run)) = List.length upload_txt.
Proof.
  intros Hpool Hperm. cbv zeta. unfold bulk_upload_files.
  destruct (Z.leb_spec max_concurrency 0) as [Hle|_]; [lia|].
  destruct (completed_loop_writes (submit_all upload_from_disk 0 upload_txt)
                                  completion opened) as (Hr & Hc).
  simpl in Hc. rewrite yielded_map, submit_all_upload_rows in Hc.
  assert (Hlen : List.length (UploadRuns.upload_rows upload_from_disk 0 upload_txt)
                 = List.length upload_txt).
  { rewrite <- submit_all_upload_rows, length_map. apply submit_all_length. }
  assert (Hp : Permutation
                 (result_csv
                    (snd (completed_loop
                            (submit_all upload_from_disk 0 upload_txt)
                            completion opened)))
                 (UploadRuns.upload_rows upload_from_disk 0 upload_txt)).
  { rewrite Hc. apply yielded_permutation. now rewrite Hlen. }
  repeat split.
  - exact Hr.
  - exact Hc.
  - exact Hp.
  - rewrite <- submit_all_upload_rows. apply submit_all_rows.
  - now rewrite (Permutation_length Hp).
Qed.

End BulkUploadFacts.

(* ===================================================================== *)
(** * The theorems on concrete runs *)
(* ===================================================================== *)

(** C9 (witness).  The parameters of a news strategy: the key bound to
    [None] is gone, the others are kept. *)
Lemma clean_tool_parameters_keys_from_input_none_dropped_witness :
  Graph._clean_tool_parameters Examples.no_float Examples.some_parameters "news"
  = Py.Returns Examples.cleaned_parameters /\
  (forall k, In k (Py.keys Examples.cleaned_parameters) ->
             In k (Py.keys Examples.some_parameters)) /\
  (forall k v, In (k, v) Examples.cleaned_parameters -> v <> Py.VNone) /\
  (forall k, Spec.only_None Examples.some_parameters k ->
             ~ In k (Py.keys Examples.cleaned_parameters)).
Proof.
  split; [reflexivity|].
  exact (clean_tool_parameters_keys_from_input_none_dropped
           Examples.no_float Examples.some_parameters "news").
Defined.

(** C7 (witness).  Three calls in a row from a world with no client: the
    first and the last return the same client. *)
Lemma client_constructed_lazily_once_between_resets_witness :
  let clients :=
    Spec.returned_values
      (fst (Spec.get_repeatedly true Examples.accepts 3 Examples.logged_out)) in
  nth 0 clients Examples.first_client = nth 2 clients Examples.first_client /\
  List.length clients = 3%nat.
Proof.
  cbv zeta. split; [|reflexivity].
  apply (proj1 (proj2 (proj2 (client_constructed_lazily_once_between_resets
                                true Examples.accepts Examples.logged_out)))
               3%nat);
    simpl; auto.
Defined.

(** C4 (witness).  Three queries of which the second fails: the call
    returns the results of the first and of the third. *)
Lemma news_search_skips_failed_queries_witness :
  Utils.get_bigdata_client true Examples.accepts Examples.logged_out
  = (Py.Returns Examples.first_client, Examples.just_logged_in) /\
  fst (Utils.bigdata_news_search_async
         true Examples.accepts Examples.token_expires
         Examples.three_queries true Examples.logged_out)
  = Py.Returns (Utils.format_chunk (Examples.one_chunk "tesla") true
                  {| Utils.chunk_text := Some "tesla";
                     Utils.chunk_relevance := None;
                     Utils.chunk_chunk := Some 0;
                     Utils.chunk_sentiment := None;
                     Utils.chunk_entities := None |}
                :: Utils.format_chunk (Examples.one_chunk "apple") true
                  {| Utils.chunk_text := Some "apple";
                     Utils.chunk_relevance := None;
                     Utils.chunk_chunk := Some 0;
                     Utils.chunk_sentiment := None;
                     Utils.chunk_entities := None |}
                :: []).
Proof.
  split; [reflexivity|].
  exact (news_search_skips_failed_queries
           true Examples.accepts Examples.token_expires
           Examples.three_queries true
           Examples.logged_out Examples.just_logged_in Examples.first_client
           eq_refl).
Defined.

(** C3 (witness).  An expired token caught by the news search, and one
    caught by the knowledge-graph search, leave the singleton reset. *)
Lemma auth_error_resets_client_witness :
  Utils.is_auth_error Examples.expired_token = true /\
  Utils._bigdata_client
    (snd (Utils.bigdata_news_search_async
            true Examples.accepts Examples.token_expires
            Examples.three_queries true Examples.logged_out)) = None /\
  Utils._bigdata_client
    (snd (Utils.bigdata_knowledge_graph_async
            true Examples.accepts Examples.kg_token_expires
            "companies" "tesla" Examples.logged_out)) = None.
Proof.
  assert (Hfresh : Spec.client_fresh Examples.logged_out)
    by (intros c H; discriminate H).
  destruct (auth_error_resets_client
              true Examples.accepts Examples.token_expires
              Examples.kg_token_expires Examples.three_queries true
              "companies" "tesla"
              Examples.logged_out Examples.just_logged_in Examples.first_client
              eq_refl Hfresh eq_refl)
    as (Hnews & _ & _ & _ & Hkg).
  split; [reflexivity|].
  split; [exact (proj1 Hnews)|exact (proj1 Hkg)].
Defined.


(** C2 (witness).  A vendor that is always rate-limited: five attempts,
    delays of 2, 4, 8, 10 and 10 seconds, and the error tuple. *)
Lemma retry_loops_five_attempts_capped_backoff_witness :
  let run := BatchUpload.upload_file Examples.always_busy "report.pdf" Batch.initial in
  fst run = Py.Returns ("report.pdf", "", Batch.UPLOAD_ERROR) /\
  Batch.slept (snd run) = [2; 4; 8; 10; 10].
Proof.
  cbv zeta.
  apply (proj1 (proj2 (proj2 (proj2 (proj2 (proj2 (proj2 (proj2
           (retry_loops_five_attempts_capped_backoff
              Examples.always_busy Examples.found Examples.slow_once
              Examples.writes 30 "report.pdf" "5A3F" "out" "/data/report.pdf"
              Batch.initial))))))))).
  intros i _. exists Examples.rate_limited. split; reflexivity.
Defined.

(** C5 (witness).  A timeout in the download is followed by a second
    attempt, which succeeds; a connection error in the upload leaves
    [upload_file]. *)
Lemma retry_loops_catch_vendor_exceptions_witness :
  BatchUpload.upload_loop Examples.fails_once 5 0 "report.pdf" Batch.initial
  = (Py.Raises Examples.connection_error, Batch.count_attempt Batch.initial) /\
  exists status,
    fst (BatchDownload.download_analytics_file
           Examples.found Examples.slow_once Examples.writes
           30 "5A3F" "out" "/data/report.pdf" Batch.initial)
    = Py.Returns ("5A3F", status).
Proof.
  destruct (retry_loops_catch_vendor_exceptions
              Examples.fails_once Examples.found Examples.slow_once
              Examples.writes 30 "report.pdf" "5A3F" "out" "/data/report.pdf"
              4 0 Batch.initial)
    as (_ & Hdown & _ & Hup & _).
  split; [|exact Hdown].
  apply Hup; reflexivity.
Defined.

(** C8 (witness).  Three lines, the futures completing in the order
    third, first, second: the first worker uploads its file, the second
    is rate-limited five times, the third meets a connection error, and
    the three rows say so, in the order of completion. *)
Lemma bulk_upload_files_one_row_per_line_witness :
  let run :=
    BatchUpload.bulk_upload_files Examples.three_workers 2 Examples.upload_list
                                  [2; 0; 1]%nat Spec.opened in
  let rows :=
    UploadRuns.upload_rows Examples.three_workers 0 Examples.upload_list in
  (fst run = Py.Returns tt /\
   BatchUpload.result_csv (snd run) = Spec.yielded rows [2; 0; 1]%nat /\
   Permutation (BatchUpload.result_csv (snd run)) rows /\
   Forall2 Spec.row_for_line Examples.upload_list rows /\
   List.length (BatchUpload.result_csv (snd run))
   = List.length Examples.upload_list) /\
  rows = [["5A3F"; "UPLOAD_DONE"; "/data/a.pdf"];
          [""; "UPLOAD_ERROR"; "/data/b.pdf"];
          [""; "UPLOAD_ERROR"; "/data/c.pdf"]] /\
  BatchUpload.result_csv (snd run)
  = [[""; "UPLOAD_ERROR"; "/data/c.pdf"];
     ["5A3F"; "UPLOAD_DONE"; "/data/a.pdf"];
     [""; "UPLOAD_ERROR"; "/data/b.pdf"]].
Proof.
  split; [|split; reflexivity].
  apply (bulk_upload_files_one_row_per_line
           Examples.three_workers 2 Examples.upload_list [2; 0; 1]%nat).
  - reflexivity.
  - apply (Permutation_cons_app [0; 1]%nat [] 2%nat). apply Permutation_refl.
Defined.

(** The rows of that run, as written. *)
Example bulk_upload_files_rows :
  BatchUpload.result_csv
    (snd (BatchUpload.bulk_upload_files
            Examples.three_workers 2 Examples.upload_list [2; 0; 1]%nat Spec.opened))
  = [[""; "UPLOAD_ERROR"; "/data/c.pdf"];
     ["5A3F"; "UPLOAD_DONE"; "/data/a.pdf"];
     [""; "UPLOAD_ERROR"; "/data/b.pdf"]].
Proof.
  reflexivity.
Qed.

(** A pool of no workers cannot be created: nothing is written. *)
Example bulk_upload_files_empty_pool :
  BatchUpload.bulk_upload_files Examples.three_workers 0 Examples.upload_list
                                [2; 0; 1]%nat Spec.opened
  = (Py.Raises (Py.Exn Py.ValueError "max_workers must be greater than 0"),
     Spec.opened).
Proof.
  reflexivity.
Qed.

(** A download whose analysis times out once: two attempts, one delay of
    two seconds. *)
Example download_analytics_file_retries_once :
  let run :=
    BatchDownload.download_analytics_file
      Examples.found Examples.slow_once Examples.writes
      30 "5A3F" "out" "/data/report.pdf" Batch.initial in
  fst run = Py.Returns ("5A3F", "DOWNLOAD_DONE") /\
  Batch.attempts (snd run) = 2%nat /\
  Batch.slept (snd run) = [2].
Proof.
  repeat split.
Qed.

(* ===================================================================== *)
(** * Further properties *)
(* ===================================================================== *)

(** X4.  [_format_search_results] gives one result per chunk, document
    by document, when every document has chunks, and raises
    [AttributeError] when one has none. *)
Theorem format_search_results_one_per_chunk
        (documents : list Utils.Document) (include_raw_content : bool) :
  match Utils._format_search_results documents include_raw_content with
  | Py.Returns results =>
      results
      = flat_map (fun doc =>
                    map (Utils.format_chunk doc include_raw_content)
                        (Utils.getattr (Utils.doc_chunks doc) []))
                 documents /\
      Forall (fun doc => Utils.doc_chunks doc <> None) documents
  | Py.Raises e =>
      Py.exn_class e = Py.AttributeError /\
      Exists (fun doc => Utils.doc_chunks doc = None) documents
  end.
Proof.
  induction documents as [|doc rest IH]; simpl.
  - split; [reflexivity|constructor].
  - destruct (Utils.doc_chunks doc) as [chunks|] eqn:E.
    + destruct (Utils._format_search_results rest include_raw_content)
        as [more|e].
      * destruct IH as (-> & Hall). split.
        -- simpl. reflexivity.
        -- constructor; [congruence|exact Hall].
      * destruct IH as (Hc & Hex). split; [exact Hc|now right].
    + split; [reflexivity|now left].
Qed.


(** X3 (witness).  A world with no password set. *)
Lemma get_client_without_credentials_witness :
  Utils.get_bigdata_client true Examples.accepts Examples.no_password
  = (Py.Raises Utils.no_credentials, Examples.no_password) /\
  Py.is_ValueError Utils.no_credentials = true.
Proof.
  apply (get_client_without_credentials true Examples.accepts); reflexivity.
Defined.

(** X2 (witness).  A lookup that fails with an expired token. *)
Lemma knowledge_graph_returns_empty_on_error_witness :
  fst (Utils.bigdata_knowledge_graph_async
         true Examples.accepts Examples.kg_token_expires
         "companies" "tesla" Examples.logged_out)
  = Py.Returns [].
Proof.
  exact (knowledge_graph_returns_empty_on_error
           true Examples.accepts Examples.kg_token_expires
           "companies" "tesla"
           Examples.logged_out Examples.just_logged_in Examples.first_client
           eq_refl eq_refl).
Defined.

(* ===================================================================== *)
(** * Properties of utils.py: the client singleton under concurrency *)
(* ===================================================================== *)

Section AsyncFacts.
Import Py Utils Async.

Variable BIGDATA_AVAILABLE : bool.
Variable Bigdata_init : nat -> string -> string -> option exn.

Local Abbreviation get_client :=
  (get_bigdata_client BIGDATA_AVAILABLE Bigdata_init).
Local Abbreviation step := (Async.step BIGDATA_AVAILABLE Bigdata_init).
Local Abbreviation reachable := (Async.reachable BIGDATA_AVAILABLE Bigdata_init).

Lemma update_same (i : nat) (t : task) (ts : nat -> task) : update i t ts i = t.
Proof.
  unfold update. now rewrite Nat.eqb_refl.
Qed.

Lemma update_other (i j : nat) (t : task) (ts : nat -> task) :
  j <> i -> update i t ts j = ts j.
Proof.
  intros H. unfold update. now apply Nat.eqb_neq in H; rewrite H.
Qed.

(** A call that has no client to build leaves the world as it is, and
    returns the client that is set or raises for want of credentials. *)
Lemma get_without_construction (w : world) :
  BIGDATA_AVAILABLE = true ->
  needs_construction w = false ->
  snd (get_client w) = w /\
  forall b, fst (get_client w) = Returns b -> _bigdata_client w = Some b.
Proof.
  intros Ha Hn. unfold needs_construction in Hn.
  unfold get_bigdata_client, bind, gets, ret, raise. rewrite Ha.
  cbv beta iota delta [negb].
  destruct (_bigdata_client w) as [c|].
  - split; [reflexivity|]. simpl. intros b H. now inversion H.
  - apply negb_false_iff in Hn. rewrite Hn. split; [reflexivity|].
    simpl. discriminate.
Qed.

Ltac task_cases i j :=
  destruct (Nat.eq_dec j i) as [->|];
  [rewrite update_same in * | rewrite update_other in * by assumption].

Lemma step_invariant (s s' : system) :
  invariant s -> step s s' -> invariant s'.
Proof.
  intros [Hlock Hone Hcur Hsame] Hstep.
  destruct Hstep as [s i Ha Hi | s i Ha Hi Hl Hn | s i Ha Hi Hl Hn
                     | s i n u p Hi Hinit | s i n u p e Hi Hinit | s i Hi Hl].
  - (* unavailable *)
    constructor; simpl.
    + intros j n u p Hj. task_cases i j; [discriminate|eauto].
    + intros j k n u p n' u' p' Hj Hk.
      task_cases i j; [discriminate|]. task_cases i k; [discriminate|eauto].
    + intros j b e Hj. task_cases i j; [discriminate|eauto].
    + intros j k b b' e Hj Hk.
      task_cases i j; [discriminate|]. task_cases i k; [discriminate|eauto].
  - (* the call runs through *)
    destruct (get_without_construction (shared s) Ha Hn) as (Hw & Hret).
    assert (Hfree : forall j n u p, tasks s j <> Constructing n u p).
    { intros j n u p Hj. destruct (Hlock _ _ _ _ Hj). congruence. }
    constructor; simpl; rewrite ?Hw.
    + intros j n u p Hj. task_cases i j; [discriminate|]. now apply Hfree in Hj.
    + intros j k n u p n' u' p' Hj Hk.
      task_cases i j; [discriminate|]. now apply Hfree in Hj.
    + intros j b e Hj. task_cases i j; [|eauto].
      inversion Hj; subst. split; [lia|]. intros _. now apply Hret.
    + intros j k b b' e Hj Hk.
      task_cases i j; task_cases i k.
      * congruence.
      * inversion Hj; subst. apply Hret in H0.
        destruct (Hcur _ _ _ Hk) as (_ & H). specialize (H eq_refl). congruence.
      * inversion Hk; subst. apply Hret in H0.
        destruct (Hcur _ _ _ Hj) as (_ & H). specialize (H eq_refl). congruence.
      * eauto.
  - (* the lock is taken *)
    assert (Hfree : forall j n u p, tasks s j <> Constructing n u p).
    { intros j n u p Hj. destruct (Hlock _ _ _ _ Hj). congruence. }
    assert (Hnone : _bigdata_client (shared s) = None).
    { unfold needs_construction in Hn.
      destruct (_bigdata_client (shared s)); [discriminate|reflexivity]. }
    constructor; simpl.
    + intros j n u p Hj. split; [reflexivity|exact Hnone].
    + intros j k n u p n' u' p' Hj Hk.
      task_cases i j; task_cases i k; try reflexivity.
      * now apply Hfree in Hk.
      * now apply Hfree in Hj.
      * now apply Hfree in Hj.
    + intros j b e Hj. task_cases i j; [discriminate|eauto].
    + intros j k b b' e Hj Hk.
      task_cases i j; [discriminate|]. task_cases i k; [discriminate|eauto].
  - (* the client is stored *)
    destruct (Hlock _ _ _ _ Hi) as (_ & Hnone).
    assert (Honly : forall j n' u' p', j <> i -> tasks s j <> Constructing n' u' p').
    { intros j n' u' p' Hne Hj. apply Hne. eapply Hone; eauto. }
    assert (Hold : forall j b, tasks s j <> Finished (Returns b) (epoch s)).
    { intros j b Hj. destruct (Hcur _ _ _ Hj) as (_ & H).
      specialize (H eq_refl). congruence. }
    constructor; simpl.
    + intros j n' u' p' Hj. task_cases i j; [discriminate|].
      now apply Honly in Hj.
    + intros j k n1 u1 p1 n2 u2 p2 Hj Hk. task_cases i j; [discriminate|].
      now apply Honly in Hj.
    + intros j b e Hj. task_cases i j.
      * inversion Hj; subst. split; [lia|reflexivity].
      * destruct (Hcur _ _ _ Hj) as (Hle & _). split; [exact Hle|].
        intros ->. now apply Hold in Hj.
    + intros j k b b' e Hj Hk.
      task_cases i j; task_cases i k.
      * congruence.
      * inversion Hj; subst. now apply Hold in Hk.
      * inversion Hk; subst. now apply Hold in Hj.
      * eauto.
  - (* the constructor raised *)
    destruct (Hlock _ _ _ _ Hi) as (_ & Hnone).
    assert (Honly : forall j n' u' p', j <> i -> tasks s j <> Constructing n' u' p').
    { intros j n' u' p' Hne Hj. apply Hne. eapply Hone; eauto. }
    constructor; simpl.
    + intros j n' u' p' Hj. task_cases i j; [discriminate|].
      now apply Honly in Hj.
    + intros j k n1 u1 p1 n2 u2 p2 Hj Hk. task_cases i j; [discriminate|].
      now apply Honly in Hj.
    + intros j b e' Hj. task_cases i j; [discriminate|eauto].
    + intros j k b b' e' Hj Hk.
      task_cases i j; [discriminate|]. task_cases i k; [discriminate|eauto].
  - (* reset *)
    assert (Hfree : forall j n u p, tasks s j <> Constructing n u p).
    { intros j n u p Hj. destruct (Hlock _ _ _ _ Hj). congruence. }
    constructor; simpl.
    + intros j n u p Hj. task_cases i j; [discriminate|]. now apply Hfree in Hj.
    + intros j k n u p n' u' p' Hj Hk.
      task_cases i j; [discriminate|]. now apply Hfree in Hj.
    + intros j b e Hj. task_cases i j; [discriminate|].
      destruct (Hcur _ _ _ Hj) as (Hle & _). split; lia.
    + intros j k b b' e Hj Hk.
      task_cases i j; [discriminate|]. task_cases i k; [discriminate|eauto].
Qed.

Lemma initial_invariant (s : system) : initial s -> invariant s.
Proof.
  intros (Hl & Ht).
  constructor; intros i; intros;
    destruct (Ht i) as [H'|H']; congruence.
Qed.

Lemma reachable_invariant (s : system) : reachable s -> invariant s.
Proof.
  induction 1 as [s Hinit|s s' _ IH Hstep].
  - now apply initial_invariant.
  - now apply (step_invariant s s').
Qed.

(** X5.  However the calls of any number of coroutines interleave, two
    calls of [get_bigdata_client] that return with no reset between their
    ends return the same client; and while a constructor call is awaited
    the lock is held, the singleton is unset and no other constructor
    call is in flight. *)
Theorem concurrent_calls_share_one_client (s : system) :
  reachable s ->
  (forall i j b b' e,
      tasks s i = Finished (Returns b) e ->
      tasks s j = Finished (Returns b') e -> b = b') /\
  (forall i j n u p n' u' p',
      tasks s i = Constructing n u p ->
      tasks s j = Constructing n' u' p' ->
      i = j /\ locked s = true /\ _bigdata_client (shared s) = None).
Proof.
  intros H. destruct (reachable_invariant s H) as [Hlock Hone Hcur Hsame].
  split; [exact Hsame|].
  intros i j n u p n' u' p' Hi Hj. split; [eapply Hone; eauto|eauto].
Qed.

(** A call that runs with no other task stepping in ends as the
    sequential [get_bigdata_client] does, in one step or in two. *)
Lemma uninterrupted_call_is_get (s : system) (i : nat) :
  BIGDATA_AVAILABLE = true ->
  tasks s i = CallGet ->
  locked s = false ->
  exists s',
    (step s s' \/ exists s1, step s s1 /\ step s1 s') /\
    tasks s' i = Finished (fst (get_client (shared s))) (epoch s) /\
    shared s' = snd (get_client (shared s)) /\
    locked s' = false.
Proof.
  intros Ha Hi Hl.
  destruct (needs_construction (shared s)) eqn:Hn.
  - pose proof (step_construct BIGDATA_AVAILABLE Bigdata_init s i Ha Hi Hl Hn) as H1.
    set (s1 := {| shared := count_construction (shared s);
                  locked := true;
                  epoch := epoch s;
                  tasks := update i
                             (Constructing (constructions (shared s))
                                (getattr (BIGDATA_USERNAME (shared s)) "")
                                (getattr (BIGDATA_PASSWORD (shared s)) ""))
                             (tasks s) |}) in *.
    assert (Hi1 : tasks s1 i
                  = Constructing (constructions (shared s))
                                 (getattr (BIGDATA_USERNAME (shared s)) "")
                                 (getattr (BIGDATA_PASSWORD (shared s)) ""))
      by (simpl; apply update_same).
    assert (Hget : get_client (shared s)
                   = match Bigdata_init (constructions (shared s))
                             (getattr (BIGDATA_USERNAME (shared s)) "")
                             (getattr (BIGDATA_PASSWORD (shared s)) "") with
                     | Some e => (Raises e, count_construction (shared s))
                     | None =>
                         (Returns {| client_serial := constructions (shared s);
                                     client_username :=
                                       getattr (BIGDATA_USERNAME (shared s)) "";
                                     client_password :=
                                       getattr (BIGDATA_PASSWORD (shared s)) "" |},
                          set_client
                            (Some {| client_serial := constructions (shared s);
                                     client_username :=
                                       getattr (BIGDATA_USERNAME (shared s)) "";
                                     client_password :=
                                       getattr (BIGDATA_PASSWORD (shared s)) "" |})
                            (count_construction (shared s)))
                     end).
    { unfold needs_construction in Hn.
      unfold get_bigdata_client, bind, gets, ret, raise, modify. rewrite Ha.
      cbv beta iota delta [negb].
      destruct (_bigdata_client (shared s)); [discriminate|].
      apply negb_true_iff in Hn. rewrite Hn.
      now destruct (Bigdata_init _ _ _). }
    destruct (Bigdata_init (constructions (shared s))
                           (getattr (BIGDATA_USERNAME (shared s)) "")
                           (getattr (BIGDATA_PASSWORD (shared s)) "")) as [e|] eqn:E.
    + eexists. split; [right; exists s1; split; [exact H1|]|].
      * apply (step_construction_failed BIGDATA_AVAILABLE Bigdata_init s1 i _ _ _ e Hi1 E).
      * rewrite Hget. simpl. rewrite update_same. auto.
    + eexists. split; [right; exists s1; split; [exact H1|]|].
      * apply (step_constructed BIGDATA_AVAILABLE Bigdata_init s1 i _ _ _ Hi1 E).
      * rewrite Hget. simpl. rewrite update_same. auto.
  - eexists. split; [left; apply (step_get _ _ s i Ha Hi Hl Hn)|].
    simpl. rewrite update_same. auto.
Qed.

End AsyncFacts.

(** X5 (witness).  Two coroutines call at once; the first builds the
    client while the second waits for the lock: both get that client. *)
Lemma concurrent_calls_share_one_client_witness :
  Async.reachable true Examples.accepts Examples.second_finished /\
  Async.tasks Examples.second_finished 0
  = Async.Finished (Py.Returns Examples.first_client) 0 /\
  Async.tasks Examples.second_finished 1
  = Async.Finished (Py.Returns Examples.first_client) 0 /\
  forall i j b b' e,
    Async.tasks Examples.second_finished i = Async.Finished (Py.Returns b) e ->
    Async.tasks Examples.second_finished j = Async.Finished (Py.Returns b') e ->
    b = b'.
Proof.
  assert (H0 : Async.reachable true Examples.accepts Examples.callers).
  { apply Async.reachable_initial. split; [reflexivity|]. intros i. now left. }
  assert (H1 : Async.reachable true Examples.accepts Examples.first_constructing).
  { apply (Async.reachable_step _ _ _ _ H0).
    apply (Async.step_construct true Examples.accepts Examples.callers 0);
      reflexivity. }
  assert (H2 : Async.reachable true Examples.accepts Examples.first_finished).
  { apply (Async.reachable_step _ _ _ _ H1).
    apply (Async.step_constructed true Examples.accepts
                                  Examples.first_constructing 0 0 "analyst" "secret");
      reflexivity. }
  assert (H3 : Async.reachable true Examples.accepts Examples.second_finished).
  { apply (Async.reachable_step _ _ _ _ H2).
    apply (Async.step_get true Examples.accepts Examples.first_finished 1);
      reflexivity. }
  split; [exact H3|]. split; [reflexivity|]. split; [reflexivity|].
  exact (proj1 (concurrent_calls_share_one_client
                  true Examples.accepts Examples.second_finished H3)).
Defined.

(* ===================================================================== *)
(** * Dictionaries *)
(* ===================================================================== *)

Section DictFacts.
Import Py Workflow WorkflowRuns.

Lemma dict_get_set (d : dict) (k k' : string) (v : value) :
  dict_get (dict_set d k v) k' = if String.eqb k k' then Some v else dict_get d k'.
Proof.
  induction d as [|[k0 v0] d IH]; simpl.
  - reflexivity.
  - destruct (String.eqb_spec k0 k) as [->|Hk]; simpl.
    + now destruct (String.eqb k k').
    + rewrite IH. destruct (String.eqb_spec k0 k') as [->|Hk'];
        [|reflexivity].
      destruct (String.eqb_spec k k'); congruence.
Qed.

Lemma keys_dict_set (d : dict) (k : string) (v : value) :
  keys (dict_set d k v)
  = if str_in_list k (keys d) then keys d else (keys d ++ [k])%list.
Proof.
  unfold str_in_list. induction d as [|[k0 v0] d IH]; simpl; [reflexivity|].
  rewrite (String.eqb_sym k k0).
  destruct (String.eqb k0 k); simpl; [reflexivity|].
  rewrite IH. now destruct (existsb (String.eqb k) (keys d)).
Qed.

Lemma str_in_list_In (k : string) (l : list string) :
  str_in_list k l = true <-> In k l.
Proof.
  unfold str_in_list. rewrite existsb_exists. split.
  - intros (x & Hx & E). apply String.eqb_eq in E. now subst.
  - intros H. exists k. split; [exact H|apply String.eqb_refl].
Qed.

Lemma dict_set_NoDup (d : dict) (k : string) (v : value) :
  NoDup (keys d) -> NoDup (keys (dict_set d k v)).
Proof.
  intros H. rewrite keys_dict_set.
  destruct (str_in_list k (keys d)) eqn:E; [exact H|].
  apply NoDup_app; [exact H|repeat constructor; intros []|].
  intros x Hx [<-|[]]. apply str_in_list_In in Hx. congruence.
Qed.

Lemma update_NoDup (other d : dict) :
  NoDup (keys d) -> NoDup (keys (update d other)).
Proof.
  unfold update. revert d.
  induction other as [|[k v] other IH]; intros d H; simpl; [exact H|].
  apply IH. now apply dict_set_NoDup.
Qed.

Lemma dict_get_not_in (d : dict) (k : string) :
  ~ In k (keys d) -> dict_get d k = None.
Proof.
  induction d as [|[k0 v0] d IH]; simpl; [reflexivity|].
  intros H. destruct (String.eqb_spec k0 k); [tauto|]. apply IH. tauto.
Qed.

(** [d.update(other)] gives the entries of [other] and, for the other
    keys, those of [d]. *)
Lemma dict_get_update (other d : dict) (k : string) :
  NoDup (keys other) ->
  dict_get (update d other) k = or_else (dict_get other k) (dict_get d k).
Proof.
  unfold update. revert d.
  induction other as [|[k0 v0] other IH]; intros d H; simpl; [reflexivity|].
  inversion H as [|? ? Hnot Hrest]; subst.
  rewrite (IH _ Hrest), dict_get_set.
  destruct (String.eqb_spec k0 k) as [->|Hk]; [|reflexivity].
  now rewrite (dict_get_not_in other k Hnot).
Qed.

Lemma dict_get_pop (d : dict) (k k' : string) :
  NoDup (keys d) ->
  dict_get (pop d k) k' = if String.eqb k k' then None else dict_get d k'.
Proof.
  induction d as [|[k0 v0] d IH]; intros H; simpl.
  - now destruct (String.eqb k k').
  - inversion H as [|? ? Hnot Hrest]; subst.
    destruct (String.eqb_spec k0 k) as [->|Hk]; simpl.
    + destruct (String.eqb_spec k k') as [->|Hk']; [|reflexivity].
      now apply dict_get_not_in.
    + rewrite (IH Hrest).
      destruct (String.eqb_spec k0 k') as [->|Hk']; [|reflexivity].
      destruct (String.eqb_spec k k'); congruence.
Qed.

Lemma pop_NoDup (d : dict) (k : string) :
  NoDup (keys d) -> NoDup (keys (pop d k)).
Proof.
  induction d as [|[k0 v0] d IH]; intros H; simpl; [constructor|].
  inversion H as [|? ? Hnot Hrest]; subst.
  destruct (String.eqb k0 k); [exact Hrest|]. simpl. constructor.
  - intros Hin. apply Hnot. clear - Hin.
    induction d as [|[k1 v1] d IH]; simpl in *; [contradiction|].
    destruct (String.eqb k1 k); simpl in *; tauto.
  - now apply IH.
Qed.

End DictFacts.

(* ===================================================================== *)
(** * Properties of [bulk_download_analytics] *)
(* ===================================================================== *)

Section BulkDownloadFacts.
Import Py Batch BatchDownload Spec BulkDownload BulkDownloadRuns.

Variable uploads_get : nat -> nat -> string -> outcome string.
Variable wait_for_analysis_complete : nat -> nat -> string -> Z -> option exn.
Variable download_analytics : nat -> nat -> string -> string -> option exn.
Variable download_timeout : Z.
Variable output_directory : string.

Local Abbreviation futures_from i rows :=
  (submitted_futures uploads_get wait_for_analysis_complete download_analytics
                     download_timeout output_directory i rows).
Local Abbreviation expected i rows :=
  (expected_rows uploads_get wait_for_analysis_complete download_analytics
                 download_timeout output_directory i rows).
Local Abbreviation submitting reader futures :=
  (submit_loop uploads_get wait_for_analysis_complete download_analytics
               download_timeout output_directory reader futures).
Local Abbreviation download max_concurrency csv_file completion :=
  (bulk_download_analytics uploads_get wait_for_analysis_complete
                           download_analytics max_concurrency download_timeout
                           output_directory csv_file completion).

(** The fields of a complete row. *)
Lemma complete_items (r : row) :
  complete r ->
  exists status,
    item r 0 = Returns (nth 0 r "") /\
    item r 1 = Returns status /\
    nth_error r 1 = Some status /\
    item r 2 = Returns (nth 2 r "").
Proof.
  unfold complete, item. intros H.
  destruct r as [|a [|b [|c r]]]; simpl in H; try lia.
  exists b. simpl. auto.
Qed.

(** Over complete rows the first loop submits one future per pending
    row, in order, and touches nothing of the main thread. *)
Lemma submit_loop_run (reader : list row) :
  Forall complete reader ->
  forall (futures : list future) (m : main),
    submitting reader futures m
    = (Returns (futures
                  ++ futures_from (List.length futures) (filter pending reader))%list,
       m).
Proof.
  induction 1 as [|r rest Hr _ IH]; intros futures m; simpl.
  - now rewrite app_nil_r.
  - destruct (complete_items r Hr) as (status & H0 & H1 & Hn & H2).
    unfold bind at 1. unfold lift at 1. rewrite H0.
    unfold bind at 1. unfold lift at 1. rewrite H1.
    unfold bind at 1. unfold lift at 1. rewrite H2.
    unfold pending at 1. rewrite Hn.
    destruct (String.eqb status UPLOAD_DONE || String.eqb status DOWNLOAD_ERROR).
    + rewrite IH. simpl. rewrite <- app_assoc, length_app. simpl.
      now rewrite Nat.add_1_r.
    + apply IH.
Qed.

(** A row with fewer than three fields stops the first loop. *)
Lemma submit_loop_short (reader : list row) :
  Exists (fun r => (List.length r < 3)%nat) reader ->
  forall (futures : list future) (m : main),
    submitting reader futures m = (Raises IndexError, m).
Proof.
  induction reader as [|r rest IH]; intros Hex futures m.
  - inversion Hex.
  - destruct (Nat.ltb_spec (List.length r) 3) as [Hshort|Hlong].
    + simpl. unfold bind, lift, item.
      destruct r as [|a [|b [|c r]]]; simpl in Hshort; try lia; reflexivity.
    + assert (Hrest : Exists (fun r => (List.length r < 3)%nat) rest).
      { inversion Hex; subst; [lia|assumption]. }
      destruct (complete_items r Hlong) as (status & H0 & H1 & Hn & H2).
      simpl.
      unfold bind at 1. unfold lift at 1. rewrite H0.
      unfold bind at 1. unfold lift at 1. rewrite H1.
      unfold bind at 1. unfold lift at 1. rewrite H2.
      destruct (String.eqb status UPLOAD_DONE || String.eqb status DOWNLOAD_ERROR);
        now apply IH.
Qed.

Lemma download_on_completed_writes (f : future) (m : main) :
  fst (on_completed f m) = Returns tt /\
  result_csv (snd (on_completed f m)) = (result_csv m ++ [written_row f])%list /\
  printed (snd (on_completed f m)) = (printed m ++ [written_row f])%list.
Proof.
  unfold on_completed, written_row, write_result, bind, modify.
  destruct (submitted f) as [file_id filename].
  destruct (result f) as [[file_id' st]|e]; simpl.
  - destruct (String.eqb st DOWNLOAD_ERROR); simpl; auto.
  - auto.
Qed.

Lemma download_completed_loop_writes (futures : list future)
      (completion : list nat) :
  forall m,
    fst (completed_loop futures completion m) = Returns tt /\
    result_csv (snd (completed_loop futures completion m))
    = (result_csv m ++ map written_row (yielded futures completion))%list /\
    printed (snd (completed_loop futures completion m))
    = (printed m ++ map written_row (yielded futures completion))%list.
Proof.
  induction completion as [|i rest IH]; intros m; simpl.
  - now rewrite !app_nil_r.
  - unfold yielded. simpl. fold (yielded futures rest).
    destruct (nth_error futures i) as [f|]; [|apply IH].
    unfold bind. destruct (download_on_completed_writes f m) as (Hr & Hc & Hp).
    destruct (on_completed f m) as [[[]|e] m1]; simpl in Hr, Hc, Hp; [|discriminate].
    destruct (IH m1) as (H1 & H2 & H3). rewrite H1, H2, H3, Hc, Hp.
    simpl. now rewrite <- !app_assoc.
Qed.

(** The future of a pending row comes to the expected row: the worker
    returns the id it was given, with the status by its attempts. *)
Lemma written_row_submit (i : nat) (r : row) :
  written_row (submit uploads_get wait_for_analysis_complete download_analytics
                      i download_timeout (nth 0 r "") output_directory (nth 2 r ""))
  = expected_row uploads_get wait_for_analysis_complete download_analytics
                 download_timeout output_directory i r.
Proof.
  unfold written_row, submit, expected_row, failed_attempts. simpl.
  unfold download_analytics_file.
  destruct (download_loop_run (uploads_get i) (wait_for_analysis_complete i)
                              (download_analytics i) download_timeout
                              (nth 0 r "") output_directory (nth 2 r "")
                              max_try 0 initial) as (_ & _ & H).
  simpl attempts in H. rewrite H. reflexivity.
Qed.

Lemma written_rows_submitted (rows : list row) :
  forall i, map written_row (futures_from i rows) = expected i rows.
Proof.
  induction rows as [|r rest IH]; intros i; simpl; [reflexivity|].
  now rewrite written_row_submit, IH.
Qed.

Lemma submitted_futures_length (rows : list row) :
  forall i, List.length (futures_from i rows) = List.length rows.
Proof.
  induction rows as [|r rest IH]; intros i; simpl; [reflexivity|].
  now rewrite IH.
Qed.

(** A whole run over complete rows. *)
Lemma bulk_download_run (max_concurrency : Z) (csv_file : list row)
      (completion : list nat) (m : main) :
  0 < max_concurrency ->
  Forall complete csv_file ->
  let run := download max_concurrency csv_file completion m in
  let written :=
    map written_row (yielded (futures_from 0 (filter pending csv_file)) completion) in
  fst run = Returns tt /\
  result_csv (snd run) = (result_csv m ++ written)%list /\
  printed (snd run) = (printed m ++ written)%list.
Proof.
  intros Hpool Hrows. cbv zeta. unfold bulk_download_analytics.
  destruct (Z.leb_spec max_concurrency 0) as [Hle|_]; [lia|].
  unfold bind. rewrite (submit_loop_run csv_file Hrows [] m). simpl.
  apply download_completed_loop_writes.
Qed.

(** X6.  With a pool that can be created, input rows of at least three
    fields and every future completing once, in whatever order,
    [bulk_download_analytics] ends without raising; the rows it writes
    are, up to the order of completion, one row for each input row whose
    status is [UPLOAD_DONE] or [DOWNLOAD_ERROR], and none for the other
    rows: the id and the file name of the input row, with
    [DOWNLOAD_ERROR] when the five attempts of its worker all failed and
    [DOWNLOAD_DONE] otherwise.  Every row written is also printed. *)
Theorem bulk_download_one_row_per_pending_row
        (max_concurrency : Z) (csv_file : list row) (completion : list nat) :
  0 < max_concurrency ->
  Forall complete csv_file ->
  Permutation completion (seq 0 (List.length (filter pending csv_file))) ->
  let run := download max_concurrency csv_file completion opened in
  fst run = Returns tt /\
  Permutation (result_csv (snd run)) (expected 0 (filter pending csv_file)) /\
  printed (snd run) = result_csv (snd run).
Proof.
  intros Hpool Hrows Hperm. cbv zeta.
  destruct (bulk_download_run max_concurrency csv_file completion opened
                              Hpool Hrows) as (Hr & Hc & Hp).
  split; [exact Hr|]. split.
  - rewrite Hc. simpl. rewrite <- written_rows_submitted.
    apply Permutation_map, yielded_permutation.
    now rewrite submitted_futures_length.
  - now rewrite Hc, Hp.
Qed.

(** X7.  An input row with fewer than three fields (a blank line of the
    CSV is a row with none) makes [bulk_download_analytics] raise
    [IndexError] before anything is written, printed or logged by the
    main thread, also for the rows read before it. *)
Theorem bulk_download_short_row_raises
        (max_concurrency : Z) (csv_file : list row) (completion : list nat)
        (m : main) :
  0 < max_concurrency ->
  Exists (fun r => (List.length r < 3)%nat) csv_file ->
  download max_concurrency csv_file completion m = (Raises IndexError, m).
Proof.
  intros Hpool Hshort. unfold bulk_download_analytics.
  destruct (Z.leb_spec max_concurrency 0) as [Hle|_]; [lia|].
  unfold bind. now rewrite (submit_loop_short csv_file Hshort [] m).
Qed.

Lemma yielded_In {A} (l : list A) (completion : list nat) (a : A) :
  In a (yielded l completion) -> In a l.
Proof.
  unfold yielded. intros H. apply in_flat_map in H.
  destruct H as (i & _ & H).
  destruct (nth_error l i) as [b|] eqn:E; [|contradiction].
  destruct H as [<-|[]]. now apply nth_error_In with i.
Qed.

Lemma filter_pending_has_status (status : string) (rows : list row) :
  (forall r, In r rows -> pending r = has_status status r) ->
  filter pending rows = filter (has_status status) rows.
Proof.
  intros H. now apply filter_ext_in.
Qed.

Lemma submit_all_In (upload_from_disk : nat -> nat -> string -> outcome string)
      (upload_txt : list string) (f : BatchUpload.future) :
  forall i,
    In f (BatchUpload.submit_all upload_from_disk i upload_txt) ->
    exists j line, f = BatchUpload.submit upload_from_disk j (strip line).
Proof.
  induction upload_txt as [|line rest IH]; intros i; simpl; [contradiction|].
  intros [<-|H]; [now exists i, line|]. now apply (IH (S i)).
Qed.

(** The rows that [bulk_upload_files] writes have three fields, and
    the status [UPLOAD_DONE] or [UPLOAD_ERROR]. *)
Lemma uploaded_rows (upload_from_disk : nat -> nat -> string -> outcome string)
      (max_concurrency : Z) (upload_txt : list string) (completion : list nat)
      (r : row) :
  In r (BatchUpload.result_csv
          (snd (BatchUpload.bulk_upload_files
                  upload_from_disk max_concurrency upload_txt completion
                  Spec.opened))) ->
  exists file_id upload_status file_path,
    r = [file_id; upload_status; file_path] /\
    (upload_status = UPLOAD_DONE \/ upload_status = UPLOAD_ERROR).
Proof.
  unfold BatchUpload.bulk_upload_files.
  destruct (max_concurrency <=? 0); [contradiction|].
  destruct (completed_loop_writes
              (BatchUpload.submit_all upload_from_disk 0 upload_txt)
              completion Spec.opened) as (_ & Hc).
  rewrite Hc. simpl. intros H. apply in_map_iff in H.
  destruct H as (f & <- & Hf). apply yielded_In in Hf.
  destruct (submit_all_In _ _ _ _ Hf) as (j & line & ->).
  destruct (row_of_submit upload_from_disk j line)
    as (file_id & st & -> & [->|(-> & _)]);
    exists file_id; eexists; eexists; split; try reflexivity; auto.
Qed.

(** X8.  The result CSV of [bulk_upload_files] is a valid input of
    [bulk_download_analytics], whatever happened to the uploads: with a
    pool that can be created and every future completing once, the
    download ends without raising and writes, up to the order of
    completion, one row (id, [DOWNLOAD_DONE] or [DOWNLOAD_ERROR], path)
    for each row of status [UPLOAD_DONE]; a file whose upload failed is
    never asked for. *)
Theorem bulk_download_after_bulk_upload
        (upload_from_disk : nat -> nat -> string -> outcome string)
        (upload_concurrency : Z) (upload_txt : list string)
        (upload_completion : list nat)
        (max_concurrency : Z) (completion : list nat) :
  let uploaded :=
    BatchUpload.result_csv
      (snd (BatchUpload.bulk_upload_files
              upload_from_disk upload_concurrency upload_txt upload_completion
              Spec.opened)) in
  0 < max_concurrency ->
  Permutation completion
              (seq 0 (List.length (filter (has_status UPLOAD_DONE) uploaded))) ->
  let run := download max_concurrency uploaded completion opened in
  fst run = Returns tt /\
  Permutation (result_csv (snd run))
              (expected 0 (filter (has_status UPLOAD_DONE) uploaded)).
Proof.
  intros uploaded Hpool Hperm run.
  assert (Hrows : forall r, In r uploaded ->
                            complete r /\ pending r = has_status UPLOAD_DONE r).
  { intros r Hr.
    destruct (uploaded_rows _ _ _ _ _ Hr) as (file_id & st & path & -> & [-> | ->]);
      split; try (unfold complete; simpl; lia); reflexivity. }
  assert (Hfilter : filter pending uploaded
                    = filter (has_status UPLOAD_DONE) uploaded).
  { apply filter_pending_has_status. intros r Hr. now apply Hrows. }
  assert (Hcomplete : Forall complete uploaded).
  { apply Forall_forall. intros r Hr. now apply Hrows. }
  destruct (bulk_download_run max_concurrency uploaded completion opened
                              Hpool Hcomplete) as (Hr & Hc & _).
  split; [exact Hr|].
  subst run. rewrite Hc, Hfilter. simpl. rewrite <- written_rows_submitted.
  apply Permutation_map, yielded_permutation.
  now rewrite submitted_futures_length.
Qed.

(** The rows that [bulk_download_analytics] writes have three fields,
    and the status [DOWNLOAD_DONE] or [DOWNLOAD_ERROR]. *)
Lemma downloaded_rows (max_concurrency : Z) (csv_file : list row)
      (completion : list nat) (r : row) :
  0 < max_concurrency ->
  Forall complete csv_file ->
  In r (result_csv (snd (download max_concurrency csv_file completion opened))) ->
  exists file_id download_status filename,
    r = [file_id; download_status; filename] /\
    (download_status = DOWNLOAD_DONE \/ download_status = DOWNLOAD_ERROR).
Proof.
  intros Hpool Hrows.
  destruct (bulk_download_run max_concurrency csv_file completion opened
                              Hpool Hrows) as (_ & Hc & _).
  rewrite Hc. simpl. intros H. apply in_map_iff in H.
  destruct H as (f & <- & Hf). apply yielded_In in Hf.
  assert (Hin : In (written_row f)
                   (expected 0 (filter pending csv_file))).
  { rewrite <- written_rows_submitted. now apply in_map. }
  clear Hf Hc. revert Hin. generalize 0%nat. generalize (filter pending csv_file).
  induction l as [|r rest IH]; intros i; simpl; [contradiction|].
  intros [<-|H]; [|now apply (IH (S i))].
  unfold expected_row. do 3 eexists. split; [reflexivity|].
  destruct (_ =? _)%nat; auto.
Qed.

End BulkDownloadFacts.

Section BulkDownloadAgain.
Import Py Batch BatchDownload Spec BulkDownload BulkDownloadRuns.

(** The vendor during a first run and during a second one. *)
Variable uploads_get uploads_get' : nat -> nat -> string -> outcome string.
Variable wait_for_analysis_complete wait_for_analysis_complete'
  : nat -> nat -> string -> Z -> option exn.
Variable download_analytics download_analytics'
  : nat -> nat -> string -> string -> option exn.
Variable download_timeout download_timeout' : Z.
Variable output_directory output_directory' : string.

(** X9.  The result CSV of one run of [bulk_download_analytics] can be
    fed to a second run, which retries exactly the failures: it ends
    without raising and writes, up to the order of completion, one row
    for each row of status [DOWNLOAD_ERROR] of the first result, and
    none for a file already downloaded. *)
Theorem bulk_download_again_retries_failures
        (max_concurrency : Z) (csv_file : list row) (completion : list nat)
        (max_concurrency' : Z) (completion' : list nat) :
  let first :=
    result_csv
      (snd (bulk_download_analytics
              uploads_get wait_for_analysis_complete download_analytics
              max_concurrency download_timeout output_directory
              csv_file completion opened)) in
  let failed := filter (has_status DOWNLOAD_ERROR) first in
  0 < max_concurrency ->
  Forall complete csv_file ->
  0 < max_concurrency' ->
  Permutation completion' (seq 0 (List.length failed)) ->
  let run :=
    bulk_download_analytics
      uploads_get' wait_for_analysis_complete' download_analytics'
      max_concurrency' download_timeout' output_directory'
      first completion' opened in
  fst run = Returns tt /\
  Permutation (result_csv (snd run))
              (expected_rows uploads_get' wait_for_analysis_complete'
                             download_analytics' download_timeout'
                             output_directory' 0 failed).
Proof.
  intros first failed Hpool Hcsv Hpool' Hperm run.
  assert (Hrows : forall r, In r first ->
                            complete r /\ pending r = has_status DOWNLOAD_ERROR r).
  { intros r Hr.
    destruct (downloaded_rows _ _ _ _ _ _ _ _ _ Hpool Hcsv Hr)
      as (file_id & st & path & -> & [-> | ->]);
      split; try (unfold complete; simpl; lia); reflexivity. }
  assert (Hfilter : filter pending first = failed).
  { apply filter_pending_has_status. intros r Hr. now apply Hrows. }
  assert (Hcomplete : Forall complete first).
  { apply Forall_forall. intros r Hr. now apply Hrows. }
  destruct (bulk_download_run
              uploads_get' wait_for_analysis_complete' download_analytics'
              download_timeout' output_directory'
              max_concurrency' first completion' opened
              Hpool' Hcomplete) as (Hr & Hc & _).
  split; [exact Hr|].
  subst run. rewrite Hc, Hfilter. simpl. rewrite <- written_rows_submitted.
  apply Permutation_map, yielded_permutation.
  now rewrite submitted_futures_length.
Qed.

End BulkDownloadAgain.

(** X6 (witness).  Of four rows the two pending ones are downloaded,
    the second to complete first: the first file at its second attempt,
    the other never. *)
Lemma bulk_download_one_row_per_pending_row_witness :
  let run :=
    BulkDownload.bulk_download_analytics
      MoreExamples.finds MoreExamples.waits MoreExamples.saves
      2 60 "/out" MoreExamples.uploaded_ids [1; 0]%nat BulkDownloadRuns.opened in
  (fst run = Py.Returns tt /\
   Permutation
     (BulkDownload.result_csv (snd run))
     (BulkDownloadRuns.expected_rows
        MoreExamples.finds MoreExamples.waits MoreExamples.saves 60 "/out" 0
        (filter BulkDownloadRuns.pending MoreExamples.uploaded_ids)) /\
   BulkDownload.printed (snd run) = BulkDownload.result_csv (snd run)) /\
  BulkDownload.result_csv (snd run)
  = [["77C0"; "DOWNLOAD_ERROR"; "/data/c.pdf"];
     ["5A3F"; "DOWNLOAD_DONE"; "/data/a.pdf"]].
Proof.
  split; [|reflexivity].
  apply (bulk_download_one_row_per_pending_row
           MoreExamples.finds MoreExamples.waits MoreExamples.saves 60 "/out"
           2 MoreExamples.uploaded_ids [1; 0]%nat).
  - reflexivity.
  - repeat (constructor; [unfold BulkDownloadRuns.complete; simpl; lia|]).
    constructor.
  - apply perm_swap.
Defined.

(** X7 (witness).  The same input with a blank line at its end: the
    call raises and the two pending rows before it leave no trace. *)
Lemma bulk_download_short_row_raises_witness :
  BulkDownload.bulk_download_analytics
    MoreExamples.finds MoreExamples.waits MoreExamples.saves
    2 60 "/out" MoreExamples.blank_line [1; 0]%nat BulkDownloadRuns.opened
  = (Py.Raises BulkDownload.IndexError, BulkDownloadRuns.opened).
Proof.
  apply (bulk_download_short_row_raises
           MoreExamples.finds MoreExamples.waits MoreExamples.saves 60 "/out"
           2 MoreExamples.blank_line [1; 0]%nat BulkDownloadRuns.opened).
  - reflexivity.
  - unfold MoreExamples.blank_line. apply Exists_app. right.
    constructor. simpl. lia.
Defined.

(** X8 (witness).  Of three uploads one succeeded; the download asks
    for that file alone. *)
Lemma bulk_download_after_bulk_upload_witness :
  let uploaded :=
    BatchUpload.result_csv
      (snd (BatchUpload.bulk_upload_files
              Examples.three_workers 2 Examples.upload_list [2; 0; 1]%nat
              Spec.opened)) in
  let run :=
    BulkDownload.bulk_download_analytics
      MoreExamples.finds MoreExamples.waits MoreExamples.saves
      2 60 "/out" uploaded [0]%nat BulkDownloadRuns.opened in
  (fst run = Py.Returns tt /\
   Permutation
     (BulkDownload.result_csv (snd run))
     (BulkDownloadRuns.expected_rows
        MoreExamples.finds MoreExamples.waits MoreExamples.saves 60 "/out" 0
        (filter (BulkDownloadRuns.has_status Batch.UPLOAD_DONE) uploaded))) /\
  BulkDownload.result_csv (snd run)
  = [["5A3F"; "DOWNLOAD_DONE"; "/data/a.pdf"]].
Proof.
  split; [|reflexivity].
  apply (bulk_download_after_bulk_upload
           MoreExamples.finds MoreExamples.waits MoreExamples.saves 60 "/out"
           Examples.three_workers 2 Examples.upload_list [2; 0; 1]%nat
           2 [0]%nat).
  - reflexivity.
  - apply Permutation_refl.
Defined.

(** X9 (witness).  A second run over the result of the first retries
    the one file that failed, and downloads it. *)
Lemma bulk_download_again_retries_failures_witness :
  let first :=
    BulkDownload.result_csv
      (snd (BulkDownload.bulk_download_analytics
              MoreExamples.finds MoreExamples.waits MoreExamples.saves
              2 60 "/out" MoreExamples.uploaded_ids [1; 0]%nat
              BulkDownloadRuns.opened)) in
  let run :=
    BulkDownload.bulk_download_analytics
      MoreExamples.finds_all MoreExamples.waits_none MoreExamples.saves
      4 90 "/out" first [0]%nat BulkDownloadRuns.opened in
  (fst run = Py.Returns tt /\
   Permutation
     (BulkDownload.result_csv (snd run))
     (BulkDownloadRuns.expected_rows
        MoreExamples.finds_all MoreExamples.waits_none MoreExamples.saves
        90 "/out" 0
        (filter (BulkDownloadRuns.has_status Batch.DOWNLOAD_ERROR) first))) /\
  BulkDownload.result_csv (snd run)
  = [["77C0"; "DOWNLOAD_DONE"; "/data/c.pdf"]].
Proof.
  split; [|reflexivity].
  apply (bulk_download_again_retries_failures
           MoreExamples.finds MoreExamples.finds_all
           MoreExamples.waits MoreExamples.waits_none
           MoreExamples.saves MoreExamples.saves
           60 90 "/out" "/out"
           2 MoreExamples.uploaded_ids [1; 0]%nat 4 [0]%nat).
  - reflexivity.
  - repeat (constructor; [unfold BulkDownloadRuns.complete; simpl; lia|]).
    constructor.
  - reflexivity.
  - apply Permutation_refl.
Defined.

(* ===================================================================== *)
(** * Properties of configuration.py *)
(* ===================================================================== *)

Section ConfigurationFacts.
Import Py Configuration ConfigurationRuns.

(** The loop over the fields collects the entries given for the names
    it visits, and keeps the others. *)
Lemma collect_lookup (configurable : dict) (names : list string) :
  forall (values : dict) (name : string),
    dict_get (collect configurable names values) name
    = if str_in_list name names
      then match given configurable name with
           | Some v => Some v
           | None => dict_get values name
           end
      else dict_get values name.
Proof.
  unfold str_in_list.
  induction names as [|n rest IH]; intros values name; simpl; [reflexivity|].
  assert (Hn : dict_get
                 match dict_get configurable n with
                 | None | Some VNone => collect configurable rest values
                 | Some v => collect configurable rest (dict_set values n v)
                 end name
               = dict_get
                   (collect configurable rest
                            match given configurable n with
                            | Some v => dict_set values n v
                            | None => values
                            end) name).
  { unfold given. now destruct (dict_get configurable n) as [[]|]. }
  rewrite Hn, IH. clear Hn IH.
  destruct (String.eqb_spec name n) as [->|Hne]; simpl.
  - destruct (given configurable n) as [v|]; rewrite ?dict_get_set, ?String.eqb_refl;
      now destruct (existsb (String.eqb n) rest).
  - destruct (given configurable n) as [v|]; rewrite ?dict_get_set;
      try (destruct (String.eqb_spec n name); [congruence|]); reflexivity.
Qed.

(** A keyword argument of the call that builds the instance. *)
Lemma keyword_collect (configurable : dict) (name : string) (default : value) :
  str_in_list name fields = true ->
  keyword (collect configurable fields []) name default
  = match given configurable name with
    | Some v => v
    | None => default
    end.
Proof.
  intros H. unfold keyword. rewrite collect_lookup, H.
  now destruct (given configurable name).
Qed.

Lemma given_not_None (d : dict) (name : string) : given d name <> Some VNone.
Proof.
  unfold given. now destruct (dict_get d name) as [[]|].
Qed.

(** X16.  The instance that [from_runnable_config] builds holds, for
    each field, the entry of that name of [config["configurable"]] when
    there is one and it is not [None], and otherwise the default of the
    field, [default_tool_types] defaulting to the list of the news,
    transcripts and filings tools; whatever else the dictionary holds
    is not read.  So an entry [None] never overrides a default: a field
    whose default is not [None] is never [None]. *)
Theorem from_runnable_config_attributes
        (config : option RunnableConfig) (name : string) :
  let self := from_runnable_config config in
  In name fields ->
  attribute self name
  = Some match given (configurable_of config) name with
         | Some v => v
         | None => keyword defaults name VNone
         end /\
  (keyword defaults name VNone <> VNone -> attribute self name <> Some VNone).
Proof.
  intros self Hname.
  assert (A : attribute self name
              = Some match given (configurable_of config) name with
                     | Some v => v
                     | None => keyword defaults name VNone
                     end).
  { subst self. unfold from_runnable_config.
    fold (configurable_of config).
    set (values := collect (configurable_of config) fields []).
    assert (K : forall n default,
               str_in_list n fields = true ->
               keyword values n default
               = match given (configurable_of config) n with
                 | Some v => v
                 | None => default
                 end).
    { intros n default H. now apply keyword_collect. }
    clearbody values. unfold __init__, __post_init__.
    cbn [default_tool_types].
    pose proof (given_not_None (configurable_of config) "default_tool_types") as G.
    pose proof (K "default_tool_types" VNone eq_refl) as Kt.
    simpl in Hname.
    repeat (destruct Hname as [<-|Hname];
            [destruct (keyword values "default_tool_types" VNone) eqn:E;
             cbn; rewrite ?K by reflexivity; try reflexivity;
             try (rewrite <- Kt; reflexivity);
             destruct (given (configurable_of config) "default_tool_types");
             congruence|]).
    contradiction. }
  split; [exact A|].
  intros Hd. rewrite A. intros H. inversion H as [H'].
  destruct (given (configurable_of config) name) as [v|] eqn:G.
  - subst v. now apply (given_not_None _ _ G).
  - contradiction.
Qed.

End ConfigurationFacts.

(** X16 (witness).  A configuration that sets the number of results,
    and sets the threshold to [None]: the first is taken, the second is
    the default. *)
Lemma from_runnable_config_attributes_witness :
  let config :=
    Some {| Configuration.configurable :=
              Some [("thread_id", Py.VStr "7");
                    ("max_results_per_strategy", Py.VInt 10);
                    ("bigdata_rerank_threshold", Py.VNone)] |} in
  let self := Configuration.from_runnable_config config in
  (ConfigurationRuns.attribute self "bigdata_rerank_threshold"
   = Some match ConfigurationRuns.given (ConfigurationRuns.configurable_of config)
                                        "bigdata_rerank_threshold" with
          | Some v => v
          | None =>
              Configuration.keyword ConfigurationRuns.defaults
                                    "bigdata_rerank_threshold" Py.VNone
          end /\
   (Configuration.keyword ConfigurationRuns.defaults
                          "bigdata_rerank_threshold" Py.VNone <> Py.VNone ->
    ConfigurationRuns.attribute self "bigdata_rerank_threshold"
    <> Some Py.VNone)) /\
  Configuration.bigdata_rerank_threshold self
  = Py.VFloat Configuration.one_tenth /\
  Configuration.max_results_per_strategy self = Py.VInt 10.
Proof.
  split; [|split; reflexivity].
  apply (from_runnable_config_attributes
           (Some {| Configuration.configurable :=
                      Some [("thread_id", Py.VStr "7");
                            ("max_results_per_strategy", Py.VInt 10);
                            ("bigdata_rerank_threshold", Py.VNone)] |})
           "bigdata_rerank_threshold").
  simpl. tauto.
Defined.

(* ===================================================================== *)
(** * Properties of the nodes of graph.py *)
(* ===================================================================== *)

(** A dictionary written to the stream, as a step of a run. *)
Ltac step_writer :=
  match goal with
  | |- context [Py.bind (Workflow.writer ?type) ?k ?w] =>
      change (Py.bind (Workflow.writer type) k w)
        with (k tt (Workflow.write_stream type w));
      cbv beta
  end.

Section ExecuteFacts.
Import Py PyNotations Graph Configuration Workflow WorkflowRuns.

Variable float_of_str : string -> option float.
Variable ainvoke : nat -> string -> dict -> outcome value.
Variable elapsed : nat -> float.

Local Abbreviation cleaning strategy :=
  (_clean_tool_parameters float_of_str (parameters strategy) (tool_type strategy)).
Local Abbreviation node state config :=
  (execute_search_strategy float_of_str ainvoke elapsed state config).

(** The cleaned parameters are a dictionary: no key twice. *)
Lemma clean_loop_NoDup (items : dict) :
  forall cleaned cleaned',
    clean_loop float_of_str items cleaned = Returns cleaned' ->
    NoDup (keys cleaned) -> NoDup (keys cleaned').
Proof.
  induction items as [|[key v] rest IH]; intros cleaned cleaned' H Hnd; simpl in H.
  - now inversion H; subst.
  - destruct (clean_item float_of_str cleaned key v) as [c|e] eqn:E;
      [|discriminate].
    apply (IH c cleaned' H).
    destruct (clean_item_shape float_of_str _ _ _ _ E)
      as [->|(_ & v' & _ & ->)]; [exact Hnd|].
    now apply dict_set_NoDup.
Qed.

Lemma cleaned_NoDup (strategy : SearchStrategy) (cleaned : dict) :
  cleaning strategy = Returns cleaned -> NoDup (keys cleaned).
Proof.
  intros H. apply (clean_loop_NoDup _ _ _ H). constructor.
Qed.

Lemma only_streams_ret {A} (a : A) : only_streams (ret a) a.
Proof.
  intros w. exists w. auto.
Qed.

Lemma only_streams_writer {A} (type : string) (c : M world A) (a : A) :
  only_streams c a -> only_streams (writer type ;;; c) a.
Proof.
  intros H w. destruct (H (write_stream type w)) as (w' & E & Hi & Ho).
  exists w'. unfold bind, writer, modify. rewrite E. auto.
Qed.

Lemma only_streams_bind {A B} (c : M world A) (k : A -> M world B)
      (a : A) (b : B) :
  only_streams c a -> only_streams (k a) b -> only_streams (bind c k) b.
Proof.
  intros Hc Hk w. destruct (Hc w) as (w1 & E1 & Hi1 & Ho1).
  destruct (Hk w1) as (w2 & E2 & Hi2 & Ho2).
  exists w2. unfold bind. rewrite E1, E2. split; [reflexivity|].
  split; congruence.
Qed.

Lemma add_global_parameters_streams (state : SearchStrategyState)
      (configurable : BigdataSearchConfiguration) (tool_params : dict) :
  only_streams (add_global_parameters (Graph.strategy state)
                                      (Graph.entity_ids state)
                                      (Graph.global_date_range state)
                                      configurable tool_params)
               (global_parameters state configurable tool_params).
Proof.
  unfold add_global_parameters, global_parameters. cbv zeta.
  destruct (negb (String.eqb _ _)); [|apply only_streams_ret].
  apply (only_streams_bind _ _ (with_entity_ids state tool_params)).
  { unfold with_entity_ids.
    destruct (Graph.entity_ids state) as [[|entity_id others]|];
      try apply only_streams_writer; apply only_streams_ret. }
  apply (only_streams_bind
           _ _ (with_date_range state (with_entity_ids state tool_params))).
  { unfold with_date_range. destruct (negb (Utils.falsy _));
      try apply only_streams_writer; apply only_streams_ret. }
  unfold with_rerank_threshold.
  destruct (_ && _); try apply only_streams_writer; apply only_streams_ret.
Qed.

Lemma knowledge_graph_parameters_streams (strategy : SearchStrategy)
      (tool_params : dict) :
  only_streams (knowledge_graph_parameters strategy tool_params)
               (graph_parameters strategy tool_params).
Proof.
  unfold knowledge_graph_parameters, graph_parameters, with_default.
  destruct (String.eqb _ _);
    try apply only_streams_writer; apply only_streams_ret.
Qed.

(** The two steps that prepare the parameters return on every world,
    the same dictionary, and invoke nothing. *)
Lemma prepare_run (state : SearchStrategyState)
      (configurable : BigdataSearchConfiguration) (cleaned : dict) :
  let strategy := Graph.strategy state in
  let tool_params :=
    update [("queries", VList (map VStr (search_queries strategy)));
            ("max_results", max_results_per_strategy configurable)]
           cleaned in
  only_streams
    (tool_params <-
       add_global_parameters strategy (Graph.entity_ids state)
                             (Graph.global_date_range state)
                             configurable tool_params ;;
     knowledge_graph_parameters strategy tool_params)
    (prepared state configurable cleaned).
Proof.
  cbv zeta. unfold prepared.
  eapply only_streams_bind.
  - apply add_global_parameters_streams.
  - apply knowledge_graph_parameters_streams.
Qed.

Lemma bind_assoc {S A B C} (c : M S A) (k : A -> M S B) (h : B -> M S C) (s : S) :
  bind c (fun a => bind (k a) h) s = bind (bind c k) h s.
Proof.
  unfold bind. destruct (c s) as [[a|e] s']; reflexivity.
Qed.

Lemma bind_returns {S A B} (c : M S A) (k : A -> M S B) (a : A) (s s' : S) :
  c s = (Returns a, s') -> bind c k s = k a s'.
Proof.
  intros E. unfold bind. now rewrite E.
Qed.

(** What follows the preparation runs on the prepared parameters. *)
Lemma prepare_then {B} (rest : dict -> M world B) (state : SearchStrategyState)
      (configurable : BigdataSearchConfiguration) (cleaned : dict) (w : world) :
  let strategy := Graph.strategy state in
  let tool_params :=
    update [("queries", VList (map VStr (search_queries strategy)));
            ("max_results", max_results_per_strategy configurable)]
           cleaned in
  exists w',
    invocations w' = invocations w /\
    stdout w' = stdout w /\
    (tool_params <-
       add_global_parameters strategy (Graph.entity_ids state)
                             (Graph.global_date_range state)
                             configurable tool_params ;;
     tool_params <- knowledge_graph_parameters strategy tool_params ;;
     rest tool_params) w
    = rest (prepared state configurable cleaned) w'.
Proof.
  cbv zeta. destruct (prepare_run state configurable cleaned w) as (w' & E & Hi & Ho).
  exists w'. split; [exact Hi|]. split; [exact Ho|].
  rewrite bind_assoc. apply bind_returns. exact E.
Qed.

(** The [try] statement: one invocation, and a result either way. *)
Lemma try_invoke_run (strategy : SearchStrategy) (tool : string)
      (params : dict) (w : world) :
  let n := List.length (invocations w) in
  exists w',
    invocations w' = (invocations w ++ [(tool, params)])%list /\
    try_except (on_success ainvoke elapsed strategy tool params)
               (on_failure elapsed strategy params) w
    = (Returns
         match ainvoke n tool params with
         | Returns raw_results =>
             {| result_strategy := strategy;
                results := [[("raw_output", raw_results)]];
                metadata := success_metadata strategy params raw_results (elapsed n);
                quality_score := None |}
         | Raises e =>
             {| result_strategy := strategy;
                results := [];
                metadata := failure_metadata strategy params e (elapsed n);
                quality_score := None |}
         end, w') /\
    stdout w'
    = match ainvoke n tool params with
      | Returns _ => stdout w
      | Raises e =>
          (stdout w ++ [("Error executing search strategy "
                           ++ tool_type strategy ++ ": " ++ exn_str e)%string])%list
      end.
Proof.
  cbv zeta. unfold try_except, on_success, on_failure, invoke.
  unfold bind, gets, modify, lift, ret, writer, print.
  cbn [invocations record_invocation write_stream write_stdout stdout].
  destruct (ainvoke (List.length (invocations w)) tool params) as [raw|e].
  - destruct (0 <? result_length raw); eexists;
      refine (conj _ (conj eq_refl _)); reflexivity.
  - change (invocations (record_invocation tool params w))
      with (invocations w ++ [(tool, params)])%list.
    rewrite length_app, Nat.add_1_r. cbn [Nat.pred].
    destruct (str_in "rate limit" (lower (exn_str e)));
      [|destruct (str_in "authentication" (lower (exn_str e)));
        [|destruct (str_in "timeout" (lower (exn_str e)))]];
      eexists; refine (conj _ (conj eq_refl _)); reflexivity.
Qed.

(** A whole run of the node, once the tool is found and the parameters
    of the strategy are cleaned. *)
Lemma execute_run (state : SearchStrategyState) (config : option RunnableConfig)
      (w : world) (tool : string) (cleaned : dict) :
  let strategy := Graph.strategy state in
  let params := prepared state (from_runnable_config config) cleaned in
  let n := List.length (invocations w) in
  Utils.lookup tool_map (tool_type strategy) = Some tool ->
  cleaning strategy = Returns cleaned ->
  exists w',
    node state config w
    = (Returns
         [match ainvoke n tool params with
          | Returns raw_results =>
              {| result_strategy := strategy;
                 results := [[("raw_output", raw_results)]];
                 metadata :=
                   success_metadata strategy params raw_results (elapsed n);
                 quality_score := None |}
          | Raises e =>
              {| result_strategy := strategy;
                 results := [];
                 metadata := failure_metadata strategy params e (elapsed n);
                 quality_score := None |}
          end], w') /\
    invocations w' = (invocations w ++ [(tool, params)])%list /\
    stdout w'
    = match ainvoke n tool params with
      | Returns _ => stdout w
      | Raises e =>
          (stdout w ++ [("Error executing search strategy "
                           ++ tool_type strategy ++ ": " ++ exn_str e)%string])%list
      end.
Proof.
  intros strategy params n Htool Hclean.
  unfold execute_search_strategy. cbv zeta.
  do 2 step_writer. fold strategy. rewrite Htool.
  step_writer. rewrite Hclean.
  match goal with
  | |- context [bind (lift (Returns cleaned)) ?k ?w1] =>
      change (bind (lift (Returns cleaned)) k w1) with (k cleaned w1); cbv beta
  end.
  step_writer.
  match goal with
  | |- context [bind (add_global_parameters _ _ _ _ _)
                     (fun tp => bind (knowledge_graph_parameters _ tp) ?rest)
                     ?w1] =>
      destruct (prepare_then rest state (from_runnable_config config) cleaned w1)
        as (w2 & Hi & Ho & E)
  end.
  cbv zeta in E. fold strategy in E. rewrite E. fold params.
  do 3 step_writer.
  match goal with
  | |- context [bind (try_except _ _) _ ?w3] =>
      destruct (try_invoke_run strategy tool params w3) as (w4 & Hi4 & E4 & Ho4)
  end.
  cbv zeta in E4. exists w4.
  rewrite (bind_returns _ _ _ _ _ E4).
  cbn [invocations write_stream stdout] in Hi4, E4, Ho4 |- *.
  rewrite Hi in Hi4, Ho4 |- *. rewrite Ho in Ho4.
  cbn [invocations write_stream stdout] in Hi4, Ho4 |- *.
  split; [reflexivity|]. split; [exact Hi4|exact Ho4].
Qed.

(** Every type of [tool_map] has its tool, and no other type has one. *)
Lemma lookup_tool_map (t : string) :
  match Utils.lookup tool_map t with
  | Some _ => In t tool_types
  | None => ~ In t tool_types
  end.
Proof.
  unfold tool_map, tool_types. cbn [Utils.lookup map fst].
  repeat match goal with
         | |- context [String.eqb ?s t] =>
             destruct (String.eqb_spec s t) as [<-|?]; [simpl; tauto|]
         end.
  simpl. tauto.
Qed.

(** The dictionary the node starts from, after the update with the
    cleaned parameters. *)
Lemma updated_lookup (strategy : SearchStrategy)
      (configurable : BigdataSearchConfiguration) (cleaned : dict) (k : string) :
  NoDup (keys cleaned) ->
  dict_get (update [("queries", VList (map VStr (search_queries strategy)));
                    ("max_results", max_results_per_strategy configurable)]
                   cleaned) k
  = or_else (dict_get cleaned k)
            (if String.eqb "queries" k
             then Some (VList (map VStr (search_queries strategy)))
             else if String.eqb "max_results" k
                  then Some (max_results_per_strategy configurable)
                  else None).
Proof.
  intros H. now rewrite dict_get_update.
Qed.

Lemma updated_NoDup (strategy : SearchStrategy)
      (configurable : BigdataSearchConfiguration) (cleaned : dict) :
  NoDup (keys (update [("queries", VList (map VStr (search_queries strategy)));
                       ("max_results", max_results_per_strategy configurable)]
                      cleaned)).
Proof.
  apply update_NoDup. repeat constructor; simpl; intuition discriminate.
Qed.

Lemma contains_get (d : dict) (k : string) :
  contains d k = match dict_get d k with Some _ => true | None => false end.
Proof.
  reflexivity.
Qed.

Lemma with_entity_ids_lookup (state : SearchStrategyState) (tool_params : dict)
      (k : string) :
  dict_get (with_entity_ids state tool_params) k
  = if String.eqb "entity_ids" k
    then or_else (some_entity_ids state) (dict_get tool_params k)
    else dict_get tool_params k.
Proof.
  unfold with_entity_ids, some_entity_ids.
  destruct (Graph.entity_ids state) as [[|entity_id others]|];
    rewrite ?dict_get_set; now destruct (String.eqb "entity_ids" k).
Qed.

Lemma with_date_range_lookup (state : SearchStrategyState) (tool_params : dict)
      (k : string) :
  dict_get (with_date_range state tool_params) k
  = if String.eqb "date_range" k
    then or_else (some_date_range state) (dict_get tool_params k)
    else dict_get tool_params k.
Proof.
  unfold with_date_range, some_date_range, Utils.falsy, Utils.getattr.
  destruct (Graph.global_date_range state) as [[|c date_range]|];
    [change (String.eqb "" "") with true
    |change (String.eqb (String c date_range) "") with false
    |];
    cbn [negb];
    rewrite ?dict_get_set; now destruct (String.eqb "date_range" k).
Qed.

Lemma with_rerank_threshold_lookup (strategy : SearchStrategy)
      (configurable : BigdataSearchConfiguration) (tool_params : dict)
      (k : string) :
  dict_get (with_rerank_threshold strategy configurable tool_params) k
  = if String.eqb "rerank_threshold" k
    then or_else (dict_get tool_params k)
                 (if str_in_list (tool_type strategy) ["news"; "universal"]
                  then Some (bigdata_rerank_threshold configurable)
                  else None)
    else dict_get tool_params k.
Proof.
  unfold with_rerank_threshold, contains.
  destruct (dict_get tool_params "rerank_threshold") as [v|] eqn:E;
    cbn [negb andb];
    [|destruct (str_in_list (tool_type strategy) ["news"; "universal"])];
    rewrite ?dict_get_set;
    (destruct (String.eqb_spec "rerank_threshold" k) as [<-|?];
     [now rewrite E|reflexivity]).
Qed.

Lemma with_default_lookup (tool_params : dict) (name : string) (v : value)
      (k : string) :
  dict_get (with_default tool_params name v) k
  = if String.eqb name k
    then Some (get tool_params name v)
    else dict_get tool_params k.
Proof.
  unfold with_default, contains, get.
  destruct (dict_get tool_params name) as [v'|] eqn:E;
    rewrite ?dict_get_set;
    (destruct (String.eqb_spec name k) as [<-|?];
     [now rewrite ?E|reflexivity]).
Qed.

Lemma with_default_NoDup (tool_params : dict) (name : string) (v : value) :
  NoDup (keys tool_params) -> NoDup (keys (with_default tool_params name v)).
Proof.
  unfold with_default. destruct (contains tool_params name); [auto|].
  apply dict_set_NoDup.
Qed.

Lemma known_tool (t : string) :
  In t tool_types -> exists tool, Utils.lookup tool_map t = Some tool.
Proof.
  intros H. pose proof (lookup_tool_map t) as L.
  destruct (Utils.lookup tool_map t) as [tool|]; [now exists tool|contradiction].
Qed.

(** X10.  [execute_search_strategy] raises in two cases only, and in
    both before any tool is invoked and before anything is printed:
    when the type of the strategy is none of the five that have a tool
    ([ValueError], "Unknown tool type: ..."), and when
    [_clean_tool_parameters] raises on the parameters of the strategy
    (the exception of the conversion, which no [try] surrounds). *)
Theorem execute_search_strategy_raises_before_invoking
        (state : SearchStrategyState) (config : option RunnableConfig)
        (w : world) (e : exn) :
  let strategy := Graph.strategy state in
  let run := node state config w in
  (fst run = Raises e <->
   (~ In (tool_type strategy) tool_types /\
    e = Exn ValueError ("Unknown tool type: " ++ tool_type strategy)) \/
   (In (tool_type strategy) tool_types /\ cleaning strategy = Raises e)) /\
  (fst run = Raises e ->
   invocations (snd run) = invocations w /\ stdout (snd run) = stdout w).
Proof.
  cbv zeta.
  pose proof (lookup_tool_map (tool_type (Graph.strategy state))) as L.
  destruct (Utils.lookup tool_map (tool_type (Graph.strategy state)))
    as [tool|] eqn:Htool.
  - destruct (cleaning (Graph.strategy state)) as [cleaned|e'] eqn:Hclean.
    + destruct (execute_run state config w tool cleaned Htool Hclean)
        as (w' & E & _).
      rewrite E. simpl. split; [|discriminate].
      split; [discriminate|]. intros [(H & _)|(_ & H)];
        [contradiction|discriminate].
    + assert (E : node state config w
                  = (Raises e',
                     write_stream "parameter_prep"
                       (write_stream "tool_selection"
                          (write_stream "search_start" w)))).
      { unfold execute_search_strategy. cbv zeta.
        do 2 step_writer. rewrite Htool. step_writer. rewrite Hclean.
        reflexivity. }
      rewrite E. simpl. split; [|auto]. split.
      * intros H. right. split; [exact L|]. congruence.
      * intros [(H & _)|(_ & H)]; [contradiction|congruence].
  - assert (E : node state config w
                = (Raises (Exn ValueError
                               ("Unknown tool type: "
                                  ++ tool_type (Graph.strategy state))),
                   write_stream "error"
                     (write_stream "tool_selection"
                        (write_stream "search_start" w)))).
    { unfold execute_search_strategy. cbv zeta.
      do 2 step_writer. rewrite Htool. step_writer. reflexivity. }
    rewrite E. simpl. split; [|auto]. split.
    + intros H. left. split; [exact L|]. congruence.
    + intros [(_ & ->)|(H & _)]; [reflexivity|contradiction].
Qed.

(** X11.  Once the tool of the strategy is found and its parameters are
    cleaned, the node returns whatever the tool does: it invokes the
    tool once and returns exactly one [SearchResult] for the strategy.
    When the tool returns, the result holds the raw output, the flag
    [success] is [True] and [content_length] is the length of the output
    when it is a string, else 0; when the tool raises, the result has no
    results, [success] is [False], [error] is [str(e)], and a line is
    printed.  The metadata record the parameters the tool was given. *)
Theorem execute_search_strategy_records_the_outcome
        (state : SearchStrategyState) (config : option RunnableConfig)
        (w : world) (cleaned : dict) :
  let strategy := Graph.strategy state in
  let run := node state config w in
  In (tool_type strategy) tool_types ->
  cleaning strategy = Returns cleaned ->
  exists tool params search_result,
    Utils.lookup tool_map (tool_type strategy) = Some tool /\
    fst run = Returns [search_result] /\
    invocations (snd run) = (invocations w ++ [(tool, params)])%list /\
    result_strategy search_result = strategy /\
    dict_get (metadata search_result) "parameters_used" = Some (VDict params) /\
    match ainvoke (List.length (invocations w)) tool params with
    | Returns raw_results =>
        results search_result = [[("raw_output", raw_results)]] /\
        dict_get (metadata search_result) "success" = Some (VBool true) /\
        dict_get (metadata search_result) "content_length"
        = Some (VInt (result_length raw_results)) /\
        stdout (snd run) = stdout w
    | Raises e =>
        results search_result = [] /\
        dict_get (metadata search_result) "success" = Some (VBool false) /\
        dict_get (metadata search_result) "error" = Some (VStr (exn_str e)) /\
        stdout (snd run)
        = (stdout w ++ [("Error executing search strategy "
                           ++ tool_type strategy ++ ": " ++ exn_str e)%string])%list
    end.
Proof.
  intros strategy run Hknown Hclean.
  destruct (known_tool _ Hknown) as (tool & Htool).
  destruct (execute_run state config w tool cleaned Htool Hclean)
    as (w' & E & Hi & Ho).
  fold strategy in E, Hi, Ho. subst run. rewrite E. simpl fst. simpl snd.
  exists tool, (prepared state (from_runnable_config config) cleaned).
  eexists. split; [exact Htool|]. split; [reflexivity|].
  split; [exact Hi|].
  destruct (ainvoke (List.length (invocations w)) tool
                    (prepared state (from_runnable_config config) cleaned));
    repeat split; try reflexivity; exact Ho.
Qed.

(** X12.  What a search tool is invoked with.  The queries and
    [max_results] are those of the strategy: the cleaned parameters of
    the strategy win over [strategy.search_queries] and over
    [max_results_per_strategy] of the configuration.  The entity ids
    and the date range of the state, when there are some, win over
    those of the strategy.  The news and universal tools always get a
    [rerank_threshold], that of the configuration unless the strategy
    has one; the transcripts and filings tools get one only from the
    strategy.  Every other parameter is that of the cleaned
    parameters. *)
Theorem search_tool_parameters
        (state : SearchStrategyState) (config : option RunnableConfig)
        (w : world) (cleaned : dict) :
  let strategy := Graph.strategy state in
  let configurable := from_runnable_config config in
  In (tool_type strategy) search_tool_types ->
  cleaning strategy = Returns cleaned ->
  exists tool params,
    invocations (snd (node state config w))
    = (invocations w ++ [(tool, params)])%list /\
    dict_get params "queries"
    = Some (get cleaned "queries" (VList (map VStr (search_queries strategy)))) /\
    dict_get params "max_results"
    = Some (get cleaned "max_results" (max_results_per_strategy configurable)) /\
    dict_get params "entity_ids"
    = or_else (some_entity_ids state) (dict_get cleaned "entity_ids") /\
    dict_get params "date_range"
    = or_else (some_date_range state) (dict_get cleaned "date_range") /\
    dict_get params "rerank_threshold"
    = (if str_in_list (tool_type strategy) ["news"; "universal"]
       then Some (get cleaned "rerank_threshold"
                      (bigdata_rerank_threshold configurable))
       else dict_get cleaned "rerank_threshold") /\
    forall k,
      ~ In k ["queries"; "max_results"; "entity_ids"; "date_range";
              "rerank_threshold"] ->
      dict_get params k = dict_get cleaned k.
Proof.
  intros strategy configurable Htype Hclean.
  assert (Hknown : In (tool_type strategy) tool_types).
  { unfold search_tool_types in Htype. unfold tool_types, tool_map.
    simpl in *. tauto. }
  assert (Hkg : String.eqb (tool_type strategy) "knowledge_graph" = false).
  { apply String.eqb_neq. intros E. rewrite E in Htype.
    unfold search_tool_types in Htype. simpl in Htype.
    intuition discriminate. }
  destruct (known_tool _ Hknown) as (tool & Htool).
  destruct (execute_run state config w tool cleaned Htool Hclean)
    as (w' & E & Hi & _).
  rewrite E. simpl snd. exists tool, (prepared state configurable cleaned).
  split; [exact Hi|].
  pose proof (cleaned_NoDup _ _ Hclean) as Hnd.
  assert (L : forall k,
             dict_get (prepared state configurable cleaned) k
             = if String.eqb "rerank_threshold" k
               then or_else
                      (dict_get cleaned k)
                      (if str_in_list (tool_type strategy) ["news"; "universal"]
                       then Some (bigdata_rerank_threshold configurable)
                       else None)
               else if String.eqb "date_range" k
                    then or_else (some_date_range state) (dict_get cleaned k)
                    else if String.eqb "entity_ids" k
                         then or_else (some_entity_ids state) (dict_get cleaned k)
                         else or_else
                                (dict_get cleaned k)
                                (if String.eqb "queries" k
                                 then Some (VList (map VStr (search_queries strategy)))
                                 else if String.eqb "max_results" k
                                      then Some (max_results_per_strategy configurable)
                                      else None)).
  { intros k. unfold prepared, graph_parameters, global_parameters.
    fold strategy. rewrite Hkg. cbv beta iota zeta delta [negb].
    rewrite with_rerank_threshold_lookup, with_date_range_lookup,
      with_entity_ids_lookup, (updated_lookup _ _ _ _ Hnd).
    destruct (String.eqb_spec "rerank_threshold" k) as [<-|?].
    { simpl. now destruct (dict_get cleaned "rerank_threshold"). }
    destruct (String.eqb_spec "date_range" k) as [<-|?].
    { simpl. now destruct (dict_get cleaned "date_range"). }
    destruct (String.eqb_spec "entity_ids" k) as [<-|?]; [|reflexivity].
    simpl. now destruct (dict_get cleaned "entity_ids"). }
  unfold get. repeat split.
  - rewrite L. cbn. now destruct (dict_get cleaned "queries").
  - rewrite L. cbn. now destruct (dict_get cleaned "max_results").
  - rewrite L. reflexivity.
  - rewrite L. reflexivity.
  - rewrite L. cbn [String.eqb Ascii.eqb Bool.eqb].
    destruct (str_in_list (tool_type strategy) ["news"; "universal"]);
      now destruct (dict_get cleaned "rerank_threshold").
  - intros k Hk. rewrite L. simpl in Hk.
    repeat match goal with
           | |- context [String.eqb ?s k] =>
               destruct (String.eqb_spec s k) as [<-|?]; [tauto|]
           end.
    now destruct (dict_get cleaned k).
Qed.

(** X13.  What the knowledge-graph tool is invoked with: never the
    queries; a [search_type] and a [search_term] always, those of the
    strategy or else ["companies"] and the first query of the strategy
    (the empty string when it has none); [max_results] as for the search
    tools.  Every other parameter is that of the cleaned parameters: the
    entity ids and the date range of the state are not passed on. *)
Theorem knowledge_graph_tool_parameters
        (state : SearchStrategyState) (config : option RunnableConfig)
        (w : world) (cleaned : dict) :
  let strategy := Graph.strategy state in
  let configurable := from_runnable_config config in
  tool_type strategy = "knowledge_graph" ->
  cleaning strategy = Returns cleaned ->
  exists params,
    invocations (snd (node state config w))
    = (invocations w ++ [("bigdata_knowledge_graph", params)])%list /\
    dict_get params "queries" = None /\
    dict_get params "search_type"
    = Some (get cleaned "search_type" (VStr "companies")) /\
    dict_get params "search_term"
    = Some (get cleaned "search_term" (VStr (hd "" (search_queries strategy)))) /\
    dict_get params "max_results"
    = Some (get cleaned "max_results" (max_results_per_strategy configurable)) /\
    forall k,
      ~ In k ["queries"; "search_type"; "search_term"; "max_results"] ->
      dict_get params k = dict_get cleaned k.
Proof.
  intros strategy configurable Htype Hclean.
  assert (Htool : Utils.lookup tool_map (tool_type strategy)
                  = Some "bigdata_knowledge_graph").
  { now rewrite Htype. }
  destruct (execute_run state config w _ cleaned Htool Hclean)
    as (w' & E & Hi & _).
  rewrite E. simpl snd. exists (prepared state configurable cleaned).
  split; [exact Hi|].
  pose proof (cleaned_NoDup _ _ Hclean) as Hnd.
  assert (L : forall k,
             dict_get (prepared state configurable cleaned) k
             = if String.eqb "queries" k then None
               else if String.eqb "search_term" k
                    then Some (get cleaned "search_term"
                                   (VStr (hd "" (search_queries strategy))))
                    else if String.eqb "search_type" k
                         then Some (get cleaned "search_type" (VStr "companies"))
                         else or_else
                                (dict_get cleaned k)
                                (if String.eqb "max_results" k
                                 then Some (max_results_per_strategy configurable)
                                 else None)).
  { intros k. unfold prepared, graph_parameters, global_parameters.
    fold strategy. rewrite Htype.
    change (String.eqb "knowledge_graph" "knowledge_graph") with true.
    cbv beta iota zeta delta [negb].
    rewrite dict_get_pop
      by (do 2 apply with_default_NoDup; apply updated_NoDup).
    rewrite !with_default_lookup. unfold get.
    rewrite !with_default_lookup, !(updated_lookup _ _ _ _ Hnd).
    change (String.eqb "search_type" "search_term") with false.
    change (String.eqb "queries" "search_term") with false.
    change (String.eqb "max_results" "search_term") with false.
    change (String.eqb "queries" "search_type") with false.
    change (String.eqb "max_results" "search_type") with false.
    cbv beta iota.
    destruct (String.eqb_spec "queries" k) as [<-|?]; [reflexivity|].
    destruct (String.eqb_spec "search_term" k) as [<-|?].
    { now destruct (dict_get cleaned "search_term"). }
    destruct (String.eqb_spec "search_type" k) as [<-|?].
    { now destruct (dict_get cleaned "search_type"). }
    reflexivity. }
  unfold get in *. repeat split.
  - now rewrite L.
  - now rewrite L.
  - now rewrite L.
  - rewrite L. cbn. now destruct (dict_get cleaned "max_results").
  - intros k Hk. rewrite L. simpl in Hk.
    repeat match goal with
           | |- context [String.eqb ?s k] =>
               destruct (String.eqb_spec s k) as [<-|?]; [tauto|]
           end.
    now destruct (dict_get cleaned k).
Qed.

End ExecuteFacts.

(** X11 (witness).  The knowledge-graph tool is rate-limited: the node
    returns a result that records the failure. *)
Lemma execute_search_strategy_records_the_outcome_witness :
  let run :=
    Workflow.execute_search_strategy
      Examples.no_float MoreExamples.news_only MoreExamples.two_seconds
      MoreExamples.graph_state None WorkflowRuns.quiet in
  (exists tool params search_result,
      Utils.lookup Workflow.tool_map "knowledge_graph" = Some tool /\
      fst run = Py.Returns [search_result] /\
      Workflow.invocations (snd run) = [(tool, params)] /\
      Graph.result_strategy search_result = MoreExamples.graph_strategy /\
      Py.dict_get (Graph.metadata search_result) "parameters_used"
      = Some (Py.VDict params) /\
      match MoreExamples.news_only 0 tool params with
      | Py.Returns raw_results =>
          Graph.results search_result = [[("raw_output", raw_results)]] /\
          Py.dict_get (Graph.metadata search_result) "success"
          = Some (Py.VBool true) /\
          Py.dict_get (Graph.metadata search_result) "content_length"
          = Some (Py.VInt (Workflow.result_length raw_results)) /\
          Workflow.stdout (snd run) = []
      | Py.Raises e =>
          Graph.results search_result = [] /\
          Py.dict_get (Graph.metadata search_result) "success"
          = Some (Py.VBool false) /\
          Py.dict_get (Graph.metadata search_result) "error"
          = Some (Py.VStr (Py.exn_str e)) /\
          Workflow.stdout (snd run)
          = [("Error executing search strategy " ++ "knowledge_graph" ++ ": "
                ++ Py.exn_str e)%string]
      end) /\
  Workflow.stdout (snd run)
  = ["Error executing search strategy knowledge_graph: 429 too many requests"].
Proof.
  split; [|reflexivity].
  apply (execute_search_strategy_records_the_outcome
           Examples.no_float MoreExamples.news_only MoreExamples.two_seconds
           MoreExamples.graph_state None WorkflowRuns.quiet
           [("search_type", Py.VStr "sources")]).
  - simpl. tauto.
  - reflexivity.
Defined.

(** X12 (witness).  The news tool gets the queries of the strategy, its
    own limit of 25 results rather than the 30 of the configuration, the
    entity and the date range of the state, and the threshold of the
    configuration. *)
Lemma search_tool_parameters_witness :
  let run :=
    Workflow.execute_search_strategy
      Examples.no_float MoreExamples.news_only MoreExamples.two_seconds
      MoreExamples.news_state None WorkflowRuns.quiet in
  (exists tool params,
      Workflow.invocations (snd run) = [(tool, params)] /\
      Py.dict_get params "queries"
      = Some (Workflow.get Examples.cleaned_parameters "queries"
                           (Py.VList (map Py.VStr Examples.three_queries))) /\
      Py.dict_get params "max_results"
      = Some (Workflow.get Examples.cleaned_parameters "max_results"
                           (Configuration.max_results_per_strategy
                              (Configuration.from_runnable_config None))) /\
      Py.dict_get params "entity_ids"
      = WorkflowRuns.or_else
          (WorkflowRuns.some_entity_ids MoreExamples.news_state)
          (Py.dict_get Examples.cleaned_parameters "entity_ids") /\
      Py.dict_get params "date_range"
      = WorkflowRuns.or_else
          (WorkflowRuns.some_date_range MoreExamples.news_state)
          (Py.dict_get Examples.cleaned_parameters "date_range") /\
      Py.dict_get params "rerank_threshold"
      = (if Py.str_in_list "news" ["news"; "universal"]
         then Some (Workflow.get Examples.cleaned_parameters "rerank_threshold"
                                 (Configuration.bigdata_rerank_threshold
                                    (Configuration.from_runnable_config None)))
         else Py.dict_get Examples.cleaned_parameters "rerank_threshold") /\
      forall k,
        ~ In k ["queries"; "max_results"; "entity_ids"; "date_range";
                "rerank_threshold"] ->
        Py.dict_get params k = Py.dict_get Examples.cleaned_parameters k) /\
  Workflow.invocations (snd run)
  = [("bigdata_news_search",
      [("queries", Py.VList [Py.VStr "tesla"; Py.VStr "nvidia"; Py.VStr "apple"]);
       ("max_results", Py.VInt 25);
       ("sources", Py.VList [Py.VStr "reuters"]);
       ("fiscal_year", Py.VInt 2024);
       ("entity_ids", Py.VList [Py.VStr "4A6F00"]);
       ("date_range", Py.VStr "last_week");
       ("rerank_threshold", Py.VFloat Configuration.one_tenth)])].
Proof.
  split; [|reflexivity].
  apply (search_tool_parameters
           Examples.no_float MoreExamples.news_only MoreExamples.two_seconds
           MoreExamples.news_state None WorkflowRuns.quiet
           Examples.cleaned_parameters).
  - simpl. tauto.
  - reflexivity.
Defined.

(** X13 (witness).  The knowledge-graph tool gets the search type of
    the strategy and its first query as the term; the entity and the
    date range of the state are left out. *)
Lemma knowledge_graph_tool_parameters_witness :
  let run :=
    Workflow.execute_search_strategy
      Examples.no_float MoreExamples.news_only MoreExamples.two_seconds
      MoreExamples.graph_state None WorkflowRuns.quiet in
  (exists params,
      Workflow.invocations (snd run) = [("bigdata_knowledge_graph", params)] /\
      Py.dict_get params "queries" = None /\
      Py.dict_get params "search_type"
      = Some (Workflow.get [("search_type", Py.VStr "sources")] "search_type"
                           (Py.VStr "companies")) /\
      Py.dict_get params "search_term"
      = Some (Workflow.get [("search_type", Py.VStr "sources")] "search_term"
                           (Py.VStr (hd "" ["tesla"; "nvidia"]))) /\
      Py.dict_get params "max_results"
      = Some (Workflow.get [("search_type", Py.VStr "sources")] "max_results"
                           (Configuration.max_results_per_strategy
                              (Configuration.from_runnable_config None))) /\
      forall k,
        ~ In k ["queries"; "search_type"; "search_term"; "max_results"] ->
        Py.dict_get params k
        = Py.dict_get [("search_type", Py.VStr "sources")] k) /\
  Workflow.invocations (snd run)
  = [("bigdata_knowledge_graph",
      [("max_results", Py.VInt 30);
       ("search_type", Py.VStr "sources");
       ("search_term", Py.VStr "tesla")])].
Proof.
  split; [|reflexivity].
  apply (knowledge_graph_tool_parameters
           Examples.no_float MoreExamples.news_only MoreExamples.two_seconds
           MoreExamples.graph_state None WorkflowRuns.quiet
           [("search_type", Py.VStr "sources")]).
  - reflexivity.
  - reflexivity.
Defined.

Section GatherFacts.
Import Py PyNotations Graph Configuration Workflow WorkflowRuns.

Variable today : string.
Variable builtin_sum : list value -> outcome value.
Variable builtin_truediv : value -> Z -> outcome value.

Local Abbreviation gather completed_searches config :=
  (gather_search_results today builtin_sum builtin_truediv
                         completed_searches config).

Lemma bind_returned {S A B} (c : M S A) (k : A -> M S B) (s : S) (b : B) :
  fst (bind c k s) = Returns b ->
  exists a s', c s = (Returns a, s') /\ fst (k a s') = Returns b.
Proof.
  unfold bind. destruct (c s) as [[a|e] s']; simpl; [|discriminate].
  intros H. now exists a, s'.
Qed.

Ltac next H :=
  let a := fresh "a" in
  let w' := fresh "w" in
  let Hc := fresh "Hc" in
  apply bind_returned in H; destruct H as (a & w' & Hc & H); cbv beta in H.

(** Counting one more search of a type adds one to the count of that
    type and leaves the other counts. *)
Lemma count_tool_type_lookup (distribution : list (string * Z)) (t t' : string) :
  Utils.lookup (count_tool_type distribution t) t'
  = if String.eqb t t'
    then Some (match Utils.lookup distribution t with
               | Some n => n + 1
               | None => 1
               end)
    else Utils.lookup distribution t'.
Proof.
  induction distribution as [|[k n] rest IH]; simpl.
  - reflexivity.
  - destruct (String.eqb_spec k t) as [->|Hk]; simpl.
    + now destruct (String.eqb t t').
    + rewrite IH. destruct (String.eqb_spec k t') as [->|Hk'].
      * destruct (String.eqb_spec t t'); [congruence|reflexivity].
      * destruct (String.eqb_spec k t); [congruence|reflexivity].
Qed.

Lemma count_tool_type_total (distribution : list (string * Z)) (t : string) :
  fold_right Z.add 0 (map snd (count_tool_type distribution t))
  = fold_right Z.add 0 (map snd distribution) + 1.
Proof.
  induction distribution as [|[k n] rest IH]; simpl; [reflexivity|].
  destruct (String.eqb k t); simpl; lia.
Qed.

Lemma count_tool_type_keys (distribution : list (string * Z)) (t : string) :
  NoDup (map fst distribution) ->
  NoDup (map fst (count_tool_type distribution t)).
Proof.
  induction distribution as [|[k n] rest IH]; simpl; intros H.
  - repeat constructor. intros [].
  - inversion H as [|? ? Hnot Hrest]; subst.
    destruct (String.eqb_spec k t) as [->|Hk]; simpl; [exact H|].
    constructor; [|now apply IH].
    intros Hin. apply Hnot. clear - Hin Hk.
    induction rest as [|[k' n'] rest IH]; simpl in *.
    + destruct Hin as [E|[]]. congruence.
    + destruct (String.eqb k' t); simpl in *; tauto.
Qed.

Lemma distribution_fold (searches : list SearchResult) :
  forall (distribution : list (string * Z)) (t : string),
    Utils.lookup
      (fold_left (fun distribution search =>
                    count_tool_type distribution
                                    (tool_type (result_strategy search)))
                 searches distribution) t
    = match Utils.lookup distribution t with
      | Some n => Some (n + searches_of t searches)
      | None =>
          if searches_of t searches =? 0 then None
          else Some (searches_of t searches)
      end.
Proof.
  unfold searches_of.
  induction searches as [|s rest IH]; intros distribution t; simpl fold_left.
  - simpl. destruct (Utils.lookup distribution t); [f_equal; lia|reflexivity].
  - rewrite IH, count_tool_type_lookup. simpl filter.
    destruct (String.eqb_spec (tool_type (result_strategy s)) t) as [->|Ht].
    + simpl List.length.
      destruct (Utils.lookup distribution t); [f_equal; lia|].
      match goal with
      | |- context [?a =? 0] => destruct (Z.eqb_spec a 0); [lia|f_equal; lia]
      end.
    + destruct (Utils.lookup distribution t); reflexivity.
Qed.

Lemma distribution_total (searches : list SearchResult) :
  forall distribution : list (string * Z),
    fold_right Z.add 0
               (map snd
                    (fold_left (fun distribution search =>
                                  count_tool_type
                                    distribution
                                    (tool_type (result_strategy search)))
                               searches distribution))
    = fold_right Z.add 0 (map snd distribution) + Z.of_nat (List.length searches).
Proof.
  induction searches as [|s rest IH]; intros distribution; simpl fold_left.
  - simpl. lia.
  - rewrite IH, count_tool_type_total. simpl List.length. lia.
Qed.

Lemma distribution_keys (searches : list SearchResult) :
  forall distribution : list (string * Z),
    NoDup (map fst distribution) ->
    NoDup (map fst
               (fold_left (fun distribution search =>
                             count_tool_type
                               distribution
                               (tool_type (result_strategy search)))
                          searches distribution)).
Proof.
  induction searches as [|s rest IH]; intros distribution H; simpl; [exact H|].
  apply IH. now apply count_tool_type_keys.
Qed.

Lemma dict_get_counts (distribution : list (string * Z)) (t : string) :
  dict_get (map (fun item => (fst item, VInt (snd item))) distribution) t
  = option_map VInt (Utils.lookup distribution t).
Proof.
  induction distribution as [|[k n] rest IH]; simpl; [reflexivity|].
  now destruct (String.eqb k t).
Qed.

(** What [gather_search_results] returns, when it returns. *)
Lemma gather_returned
        (completed_searches : option (list SearchResult))
        (config : option RunnableConfig) (w : world) (source_metadata : dict) :
  let searches := Utils.getattr completed_searches [] in
  fst (gather completed_searches config w) = Returns source_metadata ->
  searches <> [] /\
  dict_get source_metadata "total_searches"
  = Some (VInt (Z.of_nat (List.length searches))) /\
  dict_get source_metadata "successful_searches"
  = Some (VInt (Z.of_nat (List.length (filter succeeded searches)))) /\
  dict_get source_metadata "search_timestamp" = Some (VStr today) /\
  (exists distribution,
      dict_get source_metadata "tool_type_distribution"
      = Some (VDict distribution) /\
      NoDup (keys distribution) /\
      (forall t,
          dict_get distribution t
          = if searches_of t searches =? 0 then None
            else Some (VInt (searches_of t searches))) /\
      fold_right Z.add 0 (map count_of distribution)
      = Z.of_nat (List.length searches)) /\
  (exists total_execution_time,
      builtin_sum (map (fun s => get (metadata s) "execution_time" (VInt 0))
                       searches)
      = Returns total_execution_time /\
      dict_get source_metadata "total_execution_time"
      = Some total_execution_time /\
      option_map Returns (dict_get source_metadata "average_execution_time")
      = Some (builtin_truediv total_execution_time
                              (Z.of_nat (List.length searches)))).
Proof.
  unfold gather_search_results. cbv zeta.
  set (searches := Utils.getattr completed_searches []).
  intros H.
  next H. next H.
  destruct searches as [|s rest] eqn:Es; [discriminate|]. rewrite <- Es in *.
  do 5 next H.
  assert (Hsum : builtin_sum
                   (map (fun s => get (metadata s) "execution_time" (VInt 0))
                        searches)
                 = Returns a5).
  { unfold lift in Hc5. now inversion Hc5. }
  next H.
  assert (Havg : builtin_truediv a5 (Z.of_nat (List.length searches))
                 = Returns a6).
  { rewrite Es in Hc6. unfold lift in Hc6. inversion Hc6. now rewrite Es. }
  do 8 next H.
  simpl in H. inversion H; subst source_metadata. clear H.
  split; [rewrite Es; discriminate|].
  repeat split.
  - exists (map (fun item => (fst item, VInt (snd item)))
                (tool_type_distribution searches)).
    split; [reflexivity|]. split; [|split].
    + unfold keys. rewrite map_map. simpl.
      apply distribution_keys. constructor.
    + intros t. rewrite dict_get_counts. unfold tool_type_distribution.
      rewrite distribution_fold. simpl.
      now destruct (searches_of t searches =? 0).
    + rewrite map_map.
      rewrite (map_ext (fun x : string * Z => count_of (fst x, VInt (snd x))) snd)
        by reflexivity.
      unfold tool_type_distribution.
      now rewrite (distribution_total searches []).
  - exists a5. split; [exact Hsum|]. split; [reflexivity|].
    simpl. now rewrite Havg.
Qed.

(** X15.  When [gather_search_results] returns, there was at least one
    search, and the metadata count the searches as they are:
    [total_searches] is their number, [successful_searches] the number
    of those whose flag [success] is true, [search_timestamp] is the
    day; [tool_type_distribution] has one entry for each type of tool
    that occurs, holding the number of searches of that type, so that
    its counts add up to [total_searches]; [total_execution_time] is the
    sum of the execution times and [average_execution_time] that sum
    divided by the number of searches. *)
Theorem gather_search_results_counts
        (completed_searches : option (list SearchResult))
        (config : option RunnableConfig) (w : world) (source_metadata : dict) :
  let searches := Utils.getattr completed_searches [] in
  fst (gather completed_searches config w) = Returns source_metadata ->
  searches <> [] /\
  dict_get source_metadata "total_searches"
  = Some (VInt (Z.of_nat (List.length searches))) /\
  dict_get source_metadata "successful_searches"
  = Some (VInt (Z.of_nat (List.length (filter succeeded searches)))) /\
  dict_get source_metadata "search_timestamp" = Some (VStr today) /\
  (exists distribution,
      dict_get source_metadata "tool_type_distribution"
      = Some (VDict distribution) /\
      NoDup (keys distribution) /\
      (forall t,
          dict_get distribution t
          = if searches_of t searches =? 0 then None
            else Some (VInt (searches_of t searches))) /\
      fold_right Z.add 0 (map count_of distribution)
      = Z.of_nat (List.length searches)) /\
  (exists total_execution_time,
      builtin_sum (map (fun s => get (metadata s) "execution_time" (VInt 0))
                       searches)
      = Returns total_execution_time /\
      dict_get source_metadata "total_execution_time"
      = Some total_execution_time /\
      option_map Returns (dict_get source_metadata "average_execution_time")
      = Some (builtin_truediv total_execution_time
                              (Z.of_nat (List.length searches)))).
Proof.
  apply gather_returned.
Qed.

Lemma grows_ret {A} (a : A) : stream_grows (ret a).
Proof.
  intros w. exists []. simpl. now rewrite app_nil_r.
Qed.

Lemma grows_raise {A} (e : exn) : stream_grows (@raise world A e).
Proof.
  intros w. exists []. simpl. now rewrite app_nil_r.
Qed.

Lemma grows_lift {A} (o : outcome A) : stream_grows (lift o).
Proof.
  intros w. exists []. simpl. now rewrite app_nil_r.
Qed.

Lemma grows_writer (type : string) : stream_grows (writer type).
Proof.
  intros w. now exists [type].
Qed.

Lemma grows_bind {A B} (c : M world A) (k : A -> M world B) :
  stream_grows c -> (forall a, stream_grows (k a)) -> stream_grows (bind c k).
Proof.
  intros Hc Hk w. unfold bind. destruct (Hc w) as (more & E).
  destruct (c w) as [[a|e] w1]; simpl in E.
  - destruct (Hk a w1) as (more' & E'). exists (more ++ more')%list.
    now rewrite E', E, app_assoc.
  - now exists more.
Qed.

Lemma grows_format_f (v : value) : stream_grows (format_f v).
Proof.
  destruct v; simpl; try apply grows_ret; try apply grows_raise.
  destruct (float_of_int z); [apply grows_ret|apply grows_raise].
Qed.

Lemma grows_format_comma (v : value) : stream_grows (format_comma v).
Proof.
  destruct v; simpl; try apply grows_ret; apply grows_raise.
Qed.

Lemma grows_debug_loop (searches : list SearchResult) :
  stream_grows (debug_loop searches).
Proof.
  induction searches as [|s rest IH]; simpl; [apply grows_ret|].
  apply grows_bind; [apply grows_writer|now intros _].
Qed.

Lemma grows_summary_loop (searches : list SearchResult) :
  stream_grows (summary_loop searches).
Proof.
  induction searches as [|s rest IH]; simpl; [apply grows_ret|].
  apply grows_bind; [apply grows_format_f|intros _].
  apply grows_bind; [apply grows_writer|now intros _].
Qed.

Lemma grows_distribution_loop (items : list (string * Z)) :
  stream_grows (distribution_loop items).
Proof.
  induction items as [|item rest IH]; simpl; [apply grows_ret|].
  apply grows_bind; [apply grows_writer|now intros _].
Qed.

Ltac grows :=
  repeat first
         [ apply grows_ret | apply grows_raise | apply grows_lift
         | apply grows_writer | apply grows_format_f | apply grows_format_comma
         | apply grows_debug_loop | apply grows_summary_loop
         | apply grows_distribution_loop
         | apply grows_bind; [|intros ?]
         | match goal with
           | |- stream_grows (if ?b then _ else _) => destruct b
           | |- stream_grows (match ?l with [] => _ | _ :: _ => _ end) =>
               destruct l
           end ].

(** X14.  [gather_search_results] needs a search: on a state without
    completed searches, or with an empty list of them, it raises
    [ZeroDivisionError] after the first dictionary of the stream, the
    message of the second one dividing by the number of searches; with
    at least one search the second dictionary is written. *)
Theorem gather_search_results_needs_a_search
        (completed_searches : option (list SearchResult))
        (config : option RunnableConfig) (w : world) :
  let searches := Utils.getattr completed_searches [] in
  let run := gather completed_searches config w in
  (searches = [] ->
   run = (Raises ZeroDivisionError, write_stream "gathering_start" w)) /\
  (searches <> [] ->
   exists more,
     stream (snd run)
     = (stream w ++ ["gathering_start"; "success_analysis"] ++ more)%list).
Proof.
  cbv zeta. unfold gather_search_results. cbv zeta.
  destruct (Utils.getattr completed_searches []) as [|s rest].
  - split; [reflexivity|congruence].
  - split; [discriminate|]. intros _.
    do 1 step_writer.
    match goal with
    | |- context [bind (ret tt) ?k ?w1] =>
        change (bind (ret tt) k w1) with (k tt w1); cbv beta
    end.
    step_writer.
    match goal with
    | |- context [stream (snd (?c ?w1))] =>
        assert (G : stream_grows c) by grows;
        destruct (G w1) as (more & E)
    end.
    exists more. etransitivity; [exact E|].
    cbn [stream write_stream]. now rewrite <- !app_assoc.
Qed.

End GatherFacts.

(** X15 (witness).  Two searches are gathered, the news search that
    returned and the knowledge-graph search that was rate-limited: two
    searches, one of them successful, one of each type, four seconds in
    all. *)
Lemma gather_search_results_counts_witness :
  let searches := MoreExamples.two_searches in
  let run :=
    Workflow.gather_search_results
      "2025-06-30" MoreExamples.sum_of MoreExamples.divided_by
      (Some searches) None WorkflowRuns.quiet in
  fst run
  = Py.Returns
      [("total_searches", Py.VInt 2);
       ("successful_searches", Py.VInt 1);
       ("total_execution_time",
         Py.VFloat (S754_finite false 4503599627370496 (-50)));
       ("tool_type_distribution",
         Py.VDict [("news", Py.VInt 1); ("knowledge_graph", Py.VInt 1)]);
       ("search_timestamp", Py.VStr "2025-06-30");
       ("average_execution_time",
         Py.VFloat (S754_finite false 4503599627370496 (-51)));
       ("total_content_length", Py.VInt 44)] /\
  exists distribution,
    Py.dict_get
      [("total_searches", Py.VInt 2);
       ("successful_searches", Py.VInt 1);
       ("total_execution_time",
         Py.VFloat (S754_finite false 4503599627370496 (-50)));
       ("tool_type_distribution",
         Py.VDict [("news", Py.VInt 1); ("knowledge_graph", Py.VInt 1)]);
       ("search_timestamp", Py.VStr "2025-06-30");
       ("average_execution_time",
         Py.VFloat (S754_finite false 4503599627370496 (-51)));
       ("total_content_length", Py.VInt 44)]
      "tool_type_distribution"
    = Some (Py.VDict distribution) /\
    NoDup (Py.keys distribution) /\
    (forall t,
        Py.dict_get distribution t
        = if WorkflowRuns.searches_of t searches =? 0 then None
          else Some (Py.VInt (WorkflowRuns.searches_of t searches))) /\
    fold_right Z.add 0 (map WorkflowRuns.count_of distribution)
    = Z.of_nat (List.length searches).
Proof.
  cbv zeta.
  assert (H : fst (Workflow.gather_search_results
                     "2025-06-30" MoreExamples.sum_of MoreExamples.divided_by
                     (Some MoreExamples.two_searches) None WorkflowRuns.quiet)
              = Py.Returns
                  [("total_searches", Py.VInt 2);
                   ("successful_searches", Py.VInt 1);
                   ("total_execution_time",
                     Py.VFloat (S754_finite false 4503599627370496 (-50)));
                   ("tool_type_distribution",
                     Py.VDict [("news", Py.VInt 1); ("knowledge_graph", Py.VInt 1)]);
                   ("search_timestamp", Py.VStr "2025-06-30");
                   ("average_execution_time",
                     Py.VFloat (S754_finite false 4503599627370496 (-51)));
                   ("total_content_length", Py.VInt 44)]).
  { vm_compute. reflexivity. }
  split; [exact H|].
  exact (proj1 (proj2 (proj2 (proj2 (proj2
           (gather_search_results_counts
              "2025-06-30" MoreExamples.sum_of MoreExamples.divided_by
              (Some MoreExamples.two_searches) None WorkflowRuns.quiet _ H)))))).
Defined.

(* ===================================================================== *)
(** * From the plan to the metadata: the branches and the gathering *)
(* ===================================================================== *)

Section FanOutFacts.
Import Py PyNotations Graph Configuration Workflow WorkflowRuns.

Variable float_of_str : string -> option float.
Variable ainvoke : nat -> nat -> string -> dict -> outcome value.
Variable elapsed : nat -> nat -> float.
Variable worlds : nat -> world.
Variable today : string.
Variable builtin_sum : list value -> outcome value.
Variable builtin_truediv : value -> Z -> outcome value.

Local Abbreviation results_of config i sends :=
  (fan_out float_of_str ainvoke elapsed worlds config i sends).
Local Abbreviation returned_in config i sends :=
  (tools_returned float_of_str ainvoke elapsed worlds config i sends).

(** A strategy whose node does not raise: its type has a tool, and its
    parameters can be cleaned. *)
Local Abbreviation runnable s :=
  (In (tool_type s) tool_types /\
   returned (_clean_tool_parameters float_of_str (parameters s) (tool_type s))
   = true).

Lemma filter_length_permutation {A} (f : A -> bool) (l l' : list A) :
  Permutation l l' ->
  List.length (filter f l) = List.length (filter f l').
Proof.
  induction 1 as [|x l l' _ IH|x y l|l l' l'' _ IH1 _ IH2]; simpl.
  - reflexivity.
  - destruct (f x); simpl; now rewrite IH.
  - now destruct (f x), (f y).
  - now rewrite IH1.
Qed.

Lemma filter_length_map {A B} (f : A -> B) (p : B -> bool) (l : list A) :
  List.length (filter (fun a => p (f a)) l) = List.length (filter p (map f l)).
Proof.
  induction l as [|a l IH]; simpl; [reflexivity|].
  destruct (p (f a)); simpl; now rewrite IH.
Qed.

(** A branch whose node does not raise adds one result: that of its
    strategy, flagged by whether its tool returned. *)
Lemma branch_one (config : option RunnableConfig) (i : nat) (send : Send) :
  runnable (strategy (arg send)) ->
  exists r,
    branch_results float_of_str ainvoke elapsed worlds config i send = [r] /\
    result_strategy r = strategy (arg send) /\
    succeeded r
    = tool_returned float_of_str ainvoke elapsed worlds config i send.
Proof.
  intros (Hknown & Hclean).
  destruct (known_tool float_of_str _ Hknown) as (tool & Htool).
  destruct (_clean_tool_parameters float_of_str _ _) as [cleaned|]
    eqn:Ec; [|discriminate].
  destruct (execute_run float_of_str (ainvoke i) (elapsed i) (arg send) config
                        (worlds i) tool cleaned Htool Ec)
    as (w' & E & Hi & _).
  unfold branch_results, tool_returned, branch_run. rewrite E. simpl fst.
  simpl snd. rewrite Hi, nth_error_app2, Nat.sub_diag by apply Nat.le_refl.
  simpl nth_error. cbv iota beta.
  eexists. split; [reflexivity|].
  destruct (ainvoke i _ tool _); split; reflexivity.
Qed.

Lemma fan_out_run (config : option RunnableConfig) (sends : list Send) :
  Forall (fun send => runnable (strategy (arg send))) sends ->
  forall i,
    map result_strategy (results_of config i sends)
    = map (fun send => strategy (arg send)) sends /\
    List.length (filter succeeded (results_of config i sends))
    = returned_in config i sends.
Proof.
  induction 1 as [|send rest Hsend _ IH]; intros i; simpl; [auto|].
  destruct (branch_one config i send Hsend) as (r & -> & Hs & Hr).
  destruct (IH (S i)) as (IH1 & IH2). simpl. rewrite Hs, IH1. split; [reflexivity|].
  rewrite Hr. destruct (tool_returned _ _ _ _ _ _ _); simpl; now rewrite IH2.
Qed.

(** X17.  From the plan to the metadata.  When every strategy of the
    plan has a type with a tool and parameters that can be cleaned, and
    the completed searches are what the branches of
    [initiate_parallel_searches] returned, added up in whatever order,
    then the metadata of [gather_search_results] account for every
    strategy, whatever its tool did: [total_searches] is the number of
    strategies, [successful_searches] the number of branches whose tool
    returned, and [tool_type_distribution] holds for each type the
    number of strategies of that type. *)
Theorem every_strategy_is_gathered
        (state : BigdataSearchState) (config : option RunnableConfig)
        (completed_searches : list SearchResult) (w : world)
        (source_metadata : dict) :
  let strategies := search_strategies state in
  let sends := initiate_parallel_searches state in
  Forall (fun s => runnable s) strategies ->
  Permutation completed_searches (results_of config 0 sends) ->
  fst (gather_search_results today builtin_sum builtin_truediv
                             (Some completed_searches) config w)
  = Returns source_metadata ->
  dict_get source_metadata "total_searches"
  = Some (VInt (Z.of_nat (List.length strategies))) /\
  dict_get source_metadata "successful_searches"
  = Some (VInt (Z.of_nat (returned_in config 0 sends))) /\
  exists distribution,
    dict_get source_metadata "tool_type_distribution"
    = Some (VDict distribution) /\
    forall t,
      dict_get distribution t
      = if strategies_of t strategies =? 0 then None
        else Some (VInt (strategies_of t strategies)).
Proof.
  intros strategies sends Hrun Hperm Hgather.
  assert (Hsends : Forall (fun send => runnable (strategy (arg send))) sends).
  { subst sends. unfold initiate_parallel_searches.
    apply Forall_map. simpl. exact Hrun. }
  destruct (fan_out_run config sends Hsends 0) as (Hmap & Hsucc).
  assert (Hstrategies : map (fun send => strategy (arg send)) sends = strategies).
  { subst sends. unfold initiate_parallel_searches.
    rewrite map_map. simpl. apply map_id. }
  rewrite Hstrategies in Hmap.
  destruct (gather_returned today builtin_sum builtin_truediv
                            (Some completed_searches) config w source_metadata
                            Hgather)
    as (_ & Htotal & Hsuccessful & _ & (distribution & Hd & _ & Hcount & _) & _).
  simpl Utils.getattr in *.
  split; [|split].
  - rewrite Htotal, (Permutation_length Hperm).
    now rewrite <- (length_map result_strategy), Hmap.
  - rewrite Hsuccessful, (filter_length_permutation _ _ _ Hperm).
    now rewrite Hsucc.
  - exists distribution. split; [exact Hd|]. intros t. rewrite Hcount.
    assert (E : searches_of t completed_searches = strategies_of t strategies).
    { unfold searches_of, strategies_of. f_equal.
      rewrite (filter_length_permutation _ _ _ Hperm).
      rewrite (filter_length_map result_strategy
                                 (fun s => String.eqb (tool_type s) t)).
      now rewrite Hmap. }
    now rewrite E.
Qed.

End FanOutFacts.

(** X17 (witness).  A plan of two strategies, the second of which meets
    a rate limit: both are counted, one as successful. *)
Lemma every_strategy_is_gathered_witness :
  let source_metadata :=
    [("total_searches", Py.VInt 2);
     ("successful_searches", Py.VInt 1);
     ("total_execution_time",
       Py.VFloat (S754_finite false 4503599627370496 (-50)));
     ("tool_type_distribution",
       Py.VDict [("knowledge_graph", Py.VInt 1); ("news", Py.VInt 1)]);
     ("search_timestamp", Py.VStr "2025-06-30");
     ("average_execution_time",
       Py.VFloat (S754_finite false 4503599627370496 (-51)));
     ("total_content_length", Py.VInt 44)] in
  fst (Workflow.gather_search_results
         "2025-06-30" MoreExamples.sum_of MoreExamples.divided_by
         (Some MoreExamples.plan_searches) None WorkflowRuns.quiet)
  = Py.Returns source_metadata /\
  Py.dict_get source_metadata "total_searches"
  = Some (Py.VInt (Z.of_nat (List.length
                               (Graph.search_strategies MoreExamples.plan)))) /\
  Py.dict_get source_metadata "successful_searches"
  = Some (Py.VInt
            (Z.of_nat
               (WorkflowRuns.tools_returned
                  Examples.no_float MoreExamples.branch_tools
                  MoreExamples.branch_clock MoreExamples.branch_world None 0
                  (Graph.initiate_parallel_searches MoreExamples.plan)))) /\
  exists distribution,
    Py.dict_get source_metadata "tool_type_distribution"
    = Some (Py.VDict distribution) /\
    forall t,
      Py.dict_get distribution t
      = if WorkflowRuns.strategies_of
             t (Graph.search_strategies MoreExamples.plan) =? 0
        then None
        else Some (Py.VInt (WorkflowRuns.strategies_of
                              t (Graph.search_strategies MoreExamples.plan))).
Proof.
  cbv zeta.
  assert (H : fst (Workflow.gather_search_results
                     "2025-06-30" MoreExamples.sum_of MoreExamples.divided_by
                     (Some MoreExamples.plan_searches) None WorkflowRuns.quiet)
              = Py.Returns
                  [("total_searches", Py.VInt 2);
                   ("successful_searches", Py.VInt 1);
                   ("total_execution_time",
                     Py.VFloat (S754_finite false 4503599627370496 (-50)));
                   ("tool_type_distribution",
                     Py.VDict [("knowledge_graph", Py.VInt 1);
                               ("news", Py.VInt 1)]);
                   ("search_timestamp", Py.VStr "2025-06-30");
                   ("average_execution_time",
                     Py.VFloat (S754_finite false 4503599627370496 (-51)));
                   ("total_content_length", Py.VInt 44)]).
  { vm_compute. reflexivity. }
  split; [exact H|].
  apply (every_strategy_is_gathered
           Examples.no_float MoreExamples.branch_tools MoreExamples.branch_clock
           MoreExamples.branch_world
           "2025-06-30" MoreExamples.sum_of MoreExamples.divided_by
           MoreExamples.plan None MoreExamples.plan_searches WorkflowRuns.quiet).
  - repeat constructor; simpl; tauto.
  - unfold MoreExamples.plan_searches. symmetry. apply Permutation_rev.
  - exact H.
Defined.

(* ===================================================================== *)
(** * Properties of the command line of the batch scripts *)
(* ===================================================================== *)

Section ScriptFacts.
Import Py Script Spec.

Lemma split_without (sep : ascii) (s : string) :
  count_char sep s = 0%nat -> split sep s = [s].
Proof.
  induction s as [|c s IH]; simpl; [reflexivity|].
  destruct (Ascii.eqb c sep); simpl; [discriminate|].
  intros H. now rewrite (IH H).
Qed.

Lemma split_at (sep : ascii) (s rest : string) :
  count_char sep s = 0%nat ->
  split sep (s ++ String sep rest) = s :: split sep rest.
Proof.
  induction s as [|c s IH]; simpl.
  - now rewrite Ascii.eqb_refl.
  - destruct (Ascii.eqb c sep); simpl; [discriminate|].
    intros H. now rewrite (IH H).
Qed.

Lemma setitem_fresh (d : str_dict) (k v : string) :
  ~ In k (map fst d) -> setitem d k v = (d ++ [(k, v)])%list.
Proof.
  induction d as [|[k0 v0] d IH]; simpl; [reflexivity|].
  intros H. destruct (String.eqb_spec k0 k); [tauto|].
  rewrite IH; tauto.
Qed.

Lemma split_argument (key rest : string) :
  count_char "=" key = 0%nat ->
  split "=" (argument (key, rest)) = key :: split "=" rest.
Proof.
  intros H. unfold argument. simpl fst. simpl snd.
  now apply (split_at "=" key rest).
Qed.

Lemma parse_cons (param : string) (rest : list string) (params : str_dict) :
  parse (param :: rest) params
  = match item (split "=" param) 0 with
    | Raises e => Raises e
    | Returns key =>
        match item (split "=" param) 1 with
        | Raises e => Raises e
        | Returns value => parse rest (setitem params key value)
        end
    end.
Proof.
  reflexivity.
Qed.

(** Arguments written [key=value] build the dictionary of their
    entries. *)
Lemma parse_arguments (entries : list (string * string)) :
  Forall (fun entry => count_char "=" (fst entry) = 0%nat /\
                       count_char "=" (snd entry) = 0%nat) entries ->
  forall params,
    NoDup (map fst params ++ map fst entries) ->
    parse (map argument entries) params = Returns (params ++ entries)%list.
Proof.
  induction 1 as [|[k v] rest (Hk & Hv) _ IH]; intros params Hnd; simpl.
  - now rewrite app_nil_r.
  - unfold argument at 1 2. simpl fst. simpl snd.
    change (k ++ "=" ++ v)%string with (k ++ String "=" v)%string.
    rewrite (split_at "=" k v Hk), (split_without "=" v Hv). simpl.
    simpl in Hk, Hv, Hnd.
    assert (Hfresh : ~ In k (map fst params)).
    { apply NoDup_remove_2 in Hnd. intros Hin. apply Hnd.
      apply in_or_app. now left. }
    rewrite (setitem_fresh params k v Hfresh), IH.
    + now rewrite <- app_assoc.
    + rewrite map_app. simpl. rewrite <- app_assoc. exact Hnd.
Qed.

(** An argument without [=] stops the comprehension. *)
Lemma parse_without_equals (argv : list string) :
  Exists (fun param => count_char "=" param = 0%nat) argv ->
  forall params, parse argv params = Raises IndexError.
Proof.
  induction argv as [|param rest IH]; intros Hex params.
  - inversion Hex.
  - simpl. destruct (count_char "=" param) as [|n] eqn:E.
    + now rewrite (split_without "=" param E).
    + assert (Hrest : Exists (fun param => count_char "=" param = 0%nat) rest).
      { inversion Hex; subst; [congruence|assumption]. }
      pose proof (split_length "=" param) as L. rewrite E in L.
      destruct (split "=" param) as [|key [|value more]];
        simpl in L; try discriminate.
      simpl. now apply IH.
Qed.

(** X18.  The command line of the two scripts.  Arguments written
    [key=value], with distinct keys and no other [=], build the
    dictionary of their entries, in order.  An argument without [=]
    makes the script raise [IndexError], whatever the other arguments
    are.  And a value is cut at its first [=]: of [key=value=more] the
    dictionary keeps [value] alone. *)
Theorem parse_command_line :
  (forall entries,
      Forall (fun entry => count_char "=" (fst entry) = 0%nat /\
                           count_char "=" (snd entry) = 0%nat) entries ->
      NoDup (map fst entries) ->
      parse (map argument entries) [] = Returns entries) /\
  (forall argv,
      Exists (fun param => count_char "=" param = 0%nat) argv ->
      parse argv [] = Raises IndexError) /\
  (forall key value more,
      count_char "=" key = 0%nat ->
      count_char "=" value = 0%nat ->
      parse [argument (key, argument (value, more))] [] = Returns [(key, value)]).
Proof.
  split; [|split].
  - intros entries H Hnd. now apply (parse_arguments entries H []).
  - intros argv H. now apply parse_without_equals.
  - intros key value more Hk Hv. rewrite parse_cons.
    now rewrite !(split_argument key _ Hk), !(split_argument value more Hv).
Qed.

End ScriptFacts.

(** The command line of the download script, in a directory whose name
    holds an equals sign: the name is cut. *)
Example parse_command_line_cut :
  Script.parse ["workdir=/data/run=7"; "output_dir=/out"; "max_concurrency=4"] []
  = Py.Returns [("workdir", "/data/run"); ("output_dir", "/out");
                ("max_concurrency", "4")].
Proof.
  reflexivity.
Qed.

(* ===================================================================== *)
(** * Properties of tools.py *)
(* ===================================================================== *)

Section ToolsFacts.
Import Py PyNotations Utils Tools ToolsRuns Spec.

Variable BIGDATA_AVAILABLE : bool.
Variable Bigdata_init : nat -> string -> string -> option exn.
Variable execute_search :
  nat -> string -> Bigdata -> string -> outcome (list Document).
Variable execute_knowledge_graph_search :
  nat -> string -> Bigdata -> string -> outcome (list kg_item).
Variable str_of_other : value -> string.
Variable format : value -> string -> outcome string.

Local Abbreviation get_client :=
  (get_bigdata_client BIGDATA_AVAILABLE Bigdata_init).

(** A [try] whose handler returns a text returns a text. *)
Lemma try_except_returns {A} (c : M world A) (h : exn -> A) (w : world) :
  exists a, fst (try_except c (fun e => ret (h e)) w) = Returns a.
Proof.
  unfold try_except. destruct (c w) as [[a|e] w1]; eexists; reflexivity.
Qed.

(** The search behind the tools, by whether a client can be had. *)
Lemma search_async_outcome (kind : string) (queries : list string) (w : world) :
  match get_client w with
  | (Raises e, _) =>
      fst (search_async BIGDATA_AVAILABLE Bigdata_init execute_search
                        kind queries true w)
      = Raises e
  | (Returns bigdata, w1) =>
      fst (search_async BIGDATA_AVAILABLE Bigdata_init execute_search
                        kind queries true w)
      = Returns (results_of (query_outcomes execute_search kind bigdata true
                                            (executions w1) queries))
  end.
Proof.
  destruct (get_client w) as [[bigdata|e] w1] eqn:E.
  - rewrite (search_async_run _ _ _ kind queries true w w1 bigdata E).
    now destruct (search_loop_run execute_search kind bigdata true
                                  (List.length queries) queries [] w1)
      as (H & _).
  - unfold search_async. unfold get_bigdata_client in E.
    destruct BIGDATA_AVAILABLE; simpl in *.
    + unfold bind. unfold get_bigdata_client. simpl. now rewrite E.
    + unfold raise in *. now inversion E.
Qed.

Lemma search_tool_reports (kind nothing heading error : string)
      (entry : Z -> dict -> M world string) :
  reports BIGDATA_AVAILABLE Bigdata_init execute_search
          (fun queries =>
             search_tool BIGDATA_AVAILABLE Bigdata_init execute_search
                         kind queries nothing heading error entry)
          kind nothing error.
Proof.
  intros queries w. split; [apply try_except_returns|].
  pose proof (search_async_outcome kind queries w) as H.
  destruct (get_client w) as [[bigdata|e] w1].
  - intros Hnone. rewrite Hnone in H.
    unfold search_tool, try_except, bind.
    destruct (search_async _ _ _ kind queries true w) as [o w2].
    simpl in H. now subst o.
  - unfold search_tool, try_except, bind.
    destruct (search_async _ _ _ kind queries true w) as [o w2].
    simpl in H. now subst o.
Qed.

(** X19.  The four search tools never raise: each returns a text for
    every list of queries, whatever the vendor does.  When no client can
    be had (the package is missing, the credentials are not set, the
    constructor raises), the text is that of the error after the words
    "Error executing ... search: ".  When there is a client and no query
    yields a result, the text says that nothing was found, whether the
    searches found nothing or every one of them raised. *)
Theorem search_tools_report :
  reports BIGDATA_AVAILABLE Bigdata_init execute_search
          (bigdata_news_search BIGDATA_AVAILABLE Bigdata_init execute_search
                               str_of_other)
          "news"
          "No news results found for the given queries."
          "Error executing news search: " /\
  reports BIGDATA_AVAILABLE Bigdata_init execute_search
          (bigdata_transcript_search BIGDATA_AVAILABLE Bigdata_init
                                     execute_search str_of_other format)
          "transcript"
          "No transcript results found for the given queries."
          "Error executing transcript search: " /\
  reports BIGDATA_AVAILABLE Bigdata_init execute_search
          (bigdata_filings_search BIGDATA_AVAILABLE Bigdata_init
                                  execute_search str_of_other format)
          "filings"
          "No filings results found for the given queries."
          "Error executing filings search: " /\
  reports BIGDATA_AVAILABLE Bigdata_init execute_search
          (bigdata_universal_search BIGDATA_AVAILABLE Bigdata_init
                                    execute_search str_of_other format)
          "universal"
          "No results found across any document types for the given queries."
          "Error executing universal search: ".
Proof.
  repeat split; apply search_tool_reports.
Qed.

(** X20.  The knowledge-graph tool never raises either.  When no client
    can be had, its text is that of the error; a search type other than
    the three known ones is reported as an error too, and no lookup is
    made; and when the lookup raises or finds nothing, the text says
    that nothing of that type was found for the term. *)
Theorem knowledge_graph_tool_reports (search_type search_term : string)
        (w : world) :
  let tool :=
    bigdata_knowledge_graph BIGDATA_AVAILABLE Bigdata_init
                            execute_knowledge_graph_search str_of_other
                            search_type search_term in
  let known :=
    str_in_list search_type ["companies"; "sources"; "autosuggest"] in
  (exists text, fst (tool w) = Returns text) /\
  match get_client w with
  | (Raises e, _) =>
      known = true ->
      fst (tool w)
      = Returns ("Error executing knowledge graph search: " ++ exn_str e)
  | (Returns bigdata, w1) =>
      (known = false ->
       tool w
       = (Returns ("Error executing knowledge graph search: "
                     ++ "Invalid search_type '" ++ search_type
                     ++ "'. Must be one of: companies, sources, autosuggest"),
          w)) /\
      (known = true ->
       match execute_knowledge_graph_search (executions w1) search_type
                                            bigdata search_term with
       | Returns (_ :: _) => True
       | _ =>
           fst (tool w)
           = Returns ("No " ++ search_type ++ " found for '" ++ search_term
                        ++ "'.")
       end)
  end.
Proof.
  cbv zeta. split; [apply try_except_returns|].
  destruct (get_client w) as [[bigdata|e] w1] eqn:E.
  - destruct (get_client_returns _ _ _ _ _ E) as (Ha & _).
    split; intros Hknown.
    + unfold bigdata_knowledge_graph, bigdata_knowledge_graph_async,
        try_except, bind.
      rewrite Ha, Hknown. reflexivity.
    + unfold bigdata_knowledge_graph, try_except, bind.
      rewrite (knowledge_graph_run _ _ _ search_type search_term w w1 bigdata
                                   E Hknown).
      destruct (execute_knowledge_graph_search _ _ _ _) as [[|item items]|e];
        [reflexivity|exact I|reflexivity].
  - intros Hknown.
    unfold bigdata_knowledge_graph, bigdata_knowledge_graph_async,
      try_except, bind.
    rewrite Hknown. unfold get_bigdata_client in E.
    destruct BIGDATA_AVAILABLE; cbn [negb] in *.
    + unfold get_bigdata_client. cbn [negb]. now rewrite E.
    + unfold raise in *. now inversion E.
Qed.

End ToolsFacts.
